(** * Verification of [phishing_detector.py]

    A shallow embedding of the scoring engine of [PhishingDetector]
    ([analyze_urls], [analyze_keywords], [analyze_headers],
    [analyze_message]) together with the parts of the Python runtime the
    engine relies on: binary64 arithmetic, [str] methods, the [re] matcher
    and [urllib.parse.urlparse].

    Modelling decisions.
    - Numbers are Python numbers: an [int] or a binary64 [float].  Floats are
      the IEEE 754 values of [SpecFloat] with precision 53 and [emax] 1024,
      rounded to nearest even, which is what CPython's [float] computes.
      The program's scores are floats, or the int [0] they start from.
    - A [str] is a [string] of 8-bit characters, read as the code points
      U+0000..U+00FF.  Every pattern, keyword and suffix of the program is
      ASCII, and on this range no character outside ASCII case-folds to an
      ASCII one; code points above U+00FF are outside the model.
    - The detector object is an explicit state threaded through every
      method by a state-and-exception monad; exceptions are values.
    - The library follows CPython up to 3.11.  Two later changes are dealt
      with where they matter: the validation of a bracketed host by
      [urlsplit] is a parameter of the model, and [sum] is the plain left
      fold (3.12 sums floats with a compensation term). *)

From Stdlib Require Import ZArith Bool List Ascii Lia.
From Stdlib Require String.
From Stdlib Require Import Floats.SpecFloat.
From stdpp Require Import base gmap strings.

Local Open Scope Z_scope.

(** ** Python numbers *)

Module Num.

Definition prec : Z := 53.
Definition emax : Z := 1024.

(** [float(z)] for an integer [z], correctly rounded.  (Python raises
    [OverflowError] beyond the float range and compares an int with a float
    exactly; on the ints of this program, which are all 0, and up to 2^53,
    that is the same as converting first.) *)
Definition of_Z (z : Z) : spec_float := binary_normalize prec emax z 0 false.

(** The float denoted by the decimal literal [n/d]: the literal is read as
    the binary64 value nearest to the rational it writes, and so is the
    correctly rounded quotient of two exactly representable integers. *)
Definition decimal (n d : Z) : spec_float :=
  SFdiv prec emax (of_Z n) (of_Z d).

Inductive num : Type :=
| Int (z : Z)
| Float (f : spec_float).

Definition to_float (x : num) : spec_float :=
  match x with
  | Int z => of_Z z
  | Float f => f
  end.

(** [x + y]: integer addition on two ints, otherwise the int operand is
    converted and the floats are added. *)
Definition add (x y : num) : num :=
  match x, y with
  | Int a, Int b => Int (a + b)
  | _, _ => Float (SFadd prec emax (to_float x) (to_float y))
  end.

(** [x < y], [x <= y], [x >= y] and [x == y]; every comparison with a NaN
    is false. *)
Definition ltb (x y : num) : bool :=
  match x, y with
  | Int a, Int b => a <? b
  | _, _ => SFltb (to_float x) (to_float y)
  end.

Definition leb (x y : num) : bool :=
  match x, y with
  | Int a, Int b => a <=? b
  | _, _ => SFleb (to_float x) (to_float y)
  end.

Definition geb (x y : num) : bool := leb y x.

Definition eqb (x y : num) : bool :=
  match x, y with
  | Int a, Int b => a =? b
  | _, _ => SFeqb (to_float x) (to_float y)
  end.

(** The builtin [min(a, b)]: [b] replaces [a] only when [b < a]. *)
Definition min (a b : num) : num := if ltb b a then b else a.

(** [sum(xs)]: a left fold of [+] from the int [0], as CPython computes it
    up to 3.11. *)
Definition sum (xs : list num) : num := fold_left add xs (Int 0).

(** The literals of the program. *)
Definition f0_2 : num := Float (decimal 2 10).
Definition f0_3 : num := Float (decimal 3 10).
Definition f0_4 : num := Float (decimal 4 10).
Definition f0_5 : num := Float (decimal 5 10).
Definition f0_6 : num := Float (decimal 6 10).
Definition f0_7 : num := Float (decimal 7 10).
Definition f0_8 : num := Float (decimal 8 10).
Definition f1_0 : num := Float (decimal 10 10).

(** Numbers that are not negative, not NaN and not the negative zero. *)
Definition nonneg (x : num) : bool :=
  match x with
  | Int z => 0 <=? z
  | Float (S754_zero false) => true
  | Float (S754_infinity false) => true
  | Float (S754_finite false _ _) => true
  | Float _ => false
  end.

End Num.

(** ** Python exceptions and [str] methods *)

Inductive exn : Type :=
| ValueError (msg : string)
| IndexError (msg : string).

Module Str.

Definition code (c : ascii) : N := N_of_ascii c.

Definition between (lo hi : N) (c : ascii) : bool :=
  ((lo <=? code c) && (code c <=? hi))%N.

(** Upper-case letters of U+0000..U+00FF: A-Z, and U+00C0..U+00DE without
    the multiplication sign U+00D7.  Each has its lower-case form 32 code
    points above. *)
Definition is_upper (c : ascii) : bool :=
  between 65 90 c || (between 192 222 c && negb (code c =? 215)%N).

Definition lower_char (c : ascii) : ascii :=
  if is_upper c then ascii_of_N (code c + 32) else c.

(** The letters that [lower_char] produces, sent back to the letter they
    come from.  (U+00B5, U+00DF and U+00FF are lower-case letters whose
    upper-case forms lie outside the range; they are left alone.) *)
Definition upper_char (c : ascii) : ascii :=
  if between 97 122 c || (between 224 254 c && negb (code c =? 247)%N)
  then ascii_of_N (code c - 32) else c.

(** [s.lower()] *)
Fixpoint lower (s : string) : string :=
  match s with
  | EmptyString => EmptyString
  | String c s' => String (lower_char c) (lower s')
  end.

(** [s.startswith(p)] *)
Fixpoint startswith (s p : string) {struct p} : bool :=
  match p, s with
  | EmptyString, _ => true
  | String _ _, EmptyString => false
  | String a p', String b s' => Ascii.eqb a b && startswith s' p'
  end.

(** [sub in s] *)
Fixpoint contains (s sub : string) : bool :=
  startswith s sub ||
  match s with
  | EmptyString => false
  | String _ s' => contains s' sub
  end.

(** [s.endswith(suf)]: some suffix of [s] is [suf]. *)
Fixpoint endswith (s suf : string) : bool :=
  String.eqb s suf ||
  match s with
  | EmptyString => false
  | String _ s' => endswith s' suf
  end.

(** [s.count(c)] for a one-character [c] *)
Fixpoint count (s : string) (c : ascii) : nat :=
  match s with
  | EmptyString => 0%nat
  | String a s' => ((if Ascii.eqb a c then 1 else 0) + count s' c)%nat
  end.

(** [s.split(sep)] for a one-character [sep] *)
Fixpoint split (s : string) (sep : ascii) : list string :=
  match s with
  | EmptyString => [EmptyString]
  | String c s' =>
      if Ascii.eqb c sep then EmptyString :: split s' sep
      else match split s' sep with
           | seg :: segs => String c seg :: segs
           | [] => [String c EmptyString]
           end
  end.

(** [l[-1]] *)
Definition last_item {A : Type} (l : list A) : exn + A :=
  match rev l with
  | x :: _ => inr x
  | [] => inl (IndexError "list index out of range")
  end.

(** [s.find(c)] for a one-character [c], [None] standing for [-1] *)
Fixpoint find (s : string) (c : ascii) : option nat :=
  match s with
  | EmptyString => None
  | String a s' => if Ascii.eqb a c then Some 0%nat else S <$> find s' c
  end.

(** [s[:n]] and [s[n:]] *)
Fixpoint take (n : nat) (s : string) : string :=
  match n, s with
  | S n', String c s' => String c (take n' s')
  | _, _ => EmptyString
  end.

Fixpoint drop (n : nat) (s : string) : string :=
  match n, s with
  | S n', String _ s' => drop n' s'
  | _, _ => s
  end.

Fixpoint forallb (p : ascii -> bool) (s : string) : bool :=
  match s with
  | EmptyString => true
  | String c s' => p c && forallb p s'
  end.

(** The longest prefix of [s] holding no character that satisfies [p]. *)
Fixpoint take_until (p : ascii -> bool) (s : string) : string :=
  match s with
  | EmptyString => EmptyString
  | String c s' => if p c then EmptyString else String c (take_until p s')
  end.

End Str.

(** ** The [re] matcher

    A backtracking matcher in continuation-passing style with the search
    order of CPython's engine: alternatives are tried left to right,
    repetition is greedy, and the first way of matching the whole pattern
    wins. *)

Module Re.

(** A character set is a union of inclusive ranges; a single character
    [c] is the range [(c, c)]. *)
Definition charset : Type := list (ascii * ascii).

Inductive regex : Type :=
| Eps
| Set_ (cs : charset)
| Cat (a b : regex)
| Alt (a b : regex)
| Star (a : regex)
| Eol.

Definition in_set (cs : charset) (c : ascii) : bool :=
  existsb (fun r => Str.between (Str.code (fst r)) (Str.code (snd r)) c) cs.

(** Under [re.I] a character matches a set when some member of the set has
    the same lower-case form. *)
Definition member (icase : bool) (cs : charset) (c : ascii) : bool :=
  if icase
  then in_set cs (Str.lower_char c) || in_set cs (Str.upper_char (Str.lower_char c))
  else in_set cs c.

Definition newline : string := String (ascii_of_N 10) EmptyString.

(** [$] without [re.M]: the end of the subject, or just before a newline
    that ends it. *)
Definition at_eol (s : string) : bool :=
  String.eqb s EmptyString || String.eqb s newline.

(** Greedy repetition of [step]: take one more iteration when it matches,
    consumes something and lets the rest of the pattern match; otherwise
    stop here.  [n] bounds the iterations by the length of the subject. *)
Fixpoint star_loop (step : string -> (string -> option string) -> option string)
    (k : string -> option string) (n : nat) (s : string) {struct n}
    : option string :=
  match n with
  | O => k s
  | S n' =>
      match step s (fun s1 => if (String.length s1 <? String.length s)%nat
                              then star_loop step k n' s1 else None) with
      | Some x => Some x
      | None => k s
      end
  end.

(** [bt icase r s k]: match [r] at the start of [s], then the rest of the
    pattern [k] on what is left; the result is what the whole match leaves
    unread. *)
Fixpoint bt (icase : bool) (r : regex) (s : string)
    (k : string -> option string) {struct r} : option string :=
  match r with
  | Eps => k s
  | Set_ cs =>
      match s with
      | String c s' => if member icase cs c then k s' else None
      | EmptyString => None
      end
  | Cat a b => bt icase a s (fun s1 => bt icase b s1 k)
  | Alt a b =>
      match bt icase a s k with
      | Some x => Some x
      | None => bt icase b s k
      end
  | Star a => star_loop (bt icase a) k (String.length s) s
  | Eol => if at_eol s then k s else None
  end.

(** Pattern syntax. *)
Definition chr (c : ascii) : regex := Set_ [(c, c)].

Fixpoint lit (s : string) : regex :=
  match s with
  | EmptyString => Eps
  | String c EmptyString => chr c
  | String c s' => Cat (chr c) (lit s')
  end.

Definition digit : regex := Set_ [("0", "9")]%char.
Definition opt (r : regex) : regex := Alt r Eps.
Definition plus (r : regex) : regex := Cat r (Star r).

Fixpoint at_least (n : nat) (r : regex) : regex :=
  match n with
  | O => Star r
  | S n' => Cat r (at_least n' r)
  end.

(** A compiled pattern keeps its source text; [anchored] records a leading
    [^]. *)
Record pattern : Type := Pattern {
  source : string;
  anchored : bool;
  body : regex
}.

(** What a match at the start of [s] leaves unread. *)
Definition match_rest (icase : bool) (p : pattern) (s : string) : option string :=
  bt icase (body p) s Some.

(** [re.match(p, s)] as a truth value *)
Definition is_match (icase : bool) (p : pattern) (s : string) : bool :=
  match match_rest icase p s with
  | Some _ => true
  | None => false
  end.

Fixpoint search_from (icase : bool) (p : pattern) (s : string) : bool :=
  is_match icase p s ||
  match s with
  | EmptyString => false
  | String _ s' => search_from icase p s'
  end.

(** [re.search(p, s)] as a truth value *)
Definition search (icase : bool) (p : pattern) (s : string) : bool :=
  if anchored p then is_match icase p s else search_from icase p s.

(** [re.findall(p, s)] for a pattern without capturing groups.  [skip]
    counts the characters still covered by the last match found. *)
Fixpoint findall_from (icase : bool) (p : pattern) (skip : nat) (s : string)
    : list string :=
  match skip with
  | S n =>
      match s with
      | String _ s' => findall_from icase p n s'
      | EmptyString => []
      end
  | O =>
      match match_rest icase p s with
      | Some rest =>
          let len := (String.length s - String.length rest)%nat in
          Str.take len s ::
          match s with
          | String _ s' => findall_from icase p (len - 1) s'
          | EmptyString => []
          end
      | None =>
          match s with
          | String _ s' => findall_from icase p 0 s'
          | EmptyString => []
          end
      end
  end.

Definition findall (icase : bool) (p : pattern) (s : string) : list string :=
  findall_from icase p 0 s.

End Re.

(** ** [urllib.parse.urlparse]: the network location *)

Module Url.

Definition is_ascii_alpha (c : ascii) : bool :=
  Str.between 65 90 c || Str.between 97 122 c.

Definition scheme_char (c : ascii) : bool :=
  is_ascii_alpha c || Str.between 48 57 c ||
  Ascii.eqb c "+" || Ascii.eqb c "-" || Ascii.eqb c ".".

(** The url once a leading [scheme:] is taken off, as [urlsplit] does when
    the colon is not first, the first character is an ASCII letter and the
    characters before the colon are scheme characters. *)
Definition strip_scheme (url : string) : string :=
  match Str.find url ":", url with
  | Some (S i), String c _ =>
      if is_ascii_alpha c && Str.forallb scheme_char (Str.take (S i) url)
      then Str.drop (S (S i)) url
      else url
  | _, _ => url
  end.

Definition delimiter (c : ascii) : bool :=
  Ascii.eqb c "/" || Ascii.eqb c "?" || Ascii.eqb c "#".

Section Netloc.

(** The validation of a network location that holds both brackets,
    giving the message of the [ValueError] it raises, if any.  It belongs
    to the interpreter's library and changed between releases: it accepts
    everything before CPython 3.11.4 and checks the bracketed host as an
    IP literal since. *)
Variable check_bracketed_netloc : string -> option string.

(** [urlparse(url).netloc], or the [ValueError] that [urlsplit] raises.
    The strip of leading control characters and the removal of tab, CR
    and LF of later releases, and the NFKC check of a non-ASCII netloc,
    change nothing on a url made of the characters of the URL pattern. *)
Definition netloc (url : string) : exn + string :=
  let rest := strip_scheme url in
  if Str.startswith rest "//" then
    let loc := Str.take_until delimiter (Str.drop 2 rest) in
    let opening := Str.contains loc "[" in
    let closing := Str.contains loc "]" in
    if (opening && negb closing) || (closing && negb opening)
    then inl (ValueError "Invalid IPv6 URL")
    else if opening && closing then
      match check_bracketed_netloc loc with
      | Some msg => inl (ValueError msg)
      | None => inr loc
      end
    else inr loc
  else inr EmptyString.

End Netloc.

End Url.

(** ** The detector object and its methods *)

(** The three rule tables that [__init__] stores on the object.  The
    keyword table is a [dict] with distinct keys that [items()] reads in
    insertion order (Python 3.7 and later), hence a list of pairs. *)
Record PhishingDetector : Type := {
  suspicious_keywords : list (string * Num.num);
  suspicious_tlds : list string;
  suspicious_sender_patterns : list Re.pattern
}.

(** A method is a computation on the object: it receives the object and
    gives back the object it leaves behind, with a value or an exception. *)
Definition M (A : Type) : Type :=
  PhishingDetector -> PhishingDetector * (exn + A).

Definition ret {A : Type} (a : A) : M A := fun self => (self, inr a).

Definition bind {A B : Type} (m : M A) (f : A -> M B) : M B :=
  fun self =>
    match m self with
    | (self', inr a) => f a self'
    | (self', inl e) => (self', inl e)
    end.

(** Reading an attribute of [self]. *)
Definition attr {A : Type} (field : PhishingDetector -> A) : M A :=
  fun self => (self, inr (field self)).

(** A library call that may raise. *)
Definition call {A : Type} (r : exn + A) : M A := fun self => (self, r).

#[global] Instance M_ret : MRet M := @ret.
#[global] Instance M_bind : MBind M := fun A B f m => bind m f.

(** A [for] loop whose body updates the loop state [acc]. *)
Fixpoint for_each {A S : Type} (xs : list A) (body : S -> A -> M S) (acc : S)
    : M S :=
  match xs with
  | [] => ret acc
  | x :: xs' => acc' ← body acc x; for_each xs' body acc'
  end.

Module URLFinding.
Record t : Type := Build {
  url : string;
  risk_score : Num.num;
  reasons : list string
}.
End URLFinding.

Module KeywordResult.
Record t : Type := Build {
  score : Num.num;
  detected_keywords : list string
}.
End KeywordResult.

Module HeaderResult.
Record t : Type := Build {
  score : Num.num;
  reasons : list string
}.
End HeaderResult.

(** The report; [header_analysis] is [None] while it still holds the empty
    list it is created with. *)
Record AnalysisReport : Type := {
  overall_risk_score : Num.num;
  risk_level : string;
  url_analysis : list URLFinding.t;
  keyword_analysis : KeywordResult.t;
  header_analysis : option HeaderResult.t;
  recommendations : list string
}.

Module Patterns.
Import Re.

Definition sep2 : regex := opt (Set_ [("_", "_"); ("-", "-")]%char).
Definition sep3 : regex :=
  opt (Set_ [(".", "."); ("_", "_"); ("-", "-")]%char).
Definition alnum : regex :=
  Set_ [("a", "z"); ("A", "Z"); ("0", "9")]%char.
Definition hex : regex :=
  Set_ [("0", "9"); ("a", "f"); ("A", "F")]%char.
Definition at_sign : regex := chr "@".
Definition dot : regex := chr ".".

Definition cat (rs : list regex) : regex :=
  match rev rs with
  | [] => Eps
  | r :: front => fold_left (fun acc x => Cat x acc) front r
  end.

(** [http[s]?://(?:[a-zA-Z]|[0-9]|[$-_@.&+]|[!*\\(\\),]|(?:%[0-9a-fA-F][0-9a-fA-F]))+] *)
Definition url_pattern : pattern :=
  Pattern
    "http[s]?://(?:[a-zA-Z]|[0-9]|[$-_@.&+]|[!*\\(\\),]|(?:%[0-9a-fA-F][0-9a-fA-F]))+"
    false
    (cat [lit "http"; opt (Set_ [("s", "s")]%char); lit "://";
          plus
            (Alt (Set_ [("a", "z"); ("A", "Z")]%char)
            (Alt (Set_ [("0", "9")]%char)
            (Alt (Set_ [("$", "_"); ("@", "@"); (".", "."); ("&", "&");
                        ("+", "+")]%char)
            (Alt (Set_ [("!", "!"); ("*", "*"); ("\", "\"); ("(", "(");
                        ("\", "\"); (")", ")"); (",", ",")]%char)
                 (cat [chr "%"; hex; hex])))))]).

(** [^\d+\.\d+\.\d+\.\d+$] *)
Definition ip_pattern : pattern :=
  Pattern "^\d+\.\d+\.\d+\.\d+$" true
    (cat [plus digit; dot; plus digit; dot; plus digit; dot; plus digit; Eol]).

Definition sender_patterns : list pattern :=
  [ Pattern "^\d+@" true (cat [plus digit; at_sign]);
    Pattern "[a-zA-Z0-9]+\d{4,}@" false
      (cat [plus alnum; at_least 4 digit; at_sign]);
    Pattern "security[_-]?alert" false
      (cat [lit "security"; sep2; lit "alert"]);
    Pattern "account[_-]?verify" false
      (cat [lit "account"; sep2; lit "verify"]);
    Pattern "support[_-]?\d+" false
      (cat [lit "support"; sep2; plus digit]);
    Pattern "fiverr[._-]?support\d*@" false
      (cat [lit "fiverr"; sep3; lit "support"; Star digit; at_sign]);
    Pattern "fiverr[._-]?security@" false
      (cat [lit "fiverr"; sep3; lit "security@"]);
    Pattern "fiverr[._-]?payment@" false
      (cat [lit "fiverr"; sep3; lit "payment@"]);
    Pattern "fiverr[._-]?verify@" false
      (cat [lit "fiverr"; sep3; lit "verify@"]);
    Pattern "fiverr[._-]?team@" false
      (cat [lit "fiverr"; sep3; lit "team@"]);
    Pattern "admin[._-]?fiverr@" false
      (cat [lit "admin"; sep3; lit "fiverr@"]);
    Pattern "support[._-]?team[._-]?\d*@" false
      (cat [lit "support"; sep3; lit "team"; sep3; Star digit; at_sign]);
    Pattern "verification[._-]?team@" false
      (cat [lit "verification"; sep3; lit "team@"]);
    Pattern "payment[._-]?support@" false
      (cat [lit "payment"; sep3; lit "support@"]);
    Pattern "account[._-]?security@" false
      (cat [lit "account"; sep3; lit "security@"]) ].
End Patterns.

(** [PhishingDetector()] *)
Definition init : PhishingDetector := {|
  suspicious_keywords :=
    [ ("urgent", Num.f0_3);
      ("account suspended", Num.f0_4);
      ("verify your account", Num.f0_4);
      ("login attempt", Num.f0_3);
      ("unusual activity", Num.f0_3);
      ("password expired", Num.f0_4);
      ("security alert", Num.f0_3);
      ("click here", Num.f0_2);
      ("confirm identity", Num.f0_4);
      ("unusual login", Num.f0_3);
      ("limited time", Num.f0_2);
      ("account closure", Num.f0_4);
      ("suspicious activity", Num.f0_4);
      ("external payment", Num.f0_8);
      ("paypal only", Num.f0_7);
      ("western union", Num.f0_8);
      ("direct payment", Num.f0_7);
      ("contact outside", Num.f0_6);
      ("whatsapp", Num.f0_5);
      ("telegram", Num.f0_5);
      ("bonus offer", Num.f0_4);
      ("special promotion", Num.f0_4);
      ("fiverr support team", Num.f0_5);
      ("account verification required", Num.f0_6);
      ("order completed", Num.f0_4);
      ("payment pending", Num.f0_4);
      ("urgent payment", Num.f0_6);
      ("refund processing", Num.f0_5);
      ("additional fee", Num.f0_5);
      ("cryptocurrency", Num.f0_7);
      ("bitcoin payment", Num.f0_8);
      ("private email", Num.f0_6);
      ("skype chat", Num.f0_5) ];
  suspicious_tlds :=
    [ ".tk"; ".ml"; ".ga"; ".cf"; ".gq";
      ".zip"; ".review"; ".country"; ".kim"; ".science";
      ".work"; ".party"; ".gdn"; ".stream"; ".download" ];
  suspicious_sender_patterns := Patterns.sender_patterns
|}.

Section Methods.

Variable check_bracketed_netloc : string -> option string.

(** The body of [for tld in self.suspicious_tlds]. *)
Definition tld_step (domain : string) (acc : Num.num * list string)
    (tld : string) : Num.num * list string :=
  let '(risk_score, reasons) := acc in
  if Str.endswith domain tld
  then (Num.add risk_score Num.f0_4, reasons ++ ["Suspicious TLD: " +:+ tld])
  else (risk_score, reasons).

(** The checks of one url, once its network location is parsed (lines
    107 to 138 of the source without the call of [urlparse]). *)
Definition url_finding (tlds : list string) (url netloc : string)
    : URLFinding.t :=
  let risk_score := Num.Int 0 in
  let reasons := [] in
  let domain := Str.lower netloc in
  let '(risk_score, reasons) :=
    fold_left (tld_step domain) tlds (risk_score, reasons) in
  let '(risk_score, reasons) :=
    if Re.is_match false Patterns.ip_pattern netloc
    then (Num.add risk_score Num.f0_5,
          reasons ++ ["IP address used instead of domain name"])
    else (risk_score, reasons) in
  let '(risk_score, reasons) :=
    if (2 <? Str.count netloc ".")%nat
    then (Num.add risk_score Num.f0_3,
          reasons ++ ["Multiple subdomains detected"])
    else (risk_score, reasons) in
  let '(risk_score, reasons) :=
    if Str.contains url "%"
    then (Num.add risk_score Num.f0_3,
          reasons ++ ["URL contains encoded characters"])
    else (risk_score, reasons) in
  URLFinding.Build url risk_score reasons.

(** The body of [for url in urls], up to the finding it appends. *)
Definition analyze_url (url : string) : M URLFinding.t :=
  netloc ← call (Url.netloc check_bracketed_netloc url);
  tlds ← attr suspicious_tlds;
  mret (url_finding tlds url netloc).

Definition analyze_urls (text : string) : M (list URLFinding.t) :=
  let urls := Re.findall false Patterns.url_pattern text in
  for_each urls
    (fun results url =>
       finding ← analyze_url url;
       mret (results ++ [finding]))
    [].

(** The body of [for keyword, score in self.suspicious_keywords.items()]. *)
Definition keyword_step (text : string) (acc : Num.num * list string)
    (item : string * Num.num) : Num.num * list string :=
  let '(total_score, detected_keywords) := acc in
  let '(keyword, score) := item in
  if Str.contains text keyword
  then (Num.add total_score score, detected_keywords ++ [keyword])
  else (total_score, detected_keywords).

Definition analyze_keywords (text : string) : M (Num.num * list string) :=
  let text := Str.lower text in
  let total_score := Num.Int 0 in
  let detected_keywords := [] in
  items ← attr suspicious_keywords;
  mret (fold_left (keyword_step text) items (total_score, detected_keywords)).

(** The body of [if from_domain != reply_domain]. *)
Definition mismatch_step (acc : Num.num * list string)
    (from_domain reply_domain : string) : Num.num * list string :=
  let '(score, reasons) := acc in
  if negb (String.eqb from_domain reply_domain)
  then (Num.add score Num.f0_4, reasons ++ ["Reply-To domain mismatch"])
  else (score, reasons).

(** The body of [for pattern in self.suspicious_sender_patterns]. *)
Definition sender_step (sender : string) (acc : Num.num * list string)
    (pattern : Re.pattern) : Num.num * list string :=
  let '(score, reasons) := acc in
  if Re.search true pattern sender
  then (Num.add score Num.f0_3,
        reasons ++ ["Suspicious sender pattern: " +:+ Re.source pattern])
  else (score, reasons).

(** The body of [for header in important_headers]. *)
Definition missing_step (headers : gmap string string)
    (acc : Num.num * list string) (header : string)
    : Num.num * list string :=
  let '(score, reasons) := acc in
  match headers !! header with
  | None => (Num.add score Num.f0_2,
             reasons ++ ["Missing important header: " +:+ header])
  | Some _ => (score, reasons)
  end.

Definition important_headers : list string :=
  ["received"; "authentication-results"; "dkim-signature"].

Definition analyze_headers (headers : gmap string string)
    : M (Num.num * list string) :=
  let score := Num.Int 0 in
  let reasons := [] in
  '(score, reasons) ←
    match headers !! "from", headers !! "reply-to" with
    | Some sender, Some reply =>
        from_domain ← call (Str.last_item (Str.split sender "@"));
        reply_domain ← call (Str.last_item (Str.split reply "@"));
        mret (mismatch_step (score, reasons) from_domain reply_domain)
    | _, _ => mret (score, reasons)
    end;
  '(score, reasons) ←
    match headers !! "from" with
    | Some sender =>
        patterns ← attr suspicious_sender_patterns;
        mret (fold_left (sender_step sender) patterns (score, reasons))
    | None => mret (score, reasons)
    end;
  mret (fold_left (missing_step headers) important_headers (score, reasons)).

(** The truth value of a [dict]: it is not empty. *)
Definition truthy (h : gmap string string) : bool := negb (size h =? 0)%nat.

(** The [if]/[elif]/[else] on the clamped score: the level and the
    recommendation. *)
Definition classify (overall : Num.num) : string * string :=
  if Num.geb overall Num.f0_7
  then ("High", "Block this message immediately")
  else if Num.geb overall Num.f0_4
  then ("Medium", "Review message carefully before taking any action")
  else ("Low", "Message appears to be legitimate but always exercise caution").

Definition analyze_message (message_text : string)
    (headers : option (gmap string string)) : M AnalysisReport :=
  let total_score := Num.Int 0 in
  url_results ← analyze_urls message_text;
  let url_score := Num.sum (map URLFinding.risk_score url_results) in
  let total_score := Num.add total_score url_score in
  '(keyword_score, detected_keywords) ← analyze_keywords message_text;
  let keyword_analysis := KeywordResult.Build keyword_score detected_keywords in
  let total_score := Num.add total_score keyword_score in
  (* [if headers:] fails for [None] and for an empty mapping *)
  '(total_score, header_analysis) ←
    match headers with
    | Some h =>
        if truthy h then
          '(header_score, header_reasons) ← analyze_headers h;
          mret (Num.add total_score header_score,
                Some (HeaderResult.Build header_score header_reasons))
        else mret (total_score, None)
    | None => mret (total_score, None)
    end;
  let overall := Num.min total_score Num.f1_0 in
  let '(level, recommendation) := classify overall in
  mret {| overall_risk_score := overall;
          risk_level := level;
          url_analysis := url_results;
          keyword_analysis := keyword_analysis;
          header_analysis := header_analysis;
          recommendations := [recommendation] |}.

End Methods.

(** ** Vocabulary of the statements *)

(** The outcome of a method called on a freshly constructed detector. *)
Definition outcome {A : Type} (m : M A) : exn + A := snd (m init).

Definition returns {A : Type} (m : M A) (a : A) : Prop := outcome m = inr a.

Definition raises {A : Type} (m : M A) (e : exn) : Prop := outcome m = inl e.

(** A computation that leaves the object as it found it. *)
Definition read_only {A : Type} (m : M A) : Prop :=
  forall self, fst (m self) = self.

(** The findings of a list of urls, or the first exception. *)
Fixpoint collect {A B : Type} (f : A -> exn + B) (xs : list A) : exn + list B :=
  match xs with
  | [] => inr []
  | x :: xs' =>
      match f x with
      | inl e => inl e
      | inr b =>
          match collect f xs' with
          | inl e => inl e
          | inr bs => inr (b :: bs)
          end
      end
  end.

(** What [analyze_url] makes of one url on the detector [self]. *)
Definition url_outcome (check : string -> option string)
    (self : PhishingDetector) (url : string) : exn + URLFinding.t :=
  match Url.netloc check url with
  | inl e => inl e
  | inr loc => inr (url_finding (suspicious_tlds self) url loc)
  end.

(** The part of a header value after its last [@], the whole value when
    it has none: [value.split('@')[-1]]. *)
Definition domain_of (value : string) : string :=
  List.last (Str.split value "@") EmptyString.

(** The domain segment as the specification words it: empty when the
    value has no [@]. *)
Definition stated_domain_of (value : string) : string :=
  if Str.contains value "@" then domain_of value else EmptyString.

(** The three checks of [analyze_headers], one after the other. *)
Definition reply_to_check (headers : gmap string string)
    (acc : Num.num * list string) : Num.num * list string :=
  match headers !! "from", headers !! "reply-to" with
  | Some sender, Some reply =>
      mismatch_step acc (domain_of sender) (domain_of reply)
  | _, _ => acc
  end.

Definition sender_check (self : PhishingDetector)
    (headers : gmap string string) (acc : Num.num * list string)
    : Num.num * list string :=
  match headers !! "from" with
  | Some sender =>
      fold_left (sender_step sender) (suspicious_sender_patterns self) acc
  | None => acc
  end.

Definition missing_check (headers : gmap string string)
    (acc : Num.num * list string) : Num.num * list string :=
  fold_left (missing_step headers) important_headers acc.

(** What the header step of [analyze_message] works out: nothing for
    [None] and for an empty mapping. *)
Definition header_part (self : PhishingDetector)
    (headers : option (gmap string string))
    : option (Num.num * list string) :=
  match headers with
  | Some h =>
      if truthy h
      then Some (missing_check h
                   (sender_check self h (reply_to_check h (Num.Int 0, []))))
      else None
  | None => None
  end.

(** The header score of the aggregate, as [analyze_message] works it out:
    the score of [analyze_headers] on a mapping that is given and not
    empty, and the int [0] otherwise. *)
Definition header_score (headers : option (gmap string string))
    (hs : Num.num) : Prop :=
  match headers with
  | Some h =>
      if truthy h
      then exists reasons, returns (analyze_headers h) (hs, reasons)
      else hs = Num.Int 0
  | None => hs = Num.Int 0
  end.

(** The header score as the specification words it: the score of
    [analyze_headers] whenever a mapping is given, [0] otherwise. *)
Definition stated_header_score (headers : option (gmap string string))
    (hs : Num.num) : Prop :=
  match headers with
  | Some h => exists reasons, returns (analyze_headers h) (hs, reasons)
  | None => hs = Num.Int 0
  end.

(** The aggregate formula for a report [r]: its score is
    [min(url_score + keyword_score + header_score, 1.0)], the three
    summands being the sum of the findings' scores, the keyword analyzer's
    score and the header score read by [hscore]. *)
Definition aggregate_formula
    (hscore : option (gmap string string) -> Num.num -> Prop)
    (check : string -> option string) (text : string)
    (headers : option (gmap string string)) (r : AnalysisReport) : Prop :=
  exists keyword_score detected header_score,
    returns (analyze_urls check text) (url_analysis r) /\
    returns (analyze_keywords text) (keyword_score, detected) /\
    hscore headers header_score /\
    let url_score := Num.sum (map URLFinding.risk_score (url_analysis r)) in
    overall_risk_score r
    = Num.min (Num.add (Num.add url_score keyword_score) header_score)
        Num.f1_0.

(** The bracket validation of the releases before CPython 3.11.4, which
    accepts every network location; the concrete runs below use it. *)
Definition accept_all : string -> option string := fun _ => None.

(** The example of [main]. *)
Definition test_message : string := "
    URGENT: Fiverr Payment Issue Detected!
    
    Dear Seller,
    
    We have detected an issue with your recent payment. To prevent any delays, please verify your account immediately
    by clicking here: http://fiverr-secure-payments.tk/verify
    
    Additionally, you can expedite the process by contacting our support team on WhatsApp: +1234567890
    or make a direct payment through our secure Bitcoin wallet: 1A1zP1eP5QGefi2DMPTfTL5SLmv7DivfNa
    
    If you don't confirm within 24 hours, your pending payments will be cancelled.
    
    Best regards,
    Fiverr Support Team
    ".

Definition test_headers : gmap string string :=
  <["from" := "fiverr-support-team@fiverr-secure-payments.tk"]>
    (<["reply-to" := "support-team@payment-verify.ml"]>
       {["subject" := "Urgent: Fiverr Payment Verification Required"]}).

(** ** Meaning of a pattern

    [Matches icase r s rest]: the pattern [r] can match exactly [s] when
    [rest] is what follows in the subject. *)

Inductive Matches (icase : bool) : Re.regex -> string -> string -> Prop :=
| M_eps rest : Matches icase Re.Eps EmptyString rest
| M_set cs c rest :
    Re.member icase cs c = true ->
    Matches icase (Re.Set_ cs) (String c EmptyString) rest
| M_cat a b s1 s2 rest :
    Matches icase a s1 (s2 +:+ rest) ->
    Matches icase b s2 rest ->
    Matches icase (Re.Cat a b) (s1 +:+ s2) rest
| M_alt_l a b s rest :
    Matches icase a s rest -> Matches icase (Re.Alt a b) s rest
| M_alt_r a b s rest :
    Matches icase b s rest -> Matches icase (Re.Alt a b) s rest
| M_star_stop a rest : Matches icase (Re.Star a) EmptyString rest
| M_star_more a s1 s2 rest :
    Matches icase a s1 (s2 +:+ rest) ->
    Matches icase (Re.Star a) s2 rest ->
    Matches icase (Re.Star a) (s1 +:+ s2) rest
| M_eol rest :
    Re.at_eol rest = true -> Matches icase Re.Eol EmptyString rest.

(** A non-empty string of decimal digits, and four of them joined by
    dots. *)
Definition is_digit (c : ascii) : bool := Str.between 48 57 c.

Definition digits (s : string) : Prop :=
  s <> EmptyString /\ Str.forallb is_digit s = true.

Definition dotted_quad (s : string) : Prop :=
  exists a b c d,
    digits a /\ digits b /\ digits c /\ digits d /\
    s = a +:+ "." +:+ b +:+ "." +:+ c +:+ "." +:+ d.

Fixpoint last_char (s : string) : option ascii :=
  match s with
  | EmptyString => None
  | String c EmptyString => Some c
  | String _ s' => last_char s'
  end.

(** A string that does not begin with a digit. *)
Definition starts_nondigit (s : string) : Prop :=
  match s with
  | EmptyString => True
  | String c _ => is_digit c = false
  end.

(** A digit or a newline: what a string accepted by the dotted-quad
    pattern ends with. *)
Definition plain (c : ascii) : bool := is_digit c || (Str.code c =? 10)%N.

(** A suffix whose last character is a lower-case ASCII letter. *)
Definition ends_with_letter (suf : string) : bool :=
  match last_char suf with
  | Some c => Str.between 97 122 c
  | None => false
  end.

(** A character that is not a square bracket. *)
Definition no_bracket (c : ascii) : bool :=
  negb (Ascii.eqb c "[") && negb (Ascii.eqb c "]").

(** ** Scores as tallies of entries

    Every loop of the analyzers adds a weight to a score and appends a
    reason, or a keyword, for each rule that applies.  The result is the
    tally of the entries of those rules, in the order of the loops. *)

(** A rule that applies: its weight and the reason it records. *)
Definition entry : Type := (Num.num * string)%type.

(** The score and the reasons of a list of entries: the weights are added
    in order to the int [0] the score starts from. *)
Definition tally (entries : list entry) : Num.num * list string :=
  (fold_left Num.add (map fst entries) (Num.Int 0), map snd entries).

(** The entries of a url with network location [loc] ([analyze_urls]). *)
Definition url_entries (tlds : list string) (url loc : string) : list entry :=
  map (fun tld => (Num.f0_4, "Suspicious TLD: " +:+ tld))
    (List.filter (fun tld => Str.endswith (Str.lower loc) tld) tlds)
  ++ (if Re.is_match false Patterns.ip_pattern loc
      then [(Num.f0_5, "IP address used instead of domain name")] else [])
  ++ (if (2 <? Str.count loc ".")%nat
      then [(Num.f0_3, "Multiple subdomains detected")] else [])
  ++ (if Str.contains url "%"
      then [(Num.f0_3, "URL contains encoded characters")] else []).

(** The entries of a lower-cased text ([analyze_keywords]): the weight and
    the keyword of every item of the table that the text holds. *)
Definition keyword_entries (items : list (string * Num.num))
    (lowered : string) : list entry :=
  map (fun item => (snd item, fst item))
    (List.filter (fun item => Str.contains lowered (fst item)) items).

(** The entries of a header mapping ([analyze_headers]). *)
Definition header_entries (self : PhishingDetector)
    (headers : gmap string string) : list entry :=
  match headers !! "from", headers !! "reply-to" with
  | Some sender, Some reply =>
      if negb (String.eqb (domain_of sender) (domain_of reply))
      then [(Num.f0_4, "Reply-To domain mismatch")] else []
  | _, _ => []
  end
  ++ match headers !! "from" with
     | Some sender =>
         map (fun p => (Num.f0_3, "Suspicious sender pattern: " +:+ Re.source p))
           (List.filter (fun p => Re.search true p sender)
              (suspicious_sender_patterns self))
     | None => []
     end
  ++ map (fun name => (Num.f0_2, "Missing important header: " +:+ name))
       (List.filter (fun name => bool_decide (headers !! name = None))
          important_headers).

(** The number of reasons and keywords that a report lists. *)
Definition evidence (r : AnalysisReport) : nat :=
  (list_sum (map (fun f => length (URLFinding.reasons f)) (url_analysis r))
   + length (KeywordResult.detected_keywords (keyword_analysis r))
   + match header_analysis r with
     | Some h => length (HeaderResult.reasons h)
     | None => 0
     end)%nat.

(** ** The size of a score *)

(** A positive normal binary64 number: a mantissa of 53 bits and an
    exponent in range. *)
Definition normal (f : spec_float) : bool :=
  match f with
  | S754_finite false m e =>
      (Z.pos (digits2_pos m) =? 53) && (-1074 <=? e) && (e <=? 971)
  | _ => false
  end.

(** The value of a positive float in units of [2^-1074], an integer for
    every float of the format; [0] for the other values. *)
Definition scaled (f : spec_float) : Z :=
  match f with
  | S754_finite false m e => Z.pos m * 2 ^ (e + 1074)
  | _ => 0
  end.

(** A score to which a weight was added: a positive normal float, or the
    infinity that a sum can overflow to. *)
Definition fired (x : Num.num) : bool :=
  match x with
  | Num.Int _ => false
  | Num.Float (S754_infinity false) => true
  | Num.Float f => normal f
  end.

(** A score: the int [0] it starts from, or a score to which a weight was
    added. *)
Definition regular (x : Num.num) : bool :=
  match x with
  | Num.Int z => z =? 0
  | Num.Float _ => fired x
  end.

(** A float that a score with [k] entries reaches: 0.2, 0.4, 0.6, and
    0.7 from four entries on. *)
Definition bound (k : nat) : spec_float :=
  match k with
  | 1%nat => Num.decimal 2 10
  | 2%nat => Num.decimal 4 10
  | 3%nat => Num.decimal 6 10
  | _ => Num.decimal 7 10
  end.

Definition reaches (k : nat) (x : Num.num) : Prop :=
  match k with
  | O => True
  | S _ => Num.leb (Num.Float (bound k)) x = true
  end.

(** An entry as the tables have them: a positive weight, 0.2 at least. *)
Definition weighty (e : entry) : Prop :=
  fired (fst e) = true /\ Num.leb (Num.Float (bound 1)) (fst e) = true.

(** A score built from [n] entries: the int [0] for none, a positive
    float that reaches the bound of [n] otherwise. *)
Definition scored (n : nat) (x : Num.num) : Prop :=
  regular x = true /\ reaches n x /\
  (n = 0%nat -> x = Num.Int 0) /\ (n <> 0%nat -> fired x = true).

(** ** The shape of an extracted url *)

(** The characters of the four classes of the URL pattern,
    [[a-zA-Z]], [[0-9]], [[$-_@.&+]] and [[!*\\(\\),]]. *)
Definition url_chars : Re.charset :=
  [("a", "z"); ("A", "Z"); ("0", "9");
   ("$", "_"); ("@", "@"); (".", "."); ("&", "&"); ("+", "+");
   ("!", "!"); ("*", "*"); ("\", "\"); ("(", "("); ("\", "\"); (")", ")");
   (",", ",")]%char.

Definition url_char (c : ascii) : bool := Re.in_set url_chars c.

(** The repeated group of the URL pattern. *)
Definition url_class : Re.regex :=
  Re.Alt (Re.Set_ [("a", "z"); ("A", "Z")]%char)
    (Re.Alt (Re.Set_ [("0", "9")]%char)
       (Re.Alt (Re.Set_ [("$", "_"); ("@", "@"); (".", "."); ("&", "&");
                         ("+", "+")]%char)
          (Re.Alt (Re.Set_ [("!", "!"); ("*", "*"); ("\", "\"); ("(", "(");
                            ("\", "\"); (")", ")"); (",", ",")]%char)
             (Patterns.cat [Re.chr "%"; Patterns.hex; Patterns.hex])))).

Fixpoint drop_while (p : ascii -> bool) (s : string) : string :=
  match s with
  | EmptyString => EmptyString
  | String c s' => if p c then drop_while p s' else s
  end.

(** What a url at the start of [s] leaves unread: the scheme, [://], and
    the longest run of url characters, which is not empty. *)
Definition url_at (s : string) : option string :=
  let after_scheme :=
    if Str.startswith s "https://" then Some (Str.drop 8 s)
    else if Str.startswith s "http://" then Some (Str.drop 7 s)
    else None in
  match after_scheme with
  | Some (String c rest) =>
      if url_char c then Some (drop_while url_char rest) else None
  | _ => None
  end.

(** A character of a host in a url: a url character that does not end
    the network location and is not a square bracket. *)
Definition host_char (c : ascii) : bool :=
  url_char c && negb (Url.delimiter c) && no_bracket c.

(** A text that is empty or ends with a character that no url holds. *)
Definition ends_outside_url (s : string) : Prop :=
  s = EmptyString \/
  exists front z, s = front +:+ String z EmptyString /\ url_char z = false.

(** A text that is empty or begins with a character that no url holds. *)
Definition starts_outside_url (s : string) : Prop :=
  match s with
  | String c _ => url_char c = false
  | EmptyString => True
  end.

(** Whether a search found a match. *)
Definition found {A : Type} (o : option A) : bool :=
  match o with
  | Some _ => true
  | None => false
  end.

(** ** Strings up to the case of ASCII letters

    A string with its letters [A]-[Z] replaced by [a]-[z] and every other
    character kept.  Two strings with the same image differ in the case of
    ASCII letters only. *)
Definition ascii_lower_char (c : ascii) : ascii :=
  if Str.between 65 90 c then ascii_of_N (Str.code c + 32) else c.

Fixpoint ascii_lower (s : string) : string :=
  match s with
  | EmptyString => EmptyString
  | String c s' => String (ascii_lower_char c) (ascii_lower s')
  end.

(** ** Facts on binary64 addition *)

Section FloatFacts.
Import Num.

Lemma iter_pos_invariant {A : Type} (P : A -> Prop) (f : A -> A) :
  (forall a, P a -> P (f a)) ->
  forall n a, P a -> P (SpecFloat.iter_pos f n a).
Proof.
  intros Hf. induction n as [n IH | n IH |]; intros a Ha; simpl; auto.
Qed.

Lemma shr_1_nonneg mrs : 0 <= shr_m mrs -> 0 <= shr_m (shr_1 mrs).
Proof.
  destruct mrs as [m r s]. simpl.
  destruct m as [| p | p]; simpl; try lia.
  - destruct p; simpl; lia.
Qed.

Lemma shr_nonneg mrs e n :
  0 <= shr_m mrs -> 0 <= shr_m (fst (shr mrs e n)).
Proof.
  intros H. unfold shr. destruct n; simpl; auto.
  apply (iter_pos_invariant (fun r => 0 <= shr_m r)); auto using shr_1_nonneg.
Qed.

Lemma shr_fexp_nonneg m e l :
  0 <= m -> 0 <= shr_m (fst (shr_fexp prec emax m e l)).
Proof.
  intros H. unfold shr_fexp. apply shr_nonneg.
  destruct l as [| []]; simpl; exact H.
Qed.

Lemma round_nearest_even_nonneg m l :
  0 <= m -> 0 <= round_nearest_even m l.
Proof.
  intros H. unfold round_nearest_even.
  destruct l as [| []]; try lia. destruct (Z.even m); lia.
Qed.

Lemma binary_round_aux_nonneg m e l :
  0 <= m -> nonneg (Float (binary_round_aux prec emax false m e l)) = true.
Proof.
  intros H. unfold binary_round_aux.
  pose proof (shr_fexp_nonneg m e l H) as H1.
  destruct (shr_fexp prec emax m e l) as [mrs' e'] eqn:E1. simpl in H1.
  pose proof (round_nearest_even_nonneg (shr_m mrs') (loc_of_shr_record mrs') H1) as H2.
  pose proof (shr_fexp_nonneg _ e' loc_Exact H2) as H3.
  destruct (shr_fexp prec emax _ e' loc_Exact) as [mrs'' e''] eqn:E2.
  simpl in H3.
  destruct (shr_m mrs'') as [| p | p]; simpl; auto; try lia.
  destruct (e'' <=? emax - prec); reflexivity.
Qed.

Lemma binary_normalize_nonneg m e :
  0 <= m -> nonneg (Float (binary_normalize prec emax m e false)) = true.
Proof.
  intros H. destruct m as [| p | p]; simpl; auto; try lia.
  unfold binary_round.
  destruct (shl_align p e _) as [mz ez].
  apply binary_round_aux_nonneg. lia.
Qed.

Lemma SFadd_nonneg fx fy :
  nonneg (Float fx) = true -> nonneg (Float fy) = true ->
  nonneg (Float (SFadd prec emax fx fy)) = true.
Proof.
  destruct fx as [[] | [] | | [] mx ex], fy as [[] | [] | | [] my ey];
    try discriminate; try reflexivity.
  intros _ _. unfold SFadd, cond_Zopp.
  apply binary_normalize_nonneg. lia.
Qed.

Lemma of_Z_nonneg z : 0 <= z -> nonneg (Float (of_Z z)) = true.
Proof. apply binary_normalize_nonneg. Qed.

Lemma to_float_nonneg x : nonneg x = true -> nonneg (Float (to_float x)) = true.
Proof.
  destruct x as [z | f]; simpl; auto.
  intros H. apply of_Z_nonneg. apply Z.leb_le. exact H.
Qed.

Lemma add_nonneg x y :
  nonneg x = true -> nonneg y = true -> nonneg (add x y) = true.
Proof.
  intros Hx Hy.
  destruct x as [a | fx], y as [b | fy];
    try (apply SFadd_nonneg; apply to_float_nonneg; assumption).
  simpl in *. apply Z.leb_le in Hx, Hy. apply Z.leb_le. lia.
Qed.

Lemma add_0_l x : nonneg x = true -> add (Int 0) x = x.
Proof.
  destruct x as [z | f]; simpl; [reflexivity |].
  destruct f as [[] | [] | | [] m e]; try discriminate; reflexivity.
Qed.

Lemma add_0_r x : nonneg x = true -> add x (Int 0) = x.
Proof.
  destruct x as [z | f]; simpl.
  - intros _. f_equal. lia.
  - destruct f as [[] | [] | | [] m e]; try discriminate; reflexivity.
Qed.

Lemma sum_nonneg xs :
  Forall (fun x => nonneg x = true) xs -> nonneg (sum xs) = true.
Proof.
  unfold sum. assert (H0 : nonneg (Int 0) = true) by reflexivity.
  revert H0. generalize (Int 0). 
  induction xs as [| x xs IH]; intros acc Hacc Hxs; simpl; [exact Hacc |].
  inversion Hxs; subst. apply IH; auto using add_nonneg.
Qed.

(** The literals, evaluated. *)
Lemma f0_4_val : f0_4 = Float (S754_finite false 7205759403792794 (-54)).
Proof. vm_compute. reflexivity. Qed.

Lemma f0_7_val : f0_7 = Float (S754_finite false 6305039478318694 (-53)).
Proof. vm_compute. reflexivity. Qed.

Lemma f1_0_val : f1_0 = Float (S754_finite false 4503599627370496 (-52)).
Proof. vm_compute. reflexivity. Qed.

Lemma SFcompare_antisym x y :
  SFcompare x y = option_map CompOpp (SFcompare y x).
Proof.
  destruct x as [[] | [] | | [] mx ex], y as [[] | [] | | [] my ey];
    simpl; try reflexivity.
  - rewrite (Z.compare_antisym ey ex).
    destruct (ey ?= ex); simpl; try reflexivity.
    rewrite (Pos.compare_cont_antisym my mx Eq). reflexivity.
  - rewrite (Z.compare_antisym ey ex).
    destruct (ey ?= ex); simpl; try reflexivity.
    rewrite (Pos.compare_cont_antisym my mx Eq). reflexivity.
Qed.

(** Comparisons against a float go through [to_float]. *)
Lemma leb_float_r x c : leb x (Float c) = SFleb (to_float x) c.
Proof. destruct x; reflexivity. Qed.

Lemma leb_float_l x c : leb (Float c) x = SFleb c (to_float x).
Proof. destruct x; reflexivity. Qed.

Lemma ltb_float_r x c : ltb x (Float c) = SFltb (to_float x) c.
Proof. destruct x; reflexivity. Qed.

Lemma ltb_float_l x c : ltb (Float c) x = SFltb c (to_float x).
Proof. destruct x; reflexivity. Qed.

Lemma eqb_float_r x c : eqb x (Float c) = SFeqb (to_float x) c.
Proof. destruct x; reflexivity. Qed.

Lemma zero_leb x : nonneg x = true -> leb (Float (S754_zero false)) x = true.
Proof.
  intros H. rewrite leb_float_l. apply to_float_nonneg in H.
  destruct (to_float x) as [[] | [] | | [] m e]; try discriminate; reflexivity.
Qed.

(** For a number that is not NaN, [c < x] fails exactly when [x <= c]. *)
Lemma compare_defined x c :
  nonneg x = true -> c <> S754_nan -> SFcompare c (to_float x) <> None.
Proof.
  intros H Hc. apply to_float_nonneg in H.
  destruct (to_float x) as [[] | [] | | [] m e]; try discriminate;
    destruct c as [[] | [] | | [] mc ec]; simpl; congruence.
Qed.

Lemma not_ltb_leb x c :
  nonneg x = true -> c <> S754_nan -> ltb (Float c) x = false ->
  leb x (Float c) = true.
Proof.
  intros H Hc. rewrite ltb_float_l, leb_float_r.
  pose proof (compare_defined x c H Hc) as Hd.
  unfold SFltb, SFleb. rewrite (SFcompare_antisym (to_float x) c).
  destruct (SFcompare c (to_float x)) as [[] |]; simpl;
    try reflexivity; try discriminate; congruence.
Qed.

Lemma not_leb_ltb x c :
  nonneg x = true -> c <> S754_nan -> leb (Float c) x = false ->
  ltb x (Float c) = true.
Proof.
  intros H Hc. rewrite ltb_float_r, leb_float_l.
  pose proof (compare_defined x c H Hc) as Hd.
  unfold SFltb, SFleb. rewrite (SFcompare_antisym (to_float x) c).
  destruct (SFcompare c (to_float x)) as [[] |]; simpl;
    try reflexivity; try discriminate; congruence.
Qed.

Lemma ltb_not_leb x c : ltb x (Float c) = true -> leb (Float c) x = false.
Proof.
  rewrite ltb_float_r, leb_float_l. unfold SFltb, SFleb.
  rewrite (SFcompare_antisym c (to_float x)).
  destruct (SFcompare (to_float x) c) as [[] |]; simpl;
    try reflexivity; discriminate.
Qed.

Lemma eqb_leb x c : eqb x (Float c) = true -> leb (Float c) x = true.
Proof.
  rewrite eqb_float_r, leb_float_l. unfold SFeqb, SFleb.
  rewrite (SFcompare_antisym c (to_float x)).
  destruct (SFcompare (to_float x) c) as [[] |]; simpl;
    try reflexivity; discriminate.
Qed.

(** Below 0.4 is below 0.7. *)
Lemma below_0_4_below_0_7 x : ltb x f0_4 = true -> leb f0_7 x = false.
Proof.
  rewrite f0_4_val, f0_7_val, ltb_float_r, leb_float_l.
  unfold SFltb, SFleb.
  destruct (to_float x) as [[] | [] | | [] m e]; cbn [SFcompare];
    try reflexivity; try discriminate.
  destruct (Z.compare_spec e (-54)) as [-> | Hlt | Hgt]; try discriminate.
  - intros _. reflexivity.
  - intros _. destruct (Z.compare_spec (-53) e); try reflexivity; lia.
Qed.

(** Equal to 0.4 is below 0.7. *)
Lemma eq_0_4_below_0_7 x : eqb x f0_4 = true -> leb f0_7 x = false.
Proof.
  rewrite f0_4_val, f0_7_val, eqb_float_r, leb_float_l.
  unfold SFeqb, SFleb.
  destruct (to_float x) as [[] | [] | | [] m e]; cbn [SFcompare];
    try reflexivity; try discriminate.
  destruct (Z.compare_spec e (-54)) as [-> | Hlt | Hgt]; try discriminate.
  intros _. reflexivity.
Qed.

Lemma min_nonneg x : nonneg x = true -> nonneg (min x f1_0) = true.
Proof. intros H. unfold min. destruct (ltb f1_0 x); auto. Qed.

Lemma min_bounds x :
  nonneg x = true ->
  leb (Float (S754_zero false)) (min x f1_0) = true /\
  leb (min x f1_0) f1_0 = true.
Proof.
  intros H. split; [apply zero_leb, min_nonneg, H |].
  unfold min. destruct (ltb f1_0 x) eqn:E; [reflexivity |].
  rewrite f1_0_val in *. apply not_ltb_leb; [assumption | discriminate | assumption].
Qed.

End FloatFacts.


(** ** Facts on [str] methods *)

Section StrFacts.

Lemma split_not_nil s sep : Str.split s sep <> [].
Proof.
  destruct s as [| c s]; simpl; [discriminate |].
  destruct (Ascii.eqb c sep); [discriminate |].
  destruct (Str.split s sep); discriminate.
Qed.

Lemma last_item_last {A : Type} (l : list A) (d : A) :
  l <> [] -> Str.last_item l = inr (List.last l d).
Proof.
  intros Hl. unfold Str.last_item.
  destruct (exists_last Hl) as [front [x ->]].
  rewrite rev_app_distr. simpl. rewrite last_last. reflexivity.
Qed.

Lemma last_item_split value :
  Str.last_item (Str.split value "@") = inr (domain_of value).
Proof. apply last_item_last, split_not_nil. Qed.

Lemma count_zero_split s sep :
  Str.count s sep = 0%nat -> Str.split s sep = [s].
Proof.
  induction s as [| c s IH]; simpl; [reflexivity |].
  destruct (Ascii.eqb c sep); [discriminate |].
  intros H. rewrite (IH H). reflexivity.
Qed.

Lemma contains_char_count s c :
  Str.contains s (String c EmptyString) = false -> Str.count s c = 0%nat.
Proof.
  induction s as [| b s IH]; simpl; [reflexivity |].
  rewrite andb_true_r, (Ascii.eqb_sym b c).
  destruct (Ascii.eqb c b); simpl; [discriminate |].
  destruct s; simpl in *; auto.
Qed.

Lemma startswith_spec s p :
  Str.startswith s p = true <-> exists b, s = p +:+ b.
Proof.
  revert s. induction p as [| a p IH]; intros s; simpl.
  - split; [intros _; exists s; reflexivity | reflexivity].
  - destruct s as [| c s].
    + split; [discriminate | intros [b Hb]; discriminate].
    + rewrite andb_true_iff, IH. split.
      * intros [Hac [b ->]]. apply Ascii.eqb_eq in Hac. subst. eauto.
      * intros [b Hb]. injection Hb as -> ->.
        split; [apply Ascii.eqb_refl | eauto].
Qed.

(** [sub in s] holds exactly when [s] is [a + sub + b] for some [a], [b]. *)
Lemma contains_spec s sub :
  Str.contains s sub = true <-> exists a b, s = a +:+ sub +:+ b.
Proof.
  induction s as [| c s IH].
  - cbn [Str.contains]. rewrite orb_false_r, startswith_spec. split.
    + intros [b Hb]. exists EmptyString, b. exact Hb.
    + intros (a & b & H). destruct a; [eauto | discriminate].
  - cbn [Str.contains]. rewrite orb_true_iff, startswith_spec, IH. split.
    + intros [[b Hb] | (a & b & ->)].
      * exists EmptyString, b. exact Hb.
      * exists (String c a), b. reflexivity.
    + intros (a & b & H). destruct a as [| c' a].
      * left. eauto.
      * right. injection H as -> ->. eauto.
Qed.

(** Joining the pieces of [split] with the separator gives the string
    back, and no piece holds the separator. *)
Lemma split_join s sep :
  String.concat (String sep EmptyString) (Str.split s sep) = s.
Proof.
  induction s as [| c s IH]; [reflexivity |].
  cbn [Str.split]. pose proof (split_not_nil s sep) as Hne.
  destruct (Ascii.eqb_spec c sep) as [-> | Hc].
  - destruct (Str.split s sep) as [| seg segs]; [congruence |].
    rewrite <- IH. reflexivity.
  - destruct (Str.split s sep) as [| seg segs]; [congruence |].
    rewrite <- IH. destruct segs; reflexivity.
Qed.

Lemma split_pieces s sep :
  Forall (fun seg => Str.count seg sep = 0%nat) (Str.split s sep).
Proof.
  induction s as [| c s IH]; [repeat constructor |].
  cbn [Str.split]. destruct (Ascii.eqb c sep) eqn:Hc.
  - constructor; [reflexivity | exact IH].
  - destruct (Str.split s sep) as [| seg segs]; [repeat constructor; simpl; rewrite Hc; reflexivity |].
    inversion IH; subst. constructor; [| assumption].
    simpl. rewrite Hc. assumption.
Qed.

Lemma append_assoc (a b c : string) : (a +:+ b) +:+ c = a +:+ b +:+ c.
Proof.
  induction a as [| x a IH]; [reflexivity |].
  change (String x ((a +:+ b) +:+ c) = String x (a +:+ b +:+ c)).
  f_equal. exact IH.
Qed.

Lemma join_last sep front d :
  String.concat sep (front ++ [d])
  = match front with
    | [] => d
    | _ :: _ => String.concat sep front +:+ sep +:+ d
    end.
Proof.
  induction front as [| x front IH]; [reflexivity |].
  change ((x :: front) ++ [d]) with (x :: (front ++ [d])).
  cbn [String.concat]. rewrite IH.
  destruct front as [| y front]; [reflexivity |].
  change ((y :: front) ++ [d]) with (y :: (front ++ [d])).
  cbn iota. rewrite !append_assoc. reflexivity.
Qed.

(** [domain_of value] holds no [@], and [value] is either that segment
    alone or something, an [@], and that segment. *)
Lemma domain_of_spec value :
  Str.count (domain_of value) "@" = 0%nat /\
  (value = domain_of value \/
   exists front, value = front +:+ "@" +:+ domain_of value).
Proof.
  unfold domain_of.
  pose proof (split_join value "@") as Hjoin.
  pose proof (split_pieces value "@") as Hpieces.
  destruct (exists_last (split_not_nil value "@")) as (front & d & E).
  rewrite E in *. rewrite last_last. split.
  - apply Forall_app in Hpieces. destruct Hpieces as [_ Hd].
    inversion Hd; subst. assumption.
  - rewrite join_last in Hjoin. destruct front as [| x front].
    + left. symmetry. exact Hjoin.
    + right. eexists. symmetry. exact Hjoin.
Qed.

Lemma domain_of_no_at value :
  Str.contains value "@" = false -> domain_of value = value.
Proof.
  intros H. unfold domain_of.
  rewrite (count_zero_split _ _ (contains_char_count _ _ H)). reflexivity.
Qed.

End StrFacts.

(** ** Soundness of the matcher *)

Section Matcher.

Variable icase : bool.

Lemma star_loop_sound a :
  (forall s k x,
      Re.bt icase a s k = Some x ->
      exists s1 s2, s = s1 +:+ s2 /\ Matches icase a s1 s2 /\ k s2 = Some x) ->
  forall n s k x,
    Re.star_loop (Re.bt icase a) k n s = Some x ->
    exists s1 s2,
      s = s1 +:+ s2 /\ Matches icase (Re.Star a) s1 s2 /\ k s2 = Some x.
Proof.
  intros Ha. induction n as [| n IH]; intros s k x; cbn [Re.star_loop].
  - intros H. exists EmptyString, s. repeat split; [constructor | exact H].
  - destruct (Re.bt icase a s _) as [y |] eqn:E.
    + intros Hy. apply (inj Some) in Hy. subst y.
      apply Ha in E. destruct E as (u & v & -> & Hu & Hv).
      destruct (String.length v <? String.length (u +:+ v))%nat;
        [| discriminate].
      apply IH in Hv. destruct Hv as (w & z & -> & Hw & Hz).
      exists (u +:+ w), z. rewrite append_assoc.
      repeat split; [econstructor; eassumption | exact Hz].
    + intros H. exists EmptyString, s. repeat split; [constructor | exact H].
Qed.

(** The matcher depends on its continuation only through the
    continuation's values, and fails when the continuation always fails. *)
Lemma star_loop_ext step :
  (forall s k1 k2, (forall s', k1 s' = k2 s') -> step s k1 = step s k2) ->
  forall n s k1 k2,
    (forall s', k1 s' = k2 s') ->
    Re.star_loop step k1 n s = Re.star_loop step k2 n s.
Proof.
  intros Hstep. induction n as [| n IH]; intros s k1 k2 Hk; cbn [Re.star_loop].
  - apply Hk.
  - rewrite (Hstep s _ (fun s1 => if (String.length s1 <? String.length s)%nat
                                  then Re.star_loop step k2 n s1 else None)).
    + rewrite Hk. reflexivity.
    + intros s'. destruct (_ <? _)%nat; [apply IH, Hk | reflexivity].
Qed.

Lemma bt_ext r : forall s k1 k2,
  (forall s', k1 s' = k2 s') -> Re.bt icase r s k1 = Re.bt icase r s k2.
Proof.
  induction r as [| cs | a IHa b IHb | a IHa b IHb | a IHa |];
    intros s k1 k2 Hk; cbn [Re.bt].
  - apply Hk.
  - destruct s as [| c s]; [reflexivity |]. rewrite Hk. reflexivity.
  - apply IHa. intros s'. apply IHb, Hk.
  - rewrite (IHa s k1 k2 Hk), (IHb s k1 k2 Hk). reflexivity.
  - apply star_loop_ext; [exact IHa | exact Hk].
  - rewrite Hk. reflexivity.
Qed.

Lemma star_loop_none step :
  (forall s k, (forall s', k s' = None) -> step s k = None) ->
  forall n s k, (forall s', k s' = None) -> Re.star_loop step k n s = None.
Proof.
  intros Hstep. induction n as [| n IH]; intros s k Hk; cbn [Re.star_loop].
  - apply Hk.
  - rewrite Hstep, Hk; [reflexivity |].
    intros s'. destruct (_ <? _)%nat; [apply IH, Hk | reflexivity].
Qed.

Lemma bt_none r : forall s k,
  (forall s', k s' = None) -> Re.bt icase r s k = None.
Proof.
  induction r as [| cs | a IHa b IHb | a IHa b IHb | a IHa |];
    intros s k Hk; cbn [Re.bt].
  - apply Hk.
  - destruct s as [| c s]; [reflexivity |]. rewrite Hk.
    destruct (Re.member icase cs c); reflexivity.
  - apply IHa. intros s'. apply IHb, Hk.
  - rewrite (IHa s k Hk), (IHb s k Hk). reflexivity.
  - apply star_loop_none; [exact IHa | exact Hk].
  - rewrite Hk. destruct (Re.at_eol s); reflexivity.
Qed.

(** The bound on the iterations of a repetition is never what stops it:
    any bound that is at least the length of the subject gives the same
    result. *)
Lemma star_loop_bound r k : forall n m s,
  (String.length s <= n)%nat -> (String.length s <= m)%nat ->
  Re.star_loop (Re.bt icase r) k n s = Re.star_loop (Re.bt icase r) k m s.
Proof.
  assert (Hzero : forall m s, String.length s = 0%nat ->
            Re.star_loop (Re.bt icase r) k m s = k s).
  { intros [| m] s Hs; cbn [Re.star_loop]; [reflexivity |].
    rewrite bt_none; [reflexivity |].
    intros s'. rewrite Hs. reflexivity. }
  induction n as [| n IH]; intros m s Hn Hm.
  - rewrite (Hzero m s); [reflexivity | lia].
  - destruct m as [| m].
    + rewrite (Hzero (S n) s); [reflexivity | lia].
    + cbn [Re.star_loop].
      rewrite (bt_ext r s _
                 (fun s1 => if (String.length s1 <? String.length s)%nat
                            then Re.star_loop (Re.bt icase r) k m s1
                            else None)); [reflexivity |].
      intros s'. destruct (Nat.ltb_spec (String.length s') (String.length s));
        [| reflexivity].
      apply IH; lia.
Qed.

(** Whatever the matcher accepts is a match: the subject splits into the
    part matched by [r] and a rest accepted by the continuation. *)
Lemma bt_sound r : forall s k x,
  Re.bt icase r s k = Some x ->
  exists s1 s2, s = s1 +:+ s2 /\ Matches icase r s1 s2 /\ k s2 = Some x.
Proof.
  induction r as [| cs | a IHa b IHb | a IHa b IHb | a IHa |];
    intros s k x; cbn [Re.bt].
  - intros H. exists EmptyString, s. repeat split; [constructor | exact H].
  - destruct s as [| c s]; [discriminate |].
    destruct (Re.member icase cs c) eqn:Hc; [| discriminate].
    intros H. exists (String c EmptyString), s.
    repeat split; [constructor; exact Hc | exact H].
  - intros H. apply IHa in H. destruct H as (u & v & -> & Hu & H).
    apply IHb in H. destruct H as (w & z & -> & Hw & Hz).
    exists (u +:+ w), z. rewrite append_assoc.
    repeat split; [constructor; assumption | exact Hz].
  - destruct (Re.bt icase a s k) as [y |] eqn:E.
    + intros Hy. apply (inj Some) in Hy. subst y.
      apply IHa in E. destruct E as (u & v & -> & Hu & Hv).
      exists u, v. repeat split; [apply M_alt_l; exact Hu | exact Hv].
    + intros H. apply IHb in H. destruct H as (u & v & -> & Hu & Hv).
      exists u, v. repeat split; [apply M_alt_r; exact Hu | exact Hv].
  - apply star_loop_sound, IHa.
  - destruct (Re.at_eol s) eqn:E; [| discriminate].
    intros H. exists EmptyString, s.
    repeat split; [constructor; exact E | exact H].
Qed.

Lemma is_match_sound p s :
  Re.is_match icase p s = true ->
  exists s1 s2, s = s1 +:+ s2 /\ Matches icase (Re.body p) s1 s2.
Proof.
  unfold Re.is_match, Re.match_rest.
  destruct (Re.bt icase (Re.body p) s Some) as [x |] eqn:Hx; [| discriminate].
  intros _. apply bt_sound in Hx. destruct Hx as (s1 & s2 & -> & Hm & _).
  eauto.
Qed.

Lemma Matches_cat_inv a b s rest :
  Matches icase (Re.Cat a b) s rest ->
  exists s1 s2,
    s = s1 +:+ s2 /\ Matches icase a s1 (s2 +:+ rest) /\ Matches icase b s2 rest.
Proof. inversion 1; subst; eauto. Qed.

Lemma Matches_set_inv cs s rest :
  Matches icase (Re.Set_ cs) s rest ->
  exists c, s = String c EmptyString /\ Re.member icase cs c = true.
Proof. inversion 1; subst; eauto. Qed.

Lemma Matches_eol_inv s rest :
  Matches icase Re.Eol s rest -> s = EmptyString /\ Re.at_eol rest = true.
Proof. inversion 1; subst; auto. Qed.

Lemma forallb_app p a b :
  Str.forallb p (a +:+ b) = Str.forallb p a && Str.forallb p b.
Proof.
  induction a as [| c a IH]; [reflexivity |].
  change (String c a +:+ b) with (String c (a +:+ b)).
  cbn [Str.forallb]. rewrite IH, andb_assoc. reflexivity.
Qed.

Lemma Matches_star_set cs s rest :
  Matches icase (Re.Star (Re.Set_ cs)) s rest ->
  Str.forallb (Re.member icase cs) s = true.
Proof.
  remember (Re.Star (Re.Set_ cs)) as r eqn:Er. intros H.
  induction H as [| | | | | a rest | a s1 s2 rest H1 _ H2 IH2 |];
    try discriminate; [reflexivity |].
  injection Er as ->. apply Matches_set_inv in H1.
  destruct H1 as (c & -> & Hc). rewrite forallb_app. cbn [Str.forallb].
  rewrite Hc, IH2; reflexivity.
Qed.

Lemma Matches_plus_set cs s rest :
  Matches icase (Re.plus (Re.Set_ cs)) s rest ->
  s <> EmptyString /\ Str.forallb (Re.member icase cs) s = true.
Proof.
  unfold Re.plus. intros H. apply Matches_cat_inv in H.
  destruct H as (s1 & s2 & -> & H1 & H2).
  apply Matches_set_inv in H1. destruct H1 as (c & -> & Hc).
  apply Matches_star_set in H2. split; [discriminate |].
  rewrite forallb_app. cbn [Str.forallb]. rewrite Hc, H2. reflexivity.
Qed.

End Matcher.

(** ** The dotted-quad pattern *)

Section DottedQuad.

Lemma append_nil_r (s : string) : s +:+ "" = s.
Proof.
  induction s as [| c s IH]; [reflexivity |].
  change (String c (s +:+ "") = String c s). f_equal. exact IH.
Qed.

Lemma forallb_impl (p q : ascii -> bool) s :
  (forall c, p c = true -> q c = true) ->
  Str.forallb p s = true -> Str.forallb q s = true.
Proof.
  intros Hpq. induction s as [| c s IH]; [reflexivity |].
  cbn [Str.forallb]. rewrite !andb_true_iff. intros [Hc Hs]. auto.
Qed.

Lemma member_digit c :
  Re.member false [("0", "9")]%char c = true -> is_digit c = true.
Proof.
  unfold Re.member, Re.in_set. cbn [existsb fst snd].
  rewrite orb_false_r. intros H. exact H.
Qed.

Lemma member_dot c : Re.member false [(".", ".")]%char c = true -> c = "."%char.
Proof.
  unfold Re.member, Re.in_set. cbn [existsb fst snd].
  rewrite orb_false_r. unfold Str.between, Str.code.
  change (N_of_ascii ".") with 46%N. intros H.
  apply andb_true_iff in H. destruct H as [H1 H2].
  apply N.leb_le in H1, H2.
  assert (E : N_of_ascii c = 46%N) by lia.
  rewrite <- (ascii_N_embedding c), E. reflexivity.
Qed.

Lemma Matches_digits s rest :
  Matches false (Re.plus Re.digit) s rest -> digits s.
Proof.
  intros H. apply Matches_plus_set in H. destruct H as [Hne Hall].
  split; [exact Hne |]. revert Hall. apply forallb_impl, member_digit.
Qed.

Lemma Matches_dot s rest : Matches false Patterns.dot s rest -> s = ".".
Proof.
  intros H. apply Matches_set_inv in H. destruct H as (c & -> & Hc).
  apply member_dot in Hc. subst. reflexivity.
Qed.

(** What the pattern [^\d+\.\d+\.\d+\.\d+$] accepts at the start of a
    string is a dotted quad, followed by nothing or by one final newline. *)
Lemma ip_pattern_sound loc :
  Re.is_match false Patterns.ip_pattern loc = true ->
  exists quad tail,
    dotted_quad quad /\ loc = quad +:+ tail /\ Re.at_eol tail = true.
Proof.
  intros H. apply is_match_sound in H. destruct H as (s & tail & -> & H).
  change (Re.body Patterns.ip_pattern) with
    (Re.Cat (Re.plus Re.digit) (Re.Cat Patterns.dot
       (Re.Cat (Re.plus Re.digit) (Re.Cat Patterns.dot
          (Re.Cat (Re.plus Re.digit) (Re.Cat Patterns.dot
             (Re.Cat (Re.plus Re.digit) Re.Eol))))))) in H.
  apply Matches_cat_inv in H. destruct H as (a & s1 & -> & Ha & H).
  apply Matches_cat_inv in H. destruct H as (p1 & s2 & -> & Hp1 & H).
  apply Matches_cat_inv in H. destruct H as (b & s3 & -> & Hb & H).
  apply Matches_cat_inv in H. destruct H as (p2 & s4 & -> & Hp2 & H).
  apply Matches_cat_inv in H. destruct H as (c & s5 & -> & Hc & H).
  apply Matches_cat_inv in H. destruct H as (p3 & s6 & -> & Hp3 & H).
  apply Matches_cat_inv in H. destruct H as (d & e & -> & Hd & He).
  apply Matches_eol_inv in He. destruct He as [-> Heol].
  apply Matches_digits in Ha, Hb, Hc, Hd.
  apply Matches_dot in Hp1, Hp2, Hp3. subst p1 p2 p3.
  rewrite append_nil_r.
  eexists. exists tail. split; [| split; [reflexivity | exact Heol]].
  exists a, b, c, d. repeat split; try assumption;
    try apply Ha; try apply Hb; try apply Hc; try apply Hd.
Qed.

Lemma at_eol_cases tail :
  Re.at_eol tail = true -> tail = EmptyString \/ tail = Re.newline.
Proof.
  unfold Re.at_eol. rewrite orb_true_iff, !String.eqb_eq. auto.
Qed.

Lemma member_digit_eq c : Re.member false [("0", "9")]%char c = is_digit c.
Proof.
  unfold Re.member, Re.in_set. cbn [existsb fst snd]. apply orb_false_r.
Qed.

(** Greedy repetition of [\d] runs to the end of a run of digits, and the
    match goes on from there when the rest of the pattern accepts it. *)
Lemma star_digit_run k x rest :
  starts_nondigit rest -> k rest = Some x ->
  forall d n,
    Str.forallb is_digit d = true ->
    (String.length (d +:+ rest) <= n)%nat ->
    Re.star_loop (Re.bt false Re.digit) k n (d +:+ rest) = Some x.
Proof.
  intros Hrest Hk. induction d as [| c d IH]; intros n Hd Hn.
  - change ("" +:+ rest) with rest. destruct n as [| n]; [exact Hk |].
    cbn [Re.star_loop]. unfold Re.digit at 1. cbn [Re.bt].
    destruct rest as [| c rest]; [exact Hk |].
    rewrite member_digit_eq. cbn in Hrest. rewrite Hrest. exact Hk.
  - change (String c d +:+ rest) with (String c (d +:+ rest)) in *.
    cbn [Str.forallb] in Hd. apply andb_true_iff in Hd. destruct Hd as [Hc Hd].
    cbn [String.length] in Hn. destruct n as [| n]; [lia |].
    cbn [Re.star_loop]. unfold Re.digit at 1. cbn [Re.bt].
    rewrite member_digit_eq, Hc. cbn [String.length].
    assert (E : (String.length (d +:+ rest) <? S (String.length (d +:+ rest)))%nat
                = true) by (apply Nat.ltb_lt; lia).
    rewrite E. rewrite (IH n Hd); [reflexivity | lia].
Qed.

Lemma plus_digit_run k x rest d :
  digits d -> starts_nondigit rest -> k rest = Some x ->
  Re.bt false (Re.plus Re.digit) (d +:+ rest) k = Some x.
Proof.
  intros [Hne Hd] Hrest Hk. destruct d as [| c d]; [congruence |].
  change (String c d +:+ rest) with (String c (d +:+ rest)).
  cbn [Str.forallb] in Hd. apply andb_true_iff in Hd. destruct Hd as [Hc Hd].
  unfold Re.plus. cbn [Re.bt]. unfold Re.digit at 1. cbn [Re.bt].
  rewrite member_digit_eq, Hc.
  apply star_digit_run; auto.
Qed.

Lemma dot_step s k : Re.bt false Patterns.dot ("." +:+ s) k = k s.
Proof. reflexivity. Qed.

(** The pattern accepts every dotted quad, alone or before one final
    newline. *)
Lemma ip_pattern_complete quad tail :
  dotted_quad quad -> Re.at_eol tail = true ->
  Re.is_match false Patterns.ip_pattern (quad +:+ tail) = true.
Proof.
  intros (a & b & c & d & Ha & Hb & Hc & Hd & ->) Ht.
  unfold Re.is_match, Re.match_rest.
  enough (E : Re.bt false (Re.body Patterns.ip_pattern)
                (((a +:+ "." +:+ b +:+ "." +:+ c +:+ "." +:+ d)) +:+ tail) Some
              = Some tail) by (rewrite E; reflexivity).
  change (Re.body Patterns.ip_pattern) with
    (Re.Cat (Re.plus Re.digit) (Re.Cat Patterns.dot
       (Re.Cat (Re.plus Re.digit) (Re.Cat Patterns.dot
          (Re.Cat (Re.plus Re.digit) (Re.Cat Patterns.dot
             (Re.Cat (Re.plus Re.digit) Re.Eol))))))).
  rewrite !append_assoc.
  assert (Hdot : forall s, starts_nondigit ("." +:+ s))
    by (intros s; reflexivity).
  assert (Htail : starts_nondigit tail)
    by (destruct (at_eol_cases _ Ht) as [-> | ->]; reflexivity).
  cbn [Re.bt].
  apply plus_digit_run; [exact Ha | apply Hdot |]. rewrite dot_step.
  apply plus_digit_run; [exact Hb | apply Hdot |]. rewrite dot_step.
  apply plus_digit_run; [exact Hc | apply Hdot |]. rewrite dot_step.
  apply plus_digit_run; [exact Hd | exact Htail |].
  cbn [Re.bt]. rewrite Ht. reflexivity.
Qed.

Lemma count_app a b c : Str.count (a +:+ b) c = (Str.count a c + Str.count b c)%nat.
Proof.
  induction a as [| x a IH]; [reflexivity |].
  change (String x a +:+ b) with (String x (a +:+ b)).
  cbn [Str.count]. rewrite IH. lia.
Qed.

Lemma digits_no_dot s : Str.forallb is_digit s = true -> Str.count s "." = 0%nat.
Proof.
  induction s as [| c s IH]; [reflexivity |].
  cbn [Str.forallb Str.count]. rewrite andb_true_iff. intros [Hc Hs].
  rewrite (IH Hs). destruct (Ascii.eqb_spec c ".") as [-> | _]; [| reflexivity].
  discriminate Hc.
Qed.

Lemma dotted_quad_dots quad tail :
  dotted_quad quad -> Re.at_eol tail = true ->
  Str.count (quad +:+ tail) "." = 3%nat.
Proof.
  intros (a & b & c & d & [_ Ha] & [_ Hb] & [_ Hc] & [_ Hd] & ->) Ht.
  rewrite !count_app.
  rewrite (digits_no_dot _ Ha), (digits_no_dot _ Hb), (digits_no_dot _ Hc),
    (digits_no_dot _ Hd).
  destruct (at_eol_cases _ Ht) as [-> | ->]; reflexivity.
Qed.

Lemma last_char_some x s : exists c, last_char (String x s) = Some c.
Proof.
  revert x. induction s as [| y s IH]; intros x; [eexists; reflexivity |].
  destruct (IH y) as [c Hc]. exists c. exact Hc.
Qed.

Lemma last_char_cons x s :
  last_char (String x s)
  = match last_char s with
    | Some c => Some c
    | None => Some x
    end.
Proof.
  destruct s as [| y s]; [reflexivity |].
  destruct (last_char_some y s) as [c Hc].
  change (last_char (String x (String y s))) with (last_char (String y s)).
  rewrite Hc. reflexivity.
Qed.

Lemma last_char_app a b :
  last_char (a +:+ b)
  = match last_char b with
    | Some c => Some c
    | None => last_char a
    end.
Proof.
  induction a as [| x a IH].
  - change ("" +:+ b) with b. destruct (last_char b); reflexivity.
  - change (String x a +:+ b) with (String x (a +:+ b)).
    rewrite !last_char_cons, IH. destruct (last_char b); reflexivity.
Qed.

Lemma last_char_forallb p s :
  s <> EmptyString -> Str.forallb p s = true ->
  exists c, last_char s = Some c /\ p c = true.
Proof.
  induction s as [| x s IH]; [congruence |]. intros _.
  cbn [Str.forallb]. rewrite andb_true_iff. intros [Hx Hs].
  rewrite last_char_cons. destruct s as [| y s]; [eauto |].
  destruct IH as (c & Hc & Hp); [discriminate | exact Hs |].
  rewrite Hc. eauto.
Qed.

Lemma dotted_quad_last quad tail :
  dotted_quad quad -> Re.at_eol tail = true ->
  exists c, last_char (quad +:+ tail) = Some c /\ plain c = true.
Proof.
  intros (a & b & c & d & _ & _ & _ & [Hne Hd] & ->) Ht.
  rewrite last_char_app.
  destruct (at_eol_cases _ Ht) as [-> | ->].
  - cbn [last_char]. rewrite !last_char_app.
    destruct (last_char_forallb _ _ Hne Hd) as (x & -> & Hx).
    exists x. split; [reflexivity |]. unfold plain. rewrite Hx. reflexivity.
  - eexists. split; reflexivity.
Qed.

Lemma last_char_lower s :
  last_char (Str.lower s) = Str.lower_char <$> last_char s.
Proof.
  induction s as [| x s IH]; [reflexivity |].
  cbn [Str.lower]. rewrite !last_char_cons, IH.
  destruct (last_char s); reflexivity.
Qed.

Lemma endswith_last s suf :
  suf <> EmptyString -> Str.endswith s suf = true ->
  last_char s = last_char suf.
Proof.
  intros Hne. induction s as [| x s IH]; cbn [Str.endswith].
  - rewrite orb_false_r, String.eqb_eq. intros <-. congruence.
  - rewrite orb_true_iff, String.eqb_eq. intros [<- | H]; [reflexivity |].
    rewrite last_char_cons, (IH H).
    destruct suf as [| y suf]; [congruence |].
    destruct (last_char_some y suf) as [c ->]. reflexivity.
Qed.

Lemma plain_lower c :
  plain c = true ->
  Str.lower_char c = c /\ Str.between 97 122 c = false.
Proof.
  unfold plain, is_digit, Str.lower_char, Str.is_upper, Str.between.
  generalize (Str.code c). intros n H.
  assert (Hn : (48 <= n <= 57 \/ n = 10)%N).
  { apply orb_true_iff in H. destruct H as [H | H].
    - apply andb_true_iff in H. destruct H as [H1 H2].
      apply N.leb_le in H1, H2. lia.
    - apply N.eqb_eq in H. lia. }
  assert (E1 : (65 <=? n)%N = false) by (apply N.leb_gt; lia).
  assert (E2 : (192 <=? n)%N = false) by (apply N.leb_gt; lia).
  assert (E3 : (97 <=? n)%N = false) by (apply N.leb_gt; lia).
  rewrite E1, E2, E3. split; reflexivity.
Qed.

Lemma init_tlds_end_with_letter :
  Forall (fun tld => ends_with_letter tld = true) (suspicious_tlds init).
Proof.
  apply List.Forall_forall. apply List.forallb_forall. vm_compute. reflexivity.
Qed.

Lemma plain_end_no_suffix s suf c :
  last_char s = Some c -> plain c = true -> ends_with_letter suf = true ->
  Str.endswith (Str.lower s) suf = false.
Proof.
  intros Hs Hc Hsuf. destruct (Str.endswith (Str.lower s) suf) eqn:E;
    [| reflexivity].
  assert (Hne : suf <> EmptyString) by (intros ->; discriminate Hsuf).
  apply (endswith_last _ _ Hne) in E. rewrite last_char_lower, Hs in E.
  unfold ends_with_letter in Hsuf. rewrite <- E in Hsuf. cbn in Hsuf.
  destruct (plain_lower c Hc) as [E1 E2]. rewrite E1 in Hsuf. congruence.
Qed.

Lemma tld_fold_unchanged domain tlds acc :
  Forall (fun tld => Str.endswith domain tld = false) tlds ->
  fold_left (tld_step domain) tlds acc = acc.
Proof.
  intros H. revert acc. induction H as [| tld tlds Ht _ IH]; intros acc;
    [reflexivity |].
  cbn [fold_left]. destruct acc as [risk reasons]. unfold tld_step at 2.
  rewrite Ht. apply IH.
Qed.

End DottedQuad.

(** ** The methods as functions of the detector *)

Section Runs.

Variable check : string -> option string.

Lemma for_each_urls urls : forall acc self,
  for_each urls
    (fun results url =>
       finding ← analyze_url check url; mret (results ++ [finding]))
    acc self
  = (self,
     match collect (url_outcome check self) urls with
     | inl e => inl e
     | inr findings => inr (acc ++ findings)
     end).
Proof.
  induction urls as [| url urls IH]; intros acc self; simpl.
  - unfold ret. rewrite app_nil_r. reflexivity.
  - unfold mbind, M_bind, bind at 1.
    unfold analyze_url, mbind, M_bind, bind, call, attr, mret, M_ret, ret,
      url_outcome.
    destruct (Url.netloc check url) as [e | loc]; [reflexivity |].
    fold (url_outcome check self). rewrite IH.
    destruct (collect _ urls) as [e | fs]; [reflexivity |].
    rewrite <- app_assoc. reflexivity.
Qed.

Lemma analyze_urls_run text self :
  analyze_urls check text self
  = (self, collect (url_outcome check self)
             (Re.findall false Patterns.url_pattern text)).
Proof.
  unfold analyze_urls. rewrite for_each_urls.
  destruct (collect _ _); reflexivity.
Qed.

Lemma analyze_keywords_run text self :
  analyze_keywords text self
  = (self, inr (fold_left (keyword_step (Str.lower text))
                  (suspicious_keywords self) (Num.Int 0, []))).
Proof. reflexivity. Qed.

Lemma analyze_headers_run headers self :
  analyze_headers headers self
  = (self, inr (missing_check headers
                  (sender_check self headers
                     (reply_to_check headers (Num.Int 0, []))))).
Proof.
  unfold analyze_headers, reply_to_check, sender_check, missing_check.
  unfold mbind, M_bind, bind, call, attr, mret, M_ret, ret.
  destruct (headers !! "from") as [sender |]; [| reflexivity].
  destruct (headers !! "reply-to") as [reply |].
  - rewrite !last_item_split.
    destruct (mismatch_step _ _ _) as [score reasons].
    destruct (fold_left (sender_step _) _ _) as [score' reasons'].
    reflexivity.
  - destruct (fold_left (sender_step _) _ _) as [score' reasons'].
    reflexivity.
Qed.

Lemma analyze_message_run text headers self :
  analyze_message check text headers self
  = (self,
     match collect (url_outcome check self)
             (Re.findall false Patterns.url_pattern text) with
     | inl e => inl e
     | inr url_results =>
         let url_score := Num.sum (map URLFinding.risk_score url_results) in
         let kw := fold_left (keyword_step (Str.lower text))
                     (suspicious_keywords self) (Num.Int 0, []) in
         let total := Num.add (Num.add (Num.Int 0) url_score) (fst kw) in
         let total :=
           match header_part self headers with
           | Some hd => Num.add total (fst hd)
           | None => total
           end in
         let overall := Num.min total Num.f1_0 in
         inr {| overall_risk_score := overall;
                risk_level := fst (classify overall);
                url_analysis := url_results;
                keyword_analysis := KeywordResult.Build (fst kw) (snd kw);
                header_analysis :=
                  match header_part self headers with
                  | Some hd => Some (HeaderResult.Build (fst hd) (snd hd))
                  | None => None
                  end;
                recommendations := [snd (classify overall)] |}
     end).
Proof.
  unfold analyze_message, mbind, M_bind, bind at 1.
  rewrite analyze_urls_run.
  destruct (collect _ _) as [e | url_results]; [reflexivity |].
  unfold bind at 1. rewrite analyze_keywords_run.
  destruct (fold_left (keyword_step _) _ _) as [kw kws] eqn:Ekw.
  unfold header_part. cbn [fst snd].
  destruct headers as [h |]; [destruct (truthy h) |].
  - unfold bind at 1. unfold bind at 1. rewrite analyze_headers_run.
    destruct (missing_check _ _) as [hs hr]. cbn [fst snd].
    unfold mret, M_ret, ret.
    destruct (classify _) as [level rec]. reflexivity.
  - unfold bind, mret, M_ret, ret.
    destruct (classify _) as [level rec]. reflexivity.
  - unfold bind, mret, M_ret, ret.
    destruct (classify _) as [level rec]. reflexivity.
Qed.

End Runs.

(** ** No score is negative *)

Section Signs.

Variable check : string -> option string.

Let ok (acc : Num.num * list string) : Prop := Num.nonneg (fst acc) = true.

Lemma fold_left_preserves {A B : Type} (P : A -> Prop) (Q : B -> Prop)
    (f : A -> B -> A) :
  (forall a b, P a -> Q b -> P (f a b)) ->
  forall l a, Forall Q l -> P a -> P (fold_left f l a).
Proof.
  intros Hf. induction l as [| b l IH]; intros a Hl Ha; simpl; [exact Ha |].
  inversion Hl; subst. apply IH; auto.
Qed.

Lemma literals_nonneg :
  Num.nonneg Num.f0_2 = true /\ Num.nonneg Num.f0_3 = true /\
  Num.nonneg Num.f0_4 = true /\ Num.nonneg Num.f0_5 = true.
Proof. vm_compute. auto. Qed.

Lemma tld_step_ok domain acc tld : ok acc -> ok (tld_step domain acc tld).
Proof.
  destruct acc as [r rs]. unfold ok, tld_step. cbn [fst].
  destruct (Str.endswith domain tld); cbn [fst]; auto.
  intros H. apply add_nonneg; [exact H | apply literals_nonneg].
Qed.

Lemma url_finding_nonneg tlds url loc :
  Num.nonneg (URLFinding.risk_score (url_finding tlds url loc)) = true.
Proof.
  unfold url_finding.
  assert (H : ok (fold_left (tld_step (Str.lower loc)) tlds (Num.Int 0, []))).
  { apply (fold_left_preserves ok (fun _ => True)).
    - intros a b Ha _. apply tld_step_ok, Ha.
    - apply List.Forall_forall. auto.
    - reflexivity. }
  destruct (fold_left _ tlds _) as [r rs]. unfold ok in H. cbn [fst] in H.
  destruct literals_nonneg as (_ & H3 & _ & H5).
  destruct (Re.is_match _ _ _), (2 <? Str.count loc ".")%nat,
    (Str.contains url "%"); cbn [URLFinding.risk_score];
    repeat apply add_nonneg; assumption.
Qed.

Lemma collect_nonneg self urls findings :
  collect (url_outcome check self) urls = inr findings ->
  Forall (fun x => Num.nonneg x = true) (map URLFinding.risk_score findings).
Proof.
  revert findings. induction urls as [| url urls IH]; intros findings; simpl.
  - intros H. apply (inj inr) in H. subst. constructor.
  - unfold url_outcome at 1.
    destruct (Url.netloc check url) as [e | loc]; [discriminate |].
    destruct (collect _ urls) as [e | fs]; [discriminate |].
    intros H. apply (inj inr) in H. subst. simpl. constructor.
    + apply url_finding_nonneg.
    + apply IH. reflexivity.
Qed.

Lemma keyword_step_ok text acc item :
  ok acc -> Num.nonneg (snd item) = true -> ok (keyword_step text acc item).
Proof.
  destruct acc as [r rs], item as [kw w]. unfold ok, keyword_step.
  cbn [fst snd]. destruct (Str.contains text kw); cbn [fst]; auto.
  intros. apply add_nonneg; assumption.
Qed.

Lemma init_weights_nonneg :
  Forall (fun item : string * Num.num => Num.nonneg (snd item) = true)
    (suspicious_keywords init).
Proof.
  apply List.Forall_forall. apply List.forallb_forall. vm_compute. reflexivity.
Qed.

Lemma keywords_nonneg text :
  ok (fold_left (keyword_step text) (suspicious_keywords init) (Num.Int 0, [])).
Proof.
  apply (fold_left_preserves ok
           (fun item : string * Num.num => Num.nonneg (snd item) = true)).
  - intros a b. apply keyword_step_ok.
  - apply init_weights_nonneg.
  - reflexivity.
Qed.

Lemma mismatch_step_ok acc d1 d2 : ok acc -> ok (mismatch_step acc d1 d2).
Proof.
  destruct acc as [r rs]. unfold ok, mismatch_step. cbn [fst].
  destruct (negb _); cbn [fst]; auto.
  intros H. apply add_nonneg; [exact H | apply literals_nonneg].
Qed.

Lemma sender_step_ok sender acc pattern :
  ok acc -> ok (sender_step sender acc pattern).
Proof.
  destruct acc as [r rs]. unfold ok, sender_step. cbn [fst].
  destruct (Re.search _ _ _); cbn [fst]; auto.
  intros H. apply add_nonneg; [exact H | apply literals_nonneg].
Qed.

Lemma missing_step_ok headers acc header :
  ok acc -> ok (missing_step headers acc header).
Proof.
  destruct acc as [r rs]. unfold ok, missing_step. cbn [fst].
  destruct (headers !! header); cbn [fst]; auto.
  intros H. apply add_nonneg; [exact H | apply literals_nonneg].
Qed.

Lemma headers_nonneg self headers :
  ok (missing_check headers
        (sender_check self headers (reply_to_check headers (Num.Int 0, [])))).
Proof.
  assert (H1 : ok (reply_to_check headers (Num.Int 0, []))).
  { unfold reply_to_check.
    destruct (headers !! "from"); [| reflexivity].
    destruct (headers !! "reply-to"); [| reflexivity].
    apply mismatch_step_ok. reflexivity. }
  assert (H2 : ok (sender_check self headers
                     (reply_to_check headers (Num.Int 0, [])))).
  { unfold sender_check. destruct (headers !! "from"); [| exact H1].
    apply (fold_left_preserves ok (fun _ => True)); auto.
    - intros a b Ha _. apply sender_step_ok, Ha.
    - apply List.Forall_forall. auto. }
  unfold missing_check.
  apply (fold_left_preserves ok (fun _ => True)); auto.
  - intros a b Ha _. apply missing_step_ok, Ha.
  - apply List.Forall_forall. auto.
Qed.

End Signs.

(** ** When the analysis returns *)

Section Totality.

Variable check : string -> option string.

Lemma forallb_take p n : forall s,
  Str.forallb p s = true -> Str.forallb p (Str.take n s) = true.
Proof.
  induction n as [| n IH]; intros [| c s]; cbn [Str.take Str.forallb]; auto.
  rewrite !andb_true_iff. intros [Hc Hs]. auto.
Qed.

Lemma forallb_drop p n : forall s,
  Str.forallb p s = true -> Str.forallb p (Str.drop n s) = true.
Proof.
  induction n as [| n IH]; intros [| c s]; cbn [Str.drop]; auto.
  cbn [Str.forallb]. rewrite andb_true_iff. intros [_ Hs]. auto.
Qed.

Lemma forallb_take_until p q s :
  Str.forallb p s = true -> Str.forallb p (Str.take_until q s) = true.
Proof.
  induction s as [| c s IH]; cbn [Str.take_until Str.forallb]; auto.
  rewrite andb_true_iff. intros [Hc Hs].
  destruct (q c); cbn [Str.forallb]; [reflexivity |].
  rewrite Hc, (IH Hs). reflexivity.
Qed.

Lemma findall_forallb p icase pat s : forall skip,
  Str.forallb p s = true ->
  Forall (fun url => Str.forallb p url = true)
    (Re.findall_from icase pat skip s).
Proof.
  induction s as [| c s IH]; intros skip Hs.
  - destruct skip; cbn [Re.findall_from]; [| constructor].
    destruct (Re.match_rest icase pat ""); constructor;
      [apply forallb_take; exact Hs | constructor].
  - pose proof Hs as Hs'. cbn [Str.forallb] in Hs'.
    apply andb_true_iff in Hs'. destruct Hs' as [_ Hs'].
    destruct skip; cbn [Re.findall_from]; [| apply IH; exact Hs'].
    destruct (Re.match_rest icase pat (String c s)).
    + constructor; [apply forallb_take; exact Hs | apply IH; exact Hs'].
    + apply IH; exact Hs'.
Qed.

Lemma no_bracket_contains s :
  Str.forallb no_bracket s = true ->
  Str.contains s "[" = false /\ Str.contains s "]" = false.
Proof.
  induction s as [| c s IH]; [split; reflexivity |].
  cbn [Str.forallb]. rewrite andb_true_iff. intros [Hc Hs].
  destruct (IH Hs) as [H1 H2]. unfold no_bracket in Hc.
  apply andb_true_iff in Hc. destruct Hc as [Hc1 Hc2].
  apply negb_true_iff in Hc1, Hc2.
  cbn [Str.contains Str.startswith]. rewrite H1, H2.
  rewrite (Ascii.eqb_sym "[" c), (Ascii.eqb_sym "]" c), Hc1, Hc2.
  split; reflexivity.
Qed.

Lemma netloc_no_bracket url :
  Str.forallb no_bracket url = true ->
  exists loc, Url.netloc check url = inr loc.
Proof.
  intros H. unfold Url.netloc.
  assert (Hrest : Str.forallb no_bracket (Url.strip_scheme url) = true).
  { unfold Url.strip_scheme. destruct (Str.find url ":") as [[| i] |]; auto.
    destruct url as [| c url]; auto.
    destruct (_ && _); auto. apply forallb_drop. exact H. }
  destruct (Str.startswith _ "//"); [| eauto].
  destruct (no_bracket_contains _
              (forallb_take_until _ Url.delimiter _
                 (forallb_drop _ 2 _ Hrest))) as [-> ->].
  cbn. eauto.
Qed.

Lemma collect_total {A B : Type} (f : A -> exn + B) xs :
  Forall (fun x => exists b, f x = inr b) xs ->
  exists bs, collect f xs = inr bs.
Proof.
  induction 1 as [| x xs [b Hb] _ [bs IH]]; cbn [collect]; [eauto |].
  rewrite Hb, IH. eauto.
Qed.

(** A text without square brackets is analysed to the end: both
    [analyze_urls] and [analyze_message] return. *)
Lemma analyze_message_total text headers :
  Str.forallb no_bracket text = true ->
  (exists findings, returns (analyze_urls check text) findings) /\
  (exists r, returns (analyze_message check text headers) r).
Proof.
  intros H.
  assert (Hc : exists findings,
             collect (url_outcome check init)
               (Re.findall false Patterns.url_pattern text) = inr findings).
  { apply collect_total.
    eapply Forall_impl; [apply (findall_forallb no_bracket); exact H |].
    intros url Hurl. cbn beta in Hurl.
    destruct (netloc_no_bracket url Hurl) as [loc Hloc].
    unfold url_outcome. rewrite Hloc. eauto. }
  destruct Hc as [findings Hc]. unfold returns, outcome. split.
  - exists findings. rewrite analyze_urls_run. exact Hc.
  - rewrite analyze_message_run, Hc. eauto.
Qed.

End Totality.

(** ** The aggregate score and its classification *)

Section Aggregate.

Variable check : string -> option string.

(** The truth value of a mapping says that it is not empty. *)
Lemma truthy_spec (h : gmap string string) : truthy h = true <-> h <> ∅.
Proof.
  unfold truthy. rewrite negb_true_iff, Nat.eqb_neq.
  rewrite <- (map_size_empty_iff h). reflexivity.
Qed.

Lemma header_part_nonneg self headers hd :
  header_part self headers = Some hd -> Num.nonneg (fst hd) = true.
Proof.
  unfold header_part. destruct headers as [h |]; [| discriminate].
  destruct (truthy h); [| discriminate].
  intros H. apply (inj Some) in H. subst hd. apply headers_nonneg.
Qed.

(** What a returned report holds. *)
Lemma analyze_message_report text headers r :
  returns (analyze_message check text headers) r ->
  exists url_results kw total,
    returns (analyze_urls check text) url_results /\
    returns (analyze_keywords text) kw /\
    Num.nonneg (Num.sum (map URLFinding.risk_score url_results)) = true /\
    Num.nonneg (fst kw) = true /\
    Num.nonneg total = true /\
    total = match header_part init headers with
            | Some hd =>
                Num.add
                  (Num.add (Num.sum (map URLFinding.risk_score url_results))
                     (fst kw)) (fst hd)
            | None =>
                Num.add (Num.sum (map URLFinding.risk_score url_results))
                  (fst kw)
            end /\
    r = {| overall_risk_score := Num.min total Num.f1_0;
           risk_level := fst (classify (Num.min total Num.f1_0));
           url_analysis := url_results;
           keyword_analysis := KeywordResult.Build (fst kw) (snd kw);
           header_analysis :=
             match header_part init headers with
             | Some hd => Some (HeaderResult.Build (fst hd) (snd hd))
             | None => None
             end;
           recommendations := [snd (classify (Num.min total Num.f1_0))] |}.
Proof.
  unfold returns, outcome. rewrite analyze_message_run. cbn [snd].
  destruct (collect _ _) as [e | urls] eqn:Eurls; [discriminate |].
  intros H. apply (inj inr) in H.
  pose proof (sum_nonneg _ (collect_nonneg check init _ _ Eurls)) as Hu.
  pose proof (keywords_nonneg (Str.lower text)) as Hk.
  rewrite (add_0_l _ Hu) in H.
  exists urls, (fold_left (keyword_step (Str.lower text))
                  (suspicious_keywords init) (Num.Int 0, [])).
  eexists. rewrite analyze_urls_run, analyze_keywords_run. cbn [snd].
  repeat split; try eassumption; try reflexivity.
  - destruct (header_part init headers) as [hd |] eqn:Ehd.
    + repeat apply add_nonneg; try assumption.
      apply (header_part_nonneg _ _ _ Ehd).
    + apply add_nonneg; assumption.
  - symmetry. exact H.
Qed.

(** C2: the score of every report that [analyze_message] returns lies
    between 0.0 and 1.0, whatever the message and the headers; and a
    report is returned for every message without square brackets. *)
Theorem C2_score_within_bounds :
  (forall text headers r,
      returns (analyze_message check text headers) r ->
      Num.leb (Num.Float (S754_zero false)) (overall_risk_score r) = true /\
      Num.leb (overall_risk_score r) Num.f1_0 = true) /\
  (forall text headers,
      Str.forallb no_bracket text = true ->
      exists r, returns (analyze_message check text headers) r).
Proof.
  split.
  - intros text headers r H. apply analyze_message_report in H.
    destruct H as (urls & kw & total & _ & _ & _ & _ & Ht & _ & ->).
    cbn [overall_risk_score]. apply min_bounds, Ht.
  - intros text headers H. apply analyze_message_total, H.
Qed.

Lemma classify_cases s :
  Num.nonneg s = true ->
  (Num.geb s Num.f0_7 = true ->
   classify s = ("High", "Block this message immediately")) /\
  (Num.geb s Num.f0_4 = true /\ Num.ltb s Num.f0_7 = true ->
   classify s
   = ("Medium", "Review message carefully before taking any action")) /\
  (Num.ltb s Num.f0_4 = true ->
   classify s
   = ("Low", "Message appears to be legitimate but always exercise caution")) /\
  (Num.eqb s Num.f0_7 = true -> fst (classify s) = "High") /\
  (Num.eqb s Num.f0_4 = true -> fst (classify s) = "Medium") /\
  (Num.geb s Num.f0_7 = true \/
   (Num.geb s Num.f0_4 = true /\ Num.ltb s Num.f0_7 = true) \/
   Num.ltb s Num.f0_4 = true).
Proof.
  intros Hs. unfold classify, Num.geb.
  repeat split.
  - intros ->. reflexivity.
  - intros [H4 H7]. rewrite f0_7_val in *.
    rewrite (ltb_not_leb _ _ H7), H4. reflexivity.
  - intros H4. rewrite (below_0_4_below_0_7 _ H4).
    rewrite f0_4_val in *. rewrite (ltb_not_leb _ _ H4). reflexivity.
  - intros H7. rewrite f0_7_val in *. rewrite (eqb_leb _ _ H7). reflexivity.
  - intros H4. rewrite (eq_0_4_below_0_7 _ H4).
    rewrite f0_4_val in *. rewrite (eqb_leb _ _ H4). reflexivity.
  - destruct (Num.leb Num.f0_7 s) eqn:E7; [left; reflexivity | right].
    assert (L7 : Num.ltb s Num.f0_7 = true).
    { rewrite f0_7_val in *.
      apply not_leb_ltb; [assumption | discriminate | assumption]. }
    destruct (Num.leb Num.f0_4 s) eqn:E4; [left; auto | right].
    rewrite f0_4_val in *. apply not_leb_ltb; [assumption | discriminate | assumption].
Qed.

(** C3: the level and the recommendation of a returned report follow the
    clamped score in this order: a score of at least 0.7 is High with
    "Block this message immediately"; a score of at least 0.4 and below
    0.7 is Medium with "Review message carefully before taking any
    action"; a score below 0.4 is Low, with the third recommendation.  A
    score equal to 0.7 is High and a score equal to 0.4 is Medium, and one
    of the three cases always applies. *)
Theorem C3_classification text headers r :
  returns (analyze_message check text headers) r ->
  let s := overall_risk_score r in
  (Num.geb s Num.f0_7 = true ->
   risk_level r = "High" /\
   recommendations r = ["Block this message immediately"]) /\
  (Num.geb s Num.f0_4 = true /\ Num.ltb s Num.f0_7 = true ->
   risk_level r = "Medium" /\
   recommendations r
   = ["Review message carefully before taking any action"]) /\
  (Num.ltb s Num.f0_4 = true ->
   risk_level r = "Low" /\
   recommendations r
   = ["Message appears to be legitimate but always exercise caution"]) /\
  (Num.eqb s Num.f0_7 = true -> risk_level r = "High") /\
  (Num.eqb s Num.f0_4 = true -> risk_level r = "Medium") /\
  (Num.geb s Num.f0_7 = true \/
   (Num.geb s Num.f0_4 = true /\ Num.ltb s Num.f0_7 = true) \/
   Num.ltb s Num.f0_4 = true).
Proof.
  intros H. apply analyze_message_report in H.
  destruct H as (urls & kw & total & _ & _ & _ & _ & Ht & _ & ->).
  cbn [overall_risk_score risk_level recommendations].
  destruct (classify_cases _ (min_nonneg _ Ht)) as (H1 & H2 & H3 & H4 & H5 & H6).
  repeat split; auto.
  - rewrite (H1 H). reflexivity.
  - rewrite (H1 H). reflexivity.
  - rewrite (H2 H). reflexivity.
  - rewrite (H2 H). reflexivity.
  - rewrite (H3 H). reflexivity.
  - rewrite (H3 H). reflexivity.
Qed.

(** C1, as amended: the score of a returned report is
    [min(url_score + keyword_score + header_score, 1.0)], where
    [url_score] is the sum of the findings' scores, [keyword_score] the
    keyword analyzer's score, and [header_score] the header analyzer's
    score when a header mapping is given and is not empty, and 0
    otherwise.  Only the aggregate is clamped: a finding's own score can
    exceed 1.0 in a report whose score is 1.0. *)
Theorem C1_aggregate_score :
  (forall text headers r,
      returns (analyze_message check text headers) r ->
      aggregate_formula header_score check text headers r) /\
  (exists text r finding,
      returns (analyze_message check text None) r /\
      In finding (url_analysis r) /\
      Num.ltb Num.f1_0 (URLFinding.risk_score finding) = true /\
      overall_risk_score r = Num.f1_0).
Proof.
  split.
  - intros text headers r H. apply analyze_message_report in H.
    destruct H as (urls & kw & total & Hurls & Hkw & Hu & Hk & Ht & -> & ->).
    unfold aggregate_formula. cbn [url_analysis overall_risk_score].
    destruct kw as [ks kws]. cbn [fst] in *.
    unfold header_part, header_score.
    destruct headers as [h |]; [destruct (truthy h) |].
    + eexists ks, kws, _. repeat split; try eassumption.
      eexists. unfold returns, outcome. rewrite analyze_headers_run.
      cbn [snd]. f_equal. apply surjective_pairing.
    + exists ks, kws, (Num.Int 0). repeat split; try assumption.
      rewrite add_0_r; [reflexivity | apply add_nonneg; assumption].
    + exists ks, kws, (Num.Int 0). repeat split; try assumption.
      rewrite add_0_r; [reflexivity | apply add_nonneg; assumption].
  - exists "http://1.2.3.4/%41". eexists. eexists.
    split; [vm_compute; reflexivity |].
    split; [left; reflexivity |].
    split; vm_compute; reflexivity.
Qed.

End Aggregate.

(** ** The keyword analyzer *)

Section Keywords.

(** The loop of [analyze_keywords] keeps the matching entries of the
    table, in table order. *)
Lemma keyword_fold text items : forall acc,
  let matched :=
    List.filter (fun item : string * Num.num => Str.contains text (fst item))
      items in
  fold_left (keyword_step text) items acc
  = (fold_left Num.add (map snd matched) (fst acc),
     snd acc ++ map fst matched).
Proof.
  induction items as [| [kw w] items IH]; intros [total detected]; simpl.
  - rewrite app_nil_r. reflexivity.
  - rewrite IH. destruct (Str.contains text kw); simpl.
    + rewrite <- app_assoc. reflexivity.
    + reflexivity.
Qed.

Lemma filter_keys_sublist {A B : Type} (f : A * B -> bool) (l : list (A * B)) :
  sublist (map fst (List.filter f l)) (map fst l).
Proof.
  induction l as [| x l IH]; simpl; [constructor |].
  destruct (f x); simpl; constructor; exact IH.
Qed.

Lemma init_keywords_distinct : NoDup (map fst (suspicious_keywords init)).
Proof. apply (bool_decide_unpack _). vm_compute. reflexivity. Qed.

(** C5: [analyze_keywords] lower-cases the text and keeps, in the order of
    the table, the keywords that are substrings of the lowered text; the
    score is the sum of their weights, each taken once, and the detected
    keywords are those keywords, without repetition.  The empty text gives
    the score 0 and no keyword. *)
Theorem C5_keywords :
  forall text,
    let lowered := Str.lower text in
    let matched :=
      List.filter
        (fun item : string * Num.num => Str.contains lowered (fst item))
        (suspicious_keywords init) in
    returns (analyze_keywords text)
      (fold_left Num.add (map snd matched) (Num.Int 0), map fst matched) /\
    (forall keyword,
        In keyword (map fst matched) <->
        In keyword (map fst (suspicious_keywords init)) /\
        exists a b, lowered = a +:+ keyword +:+ b) /\
    sublist (map fst matched) (map fst (suspicious_keywords init)) /\
    NoDup (map fst matched) /\
    returns (analyze_keywords "") (Num.Int 0, []).
Proof.
  intros text lowered matched.
  assert (Hsub : sublist (map fst matched) (map fst (suspicious_keywords init)))
    by apply filter_keys_sublist.
  repeat split.
  - unfold returns, outcome. rewrite analyze_keywords_run. cbn [snd].
    rewrite keyword_fold. reflexivity.
  - apply list_elem_of_In. apply list_elem_of_In in H.
    exact (elem_of_sublist _ _ _ H Hsub).
  - apply in_map_iff in H. destruct H as ([kw w] & <- & Hin).
    apply filter_In in Hin. destruct Hin as [_ Hc].
    apply contains_spec. exact Hc.
  - intros [Hin Hc]. apply in_map_iff in Hin.
    destruct Hin as ([kw w] & <- & Hin). apply in_map_iff.
    exists (kw, w). split; [reflexivity |]. apply filter_In.
    split; [exact Hin | apply contains_spec; exact Hc].
  - exact Hsub.
  - exact (sublist_NoDup _ _ init_keywords_distinct Hsub).
Qed.

End Keywords.

(** ** The header analyzer *)

Section Headers.

(** A loop that adds [weight] and appends a label for every element that
    passes [test] keeps the passing elements, in order. *)
Lemma scoring_fold {A : Type} (step : Num.num * list string -> A -> Num.num * list string)
    (test : A -> bool) (weight : Num.num) (label : A -> string) :
  (forall acc x,
      step acc x
      = if test x then (Num.add (fst acc) weight, snd acc ++ [label x])
        else acc) ->
  forall l acc,
    fold_left step l acc
    = (fold_left Num.add (map (fun _ => weight) (List.filter test l)) (fst acc),
       snd acc ++ map label (List.filter test l)).
Proof.
  intros Hstep. induction l as [| x l IH]; intros [score reasons]; simpl.
  - rewrite app_nil_r. reflexivity.
  - rewrite IH, Hstep. destruct (test x); simpl.
    + rewrite <- app_assoc. reflexivity.
    + reflexivity.
Qed.

Lemma sender_fold sender patterns acc :
  let hits := List.filter (fun p => Re.search true p sender) patterns in
  fold_left (sender_step sender) patterns acc
  = (fold_left Num.add (map (fun _ => Num.f0_3) hits) (fst acc),
     snd acc
     ++ map (fun p => "Suspicious sender pattern: " +:+ Re.source p) hits).
Proof.
  apply (scoring_fold (sender_step sender)).
  intros [score reasons] p. reflexivity.
Qed.

Lemma missing_fold (headers : gmap string string) names acc :
  let missing :=
    List.filter (fun name => bool_decide (headers !! name = None)) names in
  fold_left (missing_step headers) names acc
  = (fold_left Num.add (map (fun _ => Num.f0_2) missing) (fst acc),
     snd acc ++ map (fun name => "Missing important header: " +:+ name) missing).
Proof.
  apply (scoring_fold (missing_step headers)).
  intros [score reasons] name. unfold missing_step.
  destruct (headers !! name); reflexivity.
Qed.

(** C4, as amended: a header value without [@] is its own domain segment
    (and not the empty string); taking the segment never raises; the
    segment holds no [@] and is the value's part after its last [@]; and
    when both [from] and [reply-to] are present the analyzer returns, its
    first check adding 0.4 and the reason "Reply-To domain mismatch"
    exactly when the two segments differ. *)
Theorem C4_domain_segment :
  (forall value,
      Str.contains value "@" = false ->
      Str.last_item (Str.split value "@") = inr value) /\
  (forall value,
      Str.last_item (Str.split value "@") = inr (domain_of value) /\
      Str.count (domain_of value) "@" = 0%nat /\
      (value = domain_of value \/
       exists front, value = front +:+ "@" +:+ domain_of value)) /\
  (forall (headers : gmap string string) sender reply,
      headers !! "from" = Some sender ->
      headers !! "reply-to" = Some reply ->
      let first :=
        if String.eqb (domain_of sender) (domain_of reply)
        then (Num.Int 0, [])
        else (Num.add (Num.Int 0) Num.f0_4, ["Reply-To domain mismatch"]) in
      returns (analyze_headers headers)
        (missing_check headers (sender_check init headers first))).
Proof.
  split; [| split].
  - intros value H. rewrite last_item_split, (domain_of_no_at _ H).
    reflexivity.
  - intros value. split; [apply last_item_split | apply domain_of_spec].
  - intros headers sender reply Hf Hr first. subst first.
    unfold returns, outcome. rewrite analyze_headers_run. cbn [snd].
    unfold reply_to_check, mismatch_step. rewrite Hf, Hr.
    destruct (String.eqb _ _); reflexivity.
Qed.

(** C7, as amended: the score of [analyze_headers] is the sum, in binary64
    arithmetic and in this order, of three checks: 0.4 when [from] and
    [reply-to] are both present and their domains after the last [@]
    differ; 0.3 for every sender pattern that matches the [from] value
    case-insensitively, all of them; and 0.2 for each of [received],
    [authentication-results], [dkim-signature] that is absent.  A reason
    is recorded for each triggered check, in the same order.  When all
    three headers are absent the last check adds 0.2 three times. *)
Theorem C7_header_checks :
  forall headers : gmap string string,
    let first :=
      match headers !! "from", headers !! "reply-to" with
      | Some sender, Some reply =>
          if String.eqb (domain_of sender) (domain_of reply)
          then (Num.Int 0, [])
          else (Num.add (Num.Int 0) Num.f0_4, ["Reply-To domain mismatch"])
      | _, _ => (Num.Int 0, [])
      end in
    let hits :=
      match headers !! "from" with
      | Some sender =>
          List.filter (fun p => Re.search true p sender)
            (suspicious_sender_patterns init)
      | None => []
      end in
    let missing :=
      List.filter (fun name => bool_decide (headers !! name = None))
        ["received"; "authentication-results"; "dkim-signature"] in
    let second := fold_left Num.add (map (fun _ => Num.f0_3) hits) (fst first) in
    returns (analyze_headers headers)
      (fold_left Num.add (map (fun _ => Num.f0_2) missing) second,
       snd first
       ++ map (fun p => "Suspicious sender pattern: " +:+ Re.source p) hits
       ++ map (fun name => "Missing important header: " +:+ name) missing) /\
    (missing = ["received"; "authentication-results"; "dkim-signature"] ->
     exists reasons,
       returns (analyze_headers headers)
         (Num.add (Num.add (Num.add second Num.f0_2) Num.f0_2) Num.f0_2,
          reasons)).
Proof.
  intros headers first hits missing second.
  assert (Hrun : returns (analyze_headers headers)
      (fold_left Num.add (map (fun _ => Num.f0_2) missing) second,
       snd first
       ++ map (fun p => "Suspicious sender pattern: " +:+ Re.source p) hits
       ++ map (fun name => "Missing important header: " +:+ name) missing)).
  { unfold returns, outcome. rewrite analyze_headers_run. cbn [snd].
    unfold missing_check. rewrite missing_fold. fold missing.
    unfold sender_check, reply_to_check, mismatch_step.
    subst second hits first.
    destruct (headers !! "from") as [sender |].
    - rewrite sender_fold. cbn [fst snd]. rewrite <- app_assoc.
      destruct (headers !! "reply-to") as [reply |]; [| reflexivity].
      destruct (String.eqb _ _); reflexivity.
    - reflexivity. }
  split; [exact Hrun |].
  intros Hall. eexists. rewrite Hall in Hrun. exact Hrun.
Qed.

End Headers.

(** ** The URL analyzer *)

Section Urls.

Variable check : string -> option string.

Lemma collect_In {A B : Type} (f : A -> exn + B) xs : forall ys y,
  collect f xs = inr ys -> In y ys -> exists x, In x xs /\ f x = inr y.
Proof.
  induction xs as [| x xs IH]; intros ys y; cbn [collect].
  - intros H. apply (inj inr) in H. subst. intros [].
  - destruct (f x) as [e | b] eqn:Ex; [discriminate |].
    destruct (collect f xs) as [e | bs]; [discriminate |].
    intros H. apply (inj inr) in H. subst. intros [<- | Hin].
    + exists x. split; [left; reflexivity | exact Ex].
    + destruct (IH bs y eq_refl Hin) as (x' & Hx' & Hf).
      exists x'. split; [right; exact Hx' | exact Hf].
Qed.

(** Every finding of [analyze_urls] is the finding of one extracted url
    whose network location parsed. *)
Lemma analyze_urls_finding text findings finding :
  returns (analyze_urls check text) findings -> In finding findings ->
  exists url loc,
    In url (Re.findall false Patterns.url_pattern text) /\
    Url.netloc check url = inr loc /\
    finding = url_finding (suspicious_tlds init) url loc.
Proof.
  unfold returns, outcome. rewrite analyze_urls_run. cbn [snd].
  intros Hc Hin. destruct (collect_In _ _ _ _ Hc Hin) as (url & Hurl & Hf).
  unfold url_outcome in Hf.
  destruct (Url.netloc check url) as [e | loc] eqn:Eloc; [discriminate |].
  apply (inj inr) in Hf. exists url, loc. auto.
Qed.

Lemma url_finding_url tlds url loc :
  URLFinding.url (url_finding tlds url loc) = url.
Proof.
  unfold url_finding. destruct (fold_left _ tlds _) as [r rs].
  destruct (Re.is_match _ _ _), (2 <? Str.count loc ".")%nat,
    (Str.contains url "%"); reflexivity.
Qed.

(** The finding of a url whose network location the dotted-quad pattern
    accepts. *)
Lemma url_finding_ip url loc :
  Re.is_match false Patterns.ip_pattern loc = true ->
  url_finding (suspicious_tlds init) url loc
  = if Str.contains url "%"
    then URLFinding.Build url
           (Num.add (Num.add (Num.add (Num.Int 0) Num.f0_5) Num.f0_3) Num.f0_3)
           ["IP address used instead of domain name";
            "Multiple subdomains detected";
            "URL contains encoded characters"]
    else URLFinding.Build url
           (Num.add (Num.add (Num.Int 0) Num.f0_5) Num.f0_3)
           ["IP address used instead of domain name";
            "Multiple subdomains detected"].
Proof.
  intros Hip. destruct (ip_pattern_sound _ Hip) as (quad & tail & Hq & -> & Ht).
  unfold url_finding. rewrite Hip, (dotted_quad_dots _ _ Hq Ht).
  destruct (dotted_quad_last _ _ Hq Ht) as (c & Hlast & Hc).
  rewrite tld_fold_unchanged.
  - change (2 <? 3)%nat with true. cbn iota.
    destruct (Str.contains url "%"); reflexivity.
  - eapply Forall_impl; [apply init_tlds_end_with_letter |].
    intros tld Htld. cbn beta in *.
    apply (plain_end_no_suffix _ _ c); assumption.
Qed.

(** *** The rules of one url *)

Lemma tld_fold domain tlds acc :
  let hits := List.filter (fun tld => Str.endswith domain tld) tlds in
  fold_left (tld_step domain) tlds acc
  = (fold_left Num.add (map (fun _ => Num.f0_4) hits) (fst acc),
     snd acc ++ map (fun tld => "Suspicious TLD: " +:+ tld) hits).
Proof.
  apply (scoring_fold (tld_step domain)).
  intros [risk reasons] tld. reflexivity.
Qed.

(** The score of a finding is the sum of the increments of the rules that
    match, one 0.4 for every suffix of the table that the lower-cased
    network location ends with, and its reasons are theirs, in order. *)
Lemma url_finding_rules tlds url loc :
  let hits := List.filter (fun tld => Str.endswith (Str.lower loc) tld) tlds in
  let ip := Re.is_match false Patterns.ip_pattern loc in
  let deep := (2 <? Str.count loc ".")%nat in
  let encoded := Str.contains url "%" in
  url_finding tlds url loc
  = URLFinding.Build url
      (fold_left Num.add
         (map (fun _ => Num.f0_4) hits
          ++ (if ip then [Num.f0_5] else [])
          ++ (if deep then [Num.f0_3] else [])
          ++ (if encoded then [Num.f0_3] else []))
         (Num.Int 0))
      (map (fun tld => "Suspicious TLD: " +:+ tld) hits
       ++ (if ip then ["IP address used instead of domain name"] else [])
       ++ (if deep then ["Multiple subdomains detected"] else [])
       ++ (if encoded then ["URL contains encoded characters"] else [])).
Proof.
  intros hits ip deep encoded. unfold url_finding.
  rewrite tld_fold. fold hits ip deep encoded. cbn [fst snd app].
  rewrite !fold_left_app.
  destruct ip, deep, encoded; cbn [fold_left app];
    rewrite ?app_nil_r, <- ?app_assoc; reflexivity.
Qed.

Lemma collect_map {A B C : Type} (f : A -> exn + B) (g : B -> C) (h : A -> C) xs :
  (forall x b, f x = inr b -> g b = h x) ->
  forall bs, collect f xs = inr bs -> map g bs = map h xs.
Proof.
  intros Hgh. induction xs as [| x xs IH]; intros bs; cbn [collect].
  - intros H. apply (inj inr) in H. subst. reflexivity.
  - destruct (f x) as [e | b] eqn:Ex; [discriminate |].
    destruct (collect f xs) as [e | bs']; [discriminate |].
    intros H. apply (inj inr) in H. subst. cbn [map].
    rewrite (Hgh _ _ Ex), (IH bs' eq_refl). reflexivity.
Qed.

(** When [analyze_urls] returns, it returns one finding per extracted
    url, in the order of extraction. *)
Lemma analyze_urls_in_order text findings :
  returns (analyze_urls check text) findings ->
  map URLFinding.url findings = Re.findall false Patterns.url_pattern text.
Proof.
  unfold returns, outcome. rewrite analyze_urls_run. cbn [snd]. intros H.
  rewrite <- (map_id (Re.findall _ _ _)).
  apply (collect_map (url_outcome check init)) with (2 := H).
  intros url finding. unfold url_outcome.
  destruct (Url.netloc check url); [discriminate |].
  intros E. apply (inj inr) in E. subst. apply url_finding_url.
Qed.

Lemma collect_finds {A B : Type} (f : A -> exn + B) xs x : forall ys,
  collect f xs = inr ys -> In x xs -> exists y, In y ys /\ f x = inr y.
Proof.
  induction xs as [| a xs IH]; intros ys; cbn [collect]; [intros _ [] |].
  destruct (f a) as [e | b] eqn:Ea; [discriminate |].
  destruct (collect f xs) as [e | bs]; [discriminate |].
  intros H. apply (inj inr) in H. subst ys. intros [-> | Hin].
  - exists b. split; [left; reflexivity | exact Ea].
  - destruct (IH bs eq_refl Hin) as (y & Hy & Hf).
    exists y. split; [right; exact Hy | exact Hf].
Qed.

(** C10: a url that the pattern extracts from the text and whose network
    location is a dotted quad triggers the IP-address check and the
    multiple-subdomains check as well, a dotted quad having three dots.
    [analyze_urls] returns when every extracted url parses, and whenever
    it returns, its result has a finding for that url, and every finding
    for that url holds the reasons of both checks, with a score of at
    least 0.8: it is 0.5 + 0.3, or 0.5 + 0.3 + 0.3 when the url holds a
    percent sign. *)
Theorem C10_ip_literal_has_three_dots text url loc :
  In url (Re.findall false Patterns.url_pattern text) ->
  Url.netloc check url = inr loc ->
  dotted_quad loc ->
  Re.is_match false Patterns.ip_pattern loc = true /\
  Str.count loc "." = 3%nat /\
  (Forall (fun u => exists l, Url.netloc check u = inr l)
     (Re.findall false Patterns.url_pattern text) ->
   exists findings, returns (analyze_urls check text) findings) /\
  forall findings,
    returns (analyze_urls check text) findings ->
    (exists finding, In finding findings /\ URLFinding.url finding = url) /\
    forall finding,
      In finding findings -> URLFinding.url finding = url ->
      In "IP address used instead of domain name" (URLFinding.reasons finding) /\
      In "Multiple subdomains detected" (URLFinding.reasons finding) /\
      Num.geb (URLFinding.risk_score finding) Num.f0_8 = true /\
      (URLFinding.risk_score finding
       = Num.add (Num.add (Num.Int 0) Num.f0_5) Num.f0_3 \/
       URLFinding.risk_score finding
       = Num.add (Num.add (Num.add (Num.Int 0) Num.f0_5) Num.f0_3) Num.f0_3).
Proof.
  intros Hin Hloc Hquad.
  assert (Hip : Re.is_match false Patterns.ip_pattern loc = true).
  { rewrite <- (append_nil_r loc). apply ip_pattern_complete;
      [exact Hquad | reflexivity]. }
  split; [exact Hip |]. split.
  { rewrite <- (append_nil_r loc). apply dotted_quad_dots;
      [exact Hquad | reflexivity]. }
  split.
  { intros Hall. unfold returns, outcome. rewrite analyze_urls_run. cbn [snd].
    apply collect_total. eapply Forall_impl; [exact Hall |].
    intros u [l Hl]. unfold url_outcome. rewrite Hl. eauto. }
  intros findings Hret. split.
  - pose proof Hret as Hc. unfold returns, outcome in Hc.
    rewrite analyze_urls_run in Hc. cbn [snd] in Hc.
    destruct (collect_finds _ _ _ _ Hc Hin) as (finding & Hf & Ef).
    unfold url_outcome in Ef. rewrite Hloc in Ef. apply (inj inr) in Ef.
    exists finding. split; [exact Hf |]. subst finding. apply url_finding_url.
  - intros finding Hf Eurl.
    destruct (analyze_urls_finding _ _ _ Hret Hf) as (url' & loc' & _ & Hloc' & ->).
    rewrite url_finding_url in Eurl. subst url'.
    rewrite Hloc in Hloc'. apply (inj inr) in Hloc'. subst loc'.
    rewrite (url_finding_ip url loc Hip).
    destruct (Str.contains url "%");
      cbn [URLFinding.reasons URLFinding.risk_score];
      (split; [simpl; auto |]); (split; [simpl; auto |]);
      (split; [vm_compute; reflexivity |]); auto.
Qed.

(** C6, the failing input: on the text "http://[" the URL pattern extracts
    the url "http://[", whose parsing raises [ValueError], and so does
    [analyze_urls], whatever the validation of bracketed hosts is. *)
Theorem C6_unmatched_bracket_raises :
  Re.findall false Patterns.url_pattern "http://[" = ["http://["] /\
  Url.netloc check "http://[" = inl (ValueError "Invalid IPv6 URL") /\
  raises (analyze_urls check "http://[") (ValueError "Invalid IPv6 URL") /\
  forall headers,
    raises (analyze_message check "http://[" headers)
      (ValueError "Invalid IPv6 URL").
Proof.
  split; [vm_compute; reflexivity |].
  split; [vm_compute; reflexivity |].
  split; [vm_compute; reflexivity |].
  intros headers. unfold raises, outcome. rewrite analyze_message_run.
  cbn [snd]. reflexivity.
Qed.

End Urls.

(** ** Statelessness *)

Section Stateless.

Variable check : string -> option string.

(** C8: [analyze_message] is deterministic and leaves the detector as it
    found it: whatever state the detector is in, a call returns it
    unchanged (the keyword weights, the TLD list and the sender patterns
    are the same after the call), and a second call with the same message
    and headers has the same outcome, report or exception, as the first.
    The three analyzers it calls leave the detector unchanged too. *)
Theorem C8_deterministic_stateless :
  forall text headers self,
    let first := analyze_message check text headers self in
    let second := analyze_message check text headers (fst first) in
    fst first = self /\ fst second = self /\ snd second = snd first /\
    read_only (analyze_urls check text) /\
    read_only (analyze_keywords text) /\
    (forall h, read_only (analyze_headers h)).
Proof.
  intros text headers self first second. subst first second.
  rewrite !analyze_message_run. cbn [fst snd].
  repeat split.
  - intros s. rewrite analyze_urls_run. reflexivity.
  - intros h s. rewrite analyze_headers_run. reflexivity.
Qed.

(** C9: an empty header mapping is treated exactly as no headers: for
    every message (and every state of the detector) the two calls have
    the same outcome; a report they return has no header analysis; and
    the three missing-header penalties that [analyze_headers] gives for
    the empty mapping (0.2 added three times) are not part of it. *)
Theorem C9_empty_headers_as_none :
  (forall text self,
      analyze_message check text (Some ∅) self
      = analyze_message check text None self) /\
  (forall text r,
      returns (analyze_message check text (Some ∅)) r ->
      header_analysis r = None) /\
  returns (analyze_headers ∅)
    (Num.add (Num.add (Num.add (Num.Int 0) Num.f0_2) Num.f0_2) Num.f0_2,
     ["Missing important header: received";
      "Missing important header: authentication-results";
      "Missing important header: dkim-signature"]).
Proof.
  split; [| split].
  - reflexivity.
  - intros text r. unfold returns, outcome.
    rewrite analyze_message_run. cbn [snd].
    destruct (collect _ _) as [e | urls]; [discriminate |].
    intros H. apply (inj inr) in H. rewrite <- H.
    cbn [header_analysis]. reflexivity.
  - vm_compute. reflexivity.
Qed.

End Stateless.

(** ** Lower bounds of binary64 sums

    The sum of two positive normal floats is a positive normal float or
    the infinity, and rounding to nearest does not take it below a float
    of the format that the exact sum reaches. *)

Section FloatSums.
Import Num.

Lemma digits2_log2 p : Z.pos (digits2_pos p) = Z.succ (Z.log2 (Z.pos p)).
Proof.
  assert (H : digits2_pos p = Pos.size p) by (induction p; simpl; congruence).
  rewrite H. destruct p; simpl; lia.
Qed.

Lemma iter_pos_iter {A : Type} (f : A -> A) p : forall x,
  SpecFloat.iter_pos f p x = Pos.iter f x p.
Proof.
  induction p as [p IH | p IH |]; intros x; simpl.
  - rewrite !IH, <- !Pos.iter_swap. reflexivity.
  - rewrite !IH. reflexivity.
  - reflexivity.
Qed.

Lemma shr_1_quot2 mrs : shr_m (shr_1 mrs) = Z.quot2 (shr_m mrs).
Proof. destruct mrs as [[| [p | p |] | [p | p |]] r s]; reflexivity. Qed.

Lemma quot2_div2 m : 0 <= m -> Z.quot2 m = Z.div2 m /\ 0 <= Z.div2 m.
Proof. destruct m as [| [p | p |] | p]; simpl; intros; split; try reflexivity; lia. Qed.

Lemma iter_quot2 p : forall m,
  0 <= m -> Pos.iter Z.quot2 m p = Z.shiftr m (Z.pos p).
Proof.
  intros m Hm. unfold Z.shiftr, Z.shiftl; simpl.
  revert m Hm.
  assert (G : forall m, 0 <= m ->
            Pos.iter Z.quot2 m p = Pos.iter Z.div2 m p /\ 0 <= Pos.iter Z.div2 m p).
  { induction p as [p IH | p IH |]; intros m Hm; simpl.
    - destruct (IH m Hm) as [E1 P1]. rewrite E1.
      destruct (IH _ P1) as [E2 P2]. rewrite E2.
      apply quot2_div2; assumption.
    - destruct (IH m Hm) as [E1 P1]. rewrite E1. apply IH; assumption.
    - apply quot2_div2; assumption. }
  intros m Hm. apply G; assumption.
Qed.

Lemma shr_spec mrs e n :
  0 <= shr_m mrs -> 0 <= n ->
  shr_m (fst (shr mrs e n)) = shr_m mrs / 2 ^ n /\ snd (shr mrs e n) = e + n.
Proof.
  intros Hm Hn. destruct n as [| p | p]; try lia.
  - simpl. rewrite Z.div_1_r. split; [reflexivity | lia].
  - cbn [shr fst snd]. split; [| reflexivity].
    rewrite iter_pos_iter.
    rewrite (Pos.iter_swap_gen _ _ shr_m shr_1 Z.quot2 shr_1_quot2).
    rewrite iter_quot2 by assumption.
    apply Z.shiftr_div_pow2. lia.
Qed.

Lemma fexp_val x : fexp prec emax x = Z.max (x - 53) (-1074).
Proof. reflexivity. Qed.

Lemma round_cases m l :
  round_nearest_even m l = m \/ round_nearest_even m l = m + 1.
Proof.
  destruct l as [| []]; simpl; auto. destruct (Z.even m); auto.
Qed.

Lemma log2_52 m : 0 < m -> Z.log2 m = 52 <-> 4503599627370496 <= m < 9007199254740992.
Proof.
  intros Hm. split.
  - intros E. pose proof (Z.log2_spec m Hm) as H. rewrite E in H.
    change (2 ^ 52) with 4503599627370496 in H.
    change (2 ^ Z.succ 52) with 9007199254740992 in H. exact H.
  - intros H. apply Z.log2_unique; [lia |].
    change (2 ^ 52) with 4503599627370496.
    change (2 ^ Z.succ 52) with 9007199254740992. exact H.
Qed.

(** The second normalisation of [binary_round_aux], on a mantissa of 53
    bits or on [2^53]. *)
Lemma renormalize m F :
  4503599627370496 <= m <= 9007199254740992 -> -1074 <= F ->
  exists mrs e,
    shr_fexp prec emax m F loc_Exact = (mrs, e) /\
    4503599627370496 <= shr_m mrs < 9007199254740992 /\
    ((e = F /\ shr_m mrs = m) \/ e = F + 1).
Proof.
  intros Hm HF. unfold shr_fexp.
  destruct m as [| p | p]; try lia.
  cbn [Zdigits2]. rewrite digits2_log2, fexp_val.
  destruct (Z.eq_dec (Z.pos p) 9007199254740992) as [E | NE].
  - rewrite E. change (Z.log2 9007199254740992) with 53.
    replace (Z.max (Z.succ 53 + F - 53) (-1074) - F) with 1 by lia.
    eexists _, _. split; [reflexivity |]. cbn. split; [lia |]. right; lia.
  - assert (L : Z.log2 (Z.pos p) = 52) by (apply log2_52; lia).
    rewrite L.
    replace (Z.max (Z.succ 52 + F - 53) (-1074) - F) with 0 by lia.
    eexists _, _. split; [reflexivity |]. cbn. split; [lia |]. left; split; lia.
Qed.

Lemma binary_round_aux_big M ez :
  let D := Z.succ (Z.log2 (Z.pos M)) in
  let F := D + ez - 53 in
  53 <= D -> -1074 <= F ->
  binary_round_aux prec emax false (Z.pos M) ez loc_Exact = S754_infinity false \/
  exists m e,
    binary_round_aux prec emax false (Z.pos M) ez loc_Exact
    = S754_finite false m e /\
    Z.log2 (Z.pos m) = 52 /\ -1074 <= e <= 971 /\
    ((e = F /\ Z.pos M / 2 ^ (F - ez) <= Z.pos m) \/ e = F + 1).
Proof.
  intros D F HD HF. unfold binary_round_aux.
  assert (S1 : exists mrs,
             shr_fexp prec emax (Z.pos M) ez loc_Exact = (mrs, F) /\
             shr_m mrs = Z.pos M / 2 ^ (F - ez)).
  { unfold shr_fexp. cbn [Zdigits2]. rewrite digits2_log2, fexp_val.
    fold D. replace (Z.max (D + ez - 53) (-1074)) with F by (unfold F; lia).
    pose proof (shr_spec (shr_record_of_loc (Z.pos M) loc_Exact) ez (F - ez))
      as [Hm He]; [cbn; lia | unfold F; lia |].
    destruct (shr _ ez (F - ez)) as [mrs e]. cbn [fst snd] in Hm, He.
    exists mrs. split; [f_equal; lia | exact Hm]. }
  destruct S1 as (mrs & -> & Hm1).
  assert (B1 : 4503599627370496 <= shr_m mrs < 9007199254740992).
  { rewrite Hm1. apply log2_52.
    - apply Z.div_str_pos. split; [apply Z.pow_pos_nonneg; unfold F; lia |].
      apply Z.log2_le_pow2; [lia | unfold F, D; lia].
    - rewrite <- Z.shiftr_div_pow2 by (unfold F; lia).
      rewrite Z.log2_shiftr by lia. unfold F, D. lia. }
  destruct (round_cases (shr_m mrs) (loc_of_shr_record mrs)) as [R | R];
    rewrite R;
    (edestruct (renormalize) as (mrs2 & e2 & -> & B2 & C2); [| exact HF |]);
    try lia;
    (destruct (shr_m mrs2) as [| m |] eqn:Em; try lia);
    (destruct (e2 <=? emax - prec) eqn:Ee; [| left; reflexivity]);
    apply Z.leb_le in Ee; change (emax - prec) with 971 in Ee;
    right; exists m, e2; (split; [reflexivity |]);
    (split; [apply log2_52; lia |]);
    (split; [lia |]);
    (destruct C2 as [[-> C2] | ->]; [left | right; reflexivity]);
    (split; [reflexivity |]); rewrite <- Hm1; lia.
Qed.

Lemma binary_round_big M ez :
  let D := Z.succ (Z.log2 (Z.pos M)) in
  let F := D + ez - 53 in
  53 <= D -> -1074 <= F ->
  binary_round prec emax false M ez = S754_infinity false \/
  exists m e,
    binary_round prec emax false M ez = S754_finite false m e /\
    Z.log2 (Z.pos m) = 52 /\ -1074 <= e <= 971 /\
    ((e = F /\ Z.pos M / 2 ^ (F - ez) <= Z.pos m) \/ e = F + 1).
Proof.
  intros D F HD HF. unfold binary_round.
  rewrite digits2_log2, fexp_val. fold D.
  replace (Z.max (D + ez - 53) (-1074)) with F by (unfold F; lia).
  assert (S : shl_align M ez F = (M, ez)).
  { unfold shl_align. destruct (F - ez) eqn:E; try reflexivity.
    unfold F in E; lia. }
  rewrite S. apply binary_round_aux_big; assumption.
Qed.

Lemma shl_align_fst m e e' :
  e' <= e -> Z.pos (fst (shl_align m e e')) = Z.pos m * 2 ^ (e - e').
Proof.
  intros H. unfold shl_align. destruct (e' - e) as [| d | d] eqn:E; try lia.
  - replace (e - e') with 0 by lia. cbn [fst]. lia.
  - cbn [fst]. change (Pos.iter xO m d) with (shift_pos d m).
    rewrite shift_pos_correct, Z.pow_pos_fold.
    replace (e - e') with (Z.pos d) by lia.
    apply Z.mul_comm.
Qed.

Lemma normal_inv f :
  normal f = true ->
  exists m e,
    f = S754_finite false m e /\ Z.log2 (Z.pos m) = 52 /\ -1074 <= e <= 971.
Proof.
  destruct f as [| | | [] m e]; try discriminate. cbn [normal].
  rewrite digits2_log2, !andb_true_iff, Z.eqb_eq, !Z.leb_le.
  intros H. exists m, e. split; [reflexivity | lia].
Qed.

Lemma normal_intro m e :
  Z.log2 (Z.pos m) = 52 -> -1074 <= e <= 971 ->
  normal (S754_finite false m e) = true.
Proof.
  intros L E. cbn [normal].
  rewrite digits2_log2, !andb_true_iff, Z.eqb_eq, !Z.leb_le. lia.
Qed.

Lemma leb_finite mc ec mx ex :
  SFleb (S754_finite false mc ec) (S754_finite false mx ex) = true <->
  ec < ex \/ (ec = ex /\ Z.pos mc <= Z.pos mx).
Proof.
  unfold SFleb, SFcompare.
  destruct (Z.compare_spec ec ex) as [E | E | E].
  - change (Pos.compare_cont Eq mc mx) with (Pos.compare mc mx).
    destruct (Pos.compare_spec mc mx) as [P | P | P]; split; intros H; try lia;
      try reflexivity; try discriminate.
  - split; [lia | reflexivity].
  - split; [discriminate | lia].
Qed.

Lemma SFadd_comm_finite mx ex my ey :
  SFadd prec emax (S754_finite false mx ex) (S754_finite false my ey)
  = SFadd prec emax (S754_finite false my ey) (S754_finite false mx ex).
Proof. unfold SFadd. rewrite Z.min_comm, Z.add_comm. reflexivity. Qed.


Lemma pow_split a b : 0 <= a -> 0 <= b -> 2 ^ (a + b) = 2 ^ a * 2 ^ b.
Proof. intros. apply Z.pow_add_r; assumption. Qed.

(** Adding two normal floats gives a normal float or the infinity, and
    the result is not below any normal float that the exact sum reaches. *)
Lemma SFadd_normal x y :
  normal x = true -> normal y = true ->
  let r := SFadd prec emax x y in
  (r = S754_infinity false \/ normal r = true) /\
  forall c, normal c = true -> scaled c <= scaled x + scaled y ->
    SFleb c r = true.
Proof.
  intros Nx Ny.
  destruct (normal_inv x Nx) as (mx & ex & -> & Lx & Ex).
  destruct (normal_inv y Ny) as (my & ey & -> & Ly & Ey).
  unfold SFadd. cbn [cond_Zopp].
  set (ez := Z.min ex ey).
  rewrite !shl_align_fst by (unfold ez; lia).
  set (A := Z.pos mx * 2 ^ (ex - ez)). set (B := Z.pos my * 2 ^ (ey - ez)).
  assert (PA : 0 < 2 ^ (ex - ez)) by (apply Z.pow_pos_nonneg; unfold ez; lia).
  assert (PB : 0 < 2 ^ (ey - ez)) by (apply Z.pow_pos_nonneg; unfold ez; lia).
  assert (HA : 0 < A) by (unfold A; nia).
  assert (HB : 0 < B) by (unfold B; nia).
  assert (Sum : scaled (S754_finite false mx ex) + scaled (S754_finite false my ey)
                = (A + B) * 2 ^ (ez + 1074)).
  { unfold scaled, A, B.
    replace (ex + 1074) with ((ex - ez) + (ez + 1074)) by lia.
    replace (ey + 1074) with ((ey - ez) + (ez + 1074)) by lia.
    rewrite (pow_split (ex - ez)), (pow_split (ey - ez)) by (unfold ez; lia).
    ring. }
  rewrite Sum. clear Sum.
  destruct (A + B) as [| M |] eqn:EM; try lia.
  cbn [binary_normalize].
  assert (LA : Z.log2 A = ex - ez + 52).
  { unfold A. rewrite Z.log2_mul_pow2 by (unfold ez; lia). lia. }
  assert (LM : Z.log2 A <= Z.log2 (Z.pos M)) by (apply Z.log2_le_mono; lia).
  destruct (binary_round_big M ez) as [-> | (m & e & -> & Lm & Ee & Hm)];
    try lia.
  - split; [left; reflexivity |]. intros c Nc _.
    destruct (normal_inv c Nc) as (mc & ec & -> & _). reflexivity.
  - split; [right; apply normal_intro; assumption |].
    intros c Nc Hc.
    destruct (normal_inv c Nc) as (mc & ec & -> & Lc & Ec).
    apply leb_finite. unfold scaled in Hc.
    set (F := Z.succ (Z.log2 (Z.pos M)) + ez - 53) in *.
    assert (P0 : 0 < 2 ^ (ez + 1074)) by (apply Z.pow_pos_nonneg; unfold ez; lia).
    assert (LF : ec <= F).
    { apply Z.log2_le_mono in Hc.
      rewrite !Z.log2_mul_pow2 in Hc by (unfold ez; lia). unfold F. lia. }
    destruct Hm as [[-> Hm] | ->]; [| lia].
    destruct (Z.eq_dec ec F) as [E | NE]; [right | lia].
    split; [exact E |].
    etransitivity; [| exact Hm].
    apply Z.div_le_lower_bound; [apply Z.pow_pos_nonneg; unfold F; lia |].
    apply (Z.mul_le_mono_pos_r _ _ (2 ^ (ez + 1074))); [exact P0 |].
    replace (ec + 1074) with ((F - ez) + (ez + 1074)) in Hc by lia.
    rewrite (pow_split (F - ez)) in Hc by (unfold F, ez; lia).
    lia.
Qed.

Lemma scaled_normal f :
  normal f = true ->
  exists m e, f = S754_finite false m e /\ -1074 <= e <= 971 /\
    2 ^ (e + 1126) <= scaled f < 2 ^ (e + 1127).
Proof.
  intros N. destruct (normal_inv f N) as (m & e & -> & L & E).
  exists m, e. split; [reflexivity |]. split; [exact E |].
  apply log2_52 in L; [| lia]. unfold scaled.
  replace (e + 1126) with (52 + (e + 1074)) by lia.
  replace (e + 1127) with (53 + (e + 1074)) by lia.
  rewrite (pow_split 52), (pow_split 53) by lia.
  change (2 ^ 52) with 4503599627370496. change (2 ^ 53) with 9007199254740992.
  assert (0 < 2 ^ (e + 1074)) by (apply Z.pow_pos_nonneg; lia).
  split; [apply Z.mul_le_mono_nonneg_r | apply Z.mul_lt_mono_pos_r]; lia.
Qed.

Lemma leb_scaled c x :
  normal c = true -> normal x = true ->
  SFleb c x = true <-> scaled c <= scaled x.
Proof.
  intros Nc Nx.
  destruct (scaled_normal c Nc) as (mc & ec & Ec & Rc & Bc).
  destruct (scaled_normal x Nx) as (mx & ex & Ex & Rx & Bx).
  subst c x. rewrite leb_finite.
  assert (P : 0 < 2 ^ (ec + 1074)) by (apply Z.pow_pos_nonneg; lia).
  destruct (Z.lt_trichotomy ec ex) as [H | [H | H]].
  - split; [intros _ | auto].
    assert (2 ^ (ec + 1127) <= 2 ^ (ex + 1126))
      by (apply Z.pow_le_mono_r; lia).
    lia.
  - subst ex. unfold scaled. split.
    + intros [H | [_ H]]; [lia | nia].
    + intros H. right. split; [reflexivity | nia].
  - split; [lia |]. intros H0.
    assert (2 ^ (ex + 1127) <= 2 ^ (ec + 1126))
      by (apply Z.pow_le_mono_r; lia).
    lia.
Qed.

Lemma SFleb_refl f : normal f = true -> SFleb f f = true.
Proof. intros N. apply leb_scaled; [assumption .. | lia]. Qed.

Lemma fired_cases x :
  fired x = true ->
  x = Float (S754_infinity false) \/ exists f, x = Float f /\ normal f = true.
Proof.
  destruct x as [z | f]; [discriminate |].
  destruct f as [| [] | |]; cbn; try discriminate; eauto.
Qed.

Lemma regular_cases x :
  regular x = true -> x = Int 0 \/ fired x = true.
Proof.
  destruct x as [z | f]; cbn [regular]; [| auto].
  intros H. apply Z.eqb_eq in H. subst. auto.
Qed.

Lemma fired_regular x : fired x = true -> regular x = true.
Proof. destruct x; [discriminate | auto]. Qed.

Lemma regular_nonneg x : regular x = true -> nonneg x = true.
Proof.
  intros H. destruct (regular_cases x H) as [-> | F]; [reflexivity |].
  destruct (fired_cases x F) as [-> | (f & -> & N)]; [reflexivity |].
  destruct (normal_inv f N) as (m & e & -> & _). reflexivity.
Qed.

Lemma fired_positive x :
  fired x = true -> ltb (Int 0) x = true /\ eqb x (Int 0) = false.
Proof.
  intros F.
  destruct (fired_cases x F) as [-> | (f & -> & N)]; [split; reflexivity |].
  destruct (normal_inv f N) as (m & e & -> & _). split; reflexivity.
Qed.

Lemma literals_fired :
  Forall (fun x => fired x = true)
    [f0_2; f0_3; f0_4; f0_5; f0_6; f0_7; f0_8; f1_0].
Proof. repeat constructor. Qed.

(** The sum of two scores is a score, and it is positive when an operand
    is. *)
Lemma add_regular x y :
  regular x = true -> regular y = true ->
  regular (add x y) = true /\ fired (add x y) = fired x || fired y.
Proof.
  intros Rx Ry.
  destruct (regular_cases x Rx) as [-> | Fx].
  { rewrite add_0_l by (apply regular_nonneg; assumption). auto. }
  destruct (regular_cases y Ry) as [-> | Fy].
  { rewrite add_0_r by (apply regular_nonneg; assumption).
    rewrite orb_false_r. auto. }
  rewrite Fx, Fy. cbn [orb].
  assert (G : fired (add x y) = true); [| split; [apply fired_regular |]; exact G].
  destruct (fired_cases x Fx) as [-> | (fx & -> & Nx)];
    destruct (fired_cases y Fy) as [-> | (fy & -> & Ny)].
  - reflexivity.
  - destruct (normal_inv fy Ny) as (m & e & -> & _). reflexivity.
  - destruct (normal_inv fx Nx) as (m & e & -> & _). reflexivity.
  - cbn [add to_float].
    destruct (SFadd_normal fx fy Nx Ny) as [[-> | N] _]; [reflexivity |].
    destruct (normal_inv _ N) as (m & e & E & _). cbn [fired].
    rewrite E in N |- *. exact N.
Qed.

(** A sum is not below a normal float that the exact sum of the operands
    reaches. *)
Lemma add_floor x y c :
  regular x = true -> regular y = true -> normal c = true ->
  scaled c <= scaled (to_float x) + scaled (to_float y) ->
  leb (Float c) (add x y) = true.
Proof.
  intros Rx Ry Nc H.
  destruct (scaled_normal c Nc) as (mc & ec & Ec & Rc & Bc).
  assert (Pc : 0 < scaled c).
  { assert (0 < 2 ^ (ec + 1126)) by (apply Z.pow_pos_nonneg; lia). lia. }
  assert (One : forall z, fired z = true -> scaled c <= scaled (to_float z) ->
                leb (Float c) z = true).
  { intros z Fz Hz.
    destruct (fired_cases z Fz) as [-> | (fz & -> & Nz)].
    - subst c. reflexivity.
    - cbn [leb to_float]. apply leb_scaled; assumption. }
  destruct (regular_cases x Rx) as [-> | Fx].
  { rewrite add_0_l by (apply regular_nonneg; assumption).
    change (scaled (to_float (Int 0))) with 0 in H.
    destruct (regular_cases y Ry) as [-> | Fy].
    - change (scaled (to_float (Int 0))) with 0 in H. lia.
    - apply One; [assumption | lia]. }
  destruct (regular_cases y Ry) as [-> | Fy].
  { rewrite add_0_r by (apply regular_nonneg; assumption).
    change (scaled (to_float (Int 0))) with 0 in H.
    apply One; [assumption | lia]. }
  destruct (fired_cases x Fx) as [-> | (fx & -> & Nx)];
    destruct (fired_cases y Fy) as [-> | (fy & -> & Ny)].
  - subst c. reflexivity.
  - destruct (normal_inv fy Ny) as (m & e & -> & _). subst c. reflexivity.
  - destruct (normal_inv fx Nx) as (m & e & -> & _). subst c. reflexivity.
  - cbn [add to_float leb]. cbn [to_float] in H.
    apply (SFadd_normal fx fy Nx Ny); assumption.
Qed.

Lemma scaled_nonneg f : 0 <= scaled f.
Proof.
  destruct f as [| | | [] m e]; cbn; lia.
Qed.

Lemma leb_float_scaled c x :
  normal c = true -> regular x = true -> leb (Float c) x = true ->
  x = Float (S754_infinity false) \/ scaled c <= scaled (to_float x).
Proof.
  intros Nc Rx H.
  destruct (regular_cases x Rx) as [-> | Fx].
  - destruct (normal_inv c Nc) as (m & e & -> & _). discriminate.
  - destruct (fired_cases x Fx) as [-> | (fx & -> & Nx)]; [auto |].
    right. apply leb_scaled; assumption.
Qed.

(** A sum is not below a positive float that one operand reaches. *)
Lemma add_lower x y c :
  regular x = true -> regular y = true -> normal c = true ->
  leb (Float c) x = true ->
  leb (Float c) (add x y) = true /\ leb (Float c) (add y x) = true.
Proof.
  intros Rx Ry Nc H.
  destruct (leb_float_scaled c x Nc Rx H) as [-> | S].
  - destruct (normal_inv c Nc) as (m & e & -> & _).
    destruct (regular_cases y Ry) as [-> | Fy]; [split; reflexivity |].
    destruct (fired_cases y Fy) as [-> | (fy & -> & Ny)]; [split; reflexivity |].
    destruct (normal_inv fy Ny) as (m' & e' & -> & _). split; reflexivity.
  - pose proof (scaled_nonneg (to_float y)).
    split; apply add_floor; try assumption; lia.
Qed.

End FloatSums.

(** ** The analyzers as tallies *)

Section Ledger.
Import Num.

Lemma url_finding_tally tlds url loc :
  url_finding tlds url loc
  = URLFinding.Build url (fst (tally (url_entries tlds url loc)))
      (snd (tally (url_entries tlds url loc))).
Proof.
  rewrite url_finding_rules. unfold tally, url_entries. cbn [fst snd].
  rewrite !map_app, !map_map. cbn [fst snd].
  destruct (Re.is_match _ _ _), (2 <? Str.count loc ".")%nat,
    (Str.contains url "%"); reflexivity.
Qed.

Lemma keywords_tally lowered items :
  fold_left (keyword_step lowered) items (Int 0, [])
  = tally (keyword_entries items lowered).
Proof.
  rewrite keyword_fold. unfold tally, keyword_entries.
  rewrite !map_map. reflexivity.
Qed.

Lemma headers_tally self headers :
  missing_check headers
    (sender_check self headers (reply_to_check headers (Int 0, [])))
  = tally (header_entries self headers).
Proof.
  unfold missing_check, sender_check, reply_to_check, header_entries, tally.
  rewrite missing_fold. rewrite !map_app, !fold_left_app, !map_map.
  cbn [fst snd].
  destruct (headers !! "from") as [sender |].
  - rewrite sender_fold, !map_map. cbn [fst snd].
    destruct (headers !! "reply-to") as [reply |]; [| reflexivity].
    unfold mismatch_step.
    destruct (negb (String.eqb _ _)); reflexivity.
  - reflexivity.
Qed.

Lemma fold_regular ws : forall acc,
  regular acc = true -> Forall (fun w => fired w = true) ws ->
  regular (fold_left add ws acc) = true /\
  fired (fold_left add ws acc)
  = fired acc || match ws with [] => false | _ :: _ => true end.
Proof.
  induction ws as [| w ws IH]; intros acc Ra Hws; cbn [fold_left].
  - rewrite orb_false_r. auto.
  - inversion Hws as [| ? ? Fw Hws']; subst.
    destruct (add_regular acc w Ra (fired_regular _ Fw)) as [R F].
    destruct (IH _ R Hws') as [R' F']. split; [exact R' |].
    rewrite F', F, Fw, !orb_true_r. reflexivity.
Qed.

(** The score of a list of entries with positive weights is the int [0]
    when the list is empty and a positive float otherwise. *)
Lemma tally_sign es :
  Forall (fun e : entry => fired (fst e) = true) es ->
  regular (fst (tally es)) = true /\
  (es = [] -> fst (tally es) = Int 0) /\
  (es <> [] -> fired (fst (tally es)) = true).
Proof.
  intros H. unfold tally. cbn [fst].
  destruct (fold_regular (map fst es) (Int 0) eq_refl) as [R F].
  { apply Forall_map. exact H. }
  split; [exact R |]. split.
  - intros ->. reflexivity.
  - intros Hne. rewrite F. destruct es; [contradiction | reflexivity].
Qed.

End Ledger.

(** ** Counting entries *)

Section Weights.
Import Num.

Lemma url_entries_weighty tlds url loc :
  Forall weighty (url_entries tlds url loc).
Proof.
  unfold url_entries. repeat apply Forall_app_2.
  - apply Forall_map, List.Forall_forall. intros tld _. split; reflexivity.
  - destruct (Re.is_match _ _ _); repeat constructor.
  - destruct (2 <? _)%nat; repeat constructor.
  - destruct (Str.contains _ _); repeat constructor.
Qed.

Lemma init_keywords_weighty :
  Forall (fun item : string * num => weighty (snd item, fst item))
    (suspicious_keywords init).
Proof. repeat constructor. Qed.

Lemma keyword_entries_weighty lowered :
  Forall weighty (keyword_entries (suspicious_keywords init) lowered).
Proof.
  unfold keyword_entries. apply Forall_map.
  apply List.Forall_forall. intros item Hin. apply filter_In in Hin.
  destruct Hin as [Hin _].
  exact (proj1 (List.Forall_forall _ _) init_keywords_weighty item Hin).
Qed.

Lemma header_entries_weighty self headers :
  Forall weighty (header_entries self headers).
Proof.
  unfold header_entries. repeat apply Forall_app_2.
  - destruct (headers !! "from"), (headers !! "reply-to");
      try constructor.
    destruct (negb _); repeat constructor.
  - destruct (headers !! "from"); [| constructor].
    apply Forall_map, List.Forall_forall. intros p _. split; reflexivity.
  - apply Forall_map, List.Forall_forall. intros p _. split; reflexivity.
Qed.

Lemma weighty_fired es :
  Forall weighty es -> Forall (fun e : entry => fired (fst e) = true) es.
Proof. apply List.Forall_impl. intros e [H _]. exact H. Qed.

Lemma bound_normal k : normal (bound k) = true.
Proof. destruct k as [| [| [| [| k]]]]; reflexivity. Qed.

Lemma bound_add i j :
  (1 <= i)%nat -> (1 <= j)%nat ->
  scaled (bound (i + j)) <= scaled (bound i) + scaled (bound j).
Proof.
  intros Hi Hj.
  destruct i as [| [| [| [| i]]]]; [lia | | | |];
    destruct j as [| [| [| [| j]]]]; try lia;
    apply Z.leb_le; vm_compute; reflexivity.
Qed.

Lemma leb_of_scaled c x :
  normal c = true -> fired x = true ->
  scaled c <= scaled (to_float x) -> leb (Float c) x = true.
Proof.
  intros Nc Fx H.
  destruct (fired_cases x Fx) as [-> | (fx & -> & Nx)].
  - destruct (normal_inv c Nc) as (m & e & -> & _). reflexivity.
  - cbn [leb to_float]. apply leb_scaled; assumption.
Qed.

Lemma leb_fired c x :
  normal c = true -> regular x = true -> leb (Float c) x = true ->
  fired x = true.
Proof.
  intros Nc Rx H. destruct (regular_cases x Rx) as [-> | F]; [| exact F].
  destruct (normal_inv c Nc) as (m & e & -> & _). discriminate.
Qed.

(** [leb] is transitive from a smaller normal float. *)
Lemma leb_weaken c c' x :
  normal c = true -> normal c' = true -> scaled c <= scaled c' ->
  regular x = true -> leb (Float c') x = true -> leb (Float c) x = true.
Proof.
  intros Nc Nc' S Rx H.
  destruct (leb_float_scaled c' x Nc' Rx H) as [-> | S'].
  - destruct (normal_inv c Nc) as (m & e & -> & _). reflexivity.
  - apply leb_of_scaled; [assumption | eapply leb_fired; eassumption | lia].
Qed.

Lemma reaches_weaken i j x :
  (i <= j)%nat -> regular x = true -> reaches j x -> reaches i x.
Proof.
  intros Hij Rx H. destruct i as [| i]; [exact I |].
  destruct j as [| j]; [lia |]. unfold reaches in *.
  apply (leb_weaken _ (bound (S j))); try apply bound_normal; try assumption.
  destruct i as [| [| [| i]]]; destruct j as [| [| [| j]]]; try lia;
    apply Z.leb_le; vm_compute; reflexivity.
Qed.

Lemma add_reaches x y i j :
  regular x = true -> regular y = true -> reaches i x -> reaches j y ->
  reaches (i + j) (add x y).
Proof.
  intros Rx Ry Hi Hj.
  destruct i as [| i].
  { destruct j as [| j]; [exact I |]. cbn [Nat.add]. unfold reaches in *.
    apply (add_lower y x); try assumption. apply bound_normal. }
  destruct j as [| j].
  { rewrite Nat.add_0_r. unfold reaches in *.
    apply (add_lower x y); try assumption. apply bound_normal. }
  unfold reaches in Hi, Hj.
  assert (G : leb (Float (bound (S i + S j))) (add x y) = true);
    [| exact G].
  destruct (leb_float_scaled _ x (bound_normal _) Rx Hi) as [-> | Sx].
  { apply (add_lower _ y); try assumption; try apply bound_normal.
    destruct (normal_inv _ (bound_normal (S i + S j))) as (m & e & -> & _).
    reflexivity. }
  destruct (leb_float_scaled _ y (bound_normal _) Ry Hj) as [-> | Sy].
  { apply (add_lower _ x); try assumption; try apply bound_normal.
    destruct (normal_inv _ (bound_normal (S i + S j))) as (m & e & -> & _).
    reflexivity. }
  apply add_floor; try assumption; try apply bound_normal.
  pose proof (bound_add (S i) (S j)). lia.
Qed.

(** Counting: a sum of scores reaches the bound of the number of entries
    that its summands reach together. *)
Lemma fold_reaches {A : Type} (f : A -> num) (g : A -> nat) l :
  Forall (fun a => regular (f a) = true /\ reaches (g a) (f a)) l ->
  forall acc i,
    regular acc = true -> reaches i acc ->
    regular (fold_left add (map f l) acc) = true /\
    reaches (i + list_sum (map g l)) (fold_left add (map f l) acc).
Proof.
  induction 1 as [| a l [Ra Ha] Hl IH]; intros acc i Racc Hacc;
    cbn [map fold_left list_sum fold_right].
  - rewrite Nat.add_0_r. auto.
  - rewrite Nat.add_assoc. apply IH.
    + apply add_regular; assumption.
    + apply add_reaches; assumption.
Qed.

Lemma tally_reaches es :
  Forall weighty es ->
  regular (fst (tally es)) = true /\ reaches (length es) (fst (tally es)).
Proof.
  intros H. unfold tally. cbn [fst].
  destruct (fold_reaches fst (fun _ => 1%nat) es) with (acc := Int 0) (i := 0%nat)
    as [R C]; try reflexivity.
  - eapply List.Forall_impl; [| exact H]. intros e [F L].
    split; [apply fired_regular, F | exact L].
  - split; [exact R |].
    assert (E : list_sum (map (fun _ : entry => 1%nat) es) = length es).
    { clear. induction es as [| e es IH]; simpl; [reflexivity |].
      rewrite IH. reflexivity. }
    change (reaches (list_sum (map (fun _ : entry => 1%nat) es))
              (fold_left add (map fst es) (Int 0))) in C.
    rewrite E in C. exact C.
Qed.

End Weights.

(** ** What a report is made of *)

Section Evidence.
Import Num.

Variable check : string -> option string.

Lemma fold_fired ws : forall acc,
  regular acc = true -> Forall (fun w => regular w = true) ws ->
  regular (fold_left add ws acc) = true /\
  fired (fold_left add ws acc) = fired acc || existsb fired ws.
Proof.
  induction ws as [| w ws IH]; intros acc Ra Hws; cbn [fold_left existsb].
  - rewrite orb_false_r. auto.
  - inversion Hws as [| ? ? Rw Hws']; subst.
    destruct (add_regular acc w Ra Rw) as [R F].
    destruct (IH _ R Hws') as [R' F']. split; [exact R' |].
    rewrite F', F, orb_assoc. reflexivity.
Qed.

Lemma fold_lower ws c :
  normal c = true -> forall acc,
  regular acc = true -> Forall (fun w => regular w = true) ws ->
  leb (Float c) acc = true \/ Exists (fun w => leb (Float c) w = true) ws ->
  leb (Float c) (fold_left add ws acc) = true.
Proof.
  intros Nc. induction ws as [| w ws IH]; intros acc Ra Hws H; cbn [fold_left].
  - destruct H as [H | H]; [exact H | inversion H].
  - inversion Hws as [| ? ? Rw Hws']; subst.
    apply IH; [apply add_regular; assumption | assumption |].
    destruct H as [H | H].
    + left. apply (add_lower acc w); assumption.
    + inversion H as [? ? Hw | ? ? Hw]; subst.
      * left. apply (add_lower w acc); assumption.
      * right. assumption.
Qed.

(** What a report is made of: every finding, the keyword analysis and
    the header analysis are tallies of entries, and the score is the
    clamped sum of theirs. *)
Lemma report_ledger text headers r :
  returns (analyze_message check text headers) r ->
  exists total,
    Forall (fun f =>
              exists loc,
                f = URLFinding.Build (URLFinding.url f)
                      (fst (tally (url_entries (suspicious_tlds init)
                                     (URLFinding.url f) loc)))
                      (snd (tally (url_entries (suspicious_tlds init)
                                     (URLFinding.url f) loc))))
      (url_analysis r) /\
    keyword_analysis r
    = KeywordResult.Build
        (fst (tally (keyword_entries (suspicious_keywords init) (Str.lower text))))
        (snd (tally (keyword_entries (suspicious_keywords init) (Str.lower text)))) /\
    header_analysis r
    = match headers with
      | Some h =>
          if truthy h
          then Some (HeaderResult.Build (fst (tally (header_entries init h)))
                       (snd (tally (header_entries init h))))
          else None
      | None => None
      end /\
    total
    = (let base :=
         add (sum (map URLFinding.risk_score (url_analysis r)))
           (KeywordResult.score (keyword_analysis r)) in
       match header_analysis r with
       | Some h => add base (HeaderResult.score h)
       | None => base
       end) /\
    overall_risk_score r = min total f1_0 /\
    risk_level r = fst (classify (min total f1_0)).
Proof.
  intros H. destruct (analyze_message_report check _ _ _ H)
    as (urls & kw & total & Hu & Hk & _ & _ & _ & Ht & ->).
  cbn [url_analysis keyword_analysis header_analysis overall_risk_score
       risk_level].
  exists total. split; [| split; [| split; [| split; [| split]]]];
    try reflexivity.
  - apply List.Forall_forall. intros f Hf.
    destruct (analyze_urls_finding check _ _ _ Hu Hf) as (url & loc & _ & _ & ->).
    exists loc. rewrite url_finding_url. apply url_finding_tally.
  - unfold returns, outcome in Hk. rewrite analyze_keywords_run in Hk.
    cbn [snd] in Hk. apply (inj inr) in Hk. rewrite <- Hk, keywords_tally.
    reflexivity.
  - unfold header_part. destruct headers as [h |]; [| reflexivity].
    destruct (truthy h); [| reflexivity]. rewrite headers_tally. reflexivity.
  - rewrite Ht. cbn [KeywordResult.score].
    destruct (header_part init headers); reflexivity.
Qed.

End Evidence.

Section Counting.
Import Num.

Variable check : string -> option string.

Lemma scored_add i j x y :
  scored i x -> scored j y -> scored (i + j) (add x y).
Proof.
  intros (Rx & Cx & Zx & Fx) (Ry & Cy & Zy & Fy).
  destruct (add_regular x y Rx Ry) as [R F].
  split; [exact R |]. split; [apply add_reaches; assumption |]. split.
  - intros E. rewrite Zx, Zy by lia. reflexivity.
  - intros E. rewrite F. apply orb_true_iff.
    destruct i as [| i]; [right; apply Fy; lia | left; apply Fx; lia].
Qed.

Lemma scored_sum {A : Type} (f : A -> num) (g : A -> nat) l :
  Forall (fun a => scored (g a) (f a)) l ->
  scored (list_sum (map g l)) (sum (map f l)).
Proof.
  unfold sum. intros H.
  assert (G : forall acc i, scored i acc ->
            scored (i + list_sum (map g l)) (fold_left add (map f l) acc)).
  { induction H as [| a l Ha Hl IH]; intros acc i Hacc;
      cbn [map fold_left list_sum fold_right].
    - rewrite Nat.add_0_r. exact Hacc.
    - rewrite Nat.add_assoc. apply IH, scored_add; assumption. }
  apply (G (Int 0) 0%nat). repeat split; try reflexivity. intros E; lia.
Qed.

Lemma scored_tally es :
  Forall weighty es -> scored (length es) (fst (tally es)).
Proof.
  intros H. destruct (tally_reaches es H) as [R C].
  destruct (tally_sign es (weighty_fired es H)) as (_ & Z & F).
  split; [exact R |]. split; [exact C |]. split.
  - intros E. apply Z. destruct es; [reflexivity | discriminate].
  - intros E. apply F. intros ->. apply E. reflexivity.
Qed.

Lemma min_cases x :
  min x f1_0 = x \/ (min x f1_0 = f1_0 /\ ltb f1_0 x = true).
Proof. unfold min. destruct (ltb f1_0 x); auto. Qed.

Lemma scored_min n x : scored n x -> scored n (min x f1_0).
Proof.
  intros (R & C & Z & F).
  destruct (min_cases x) as [-> | [-> L]]; [repeat split; assumption |].
  repeat split.
  - destruct n as [| [| [| [| n]]]]; reflexivity.
  - intros E. rewrite (Z E) in L. discriminate.
Qed.

Lemma tally_length es : length (snd (tally es)) = length es.
Proof. unfold tally. cbn [snd]. apply length_map. Qed.

(** The score of a returned report is built from as many entries as the
    report lists reasons and keywords. *)
Lemma report_scored text headers r :
  returns (analyze_message check text headers) r ->
  scored (evidence r) (overall_risk_score r) /\
  risk_level r = fst (classify (overall_risk_score r)).
Proof.
  intros H.
  destruct (report_ledger check _ _ _ H) as (total & Hu & Hk & Hh & Ht & Ho & Hl).
  rewrite Ho. split; [| exact Hl]. apply scored_min. rewrite Ht.
  assert (Su : scored (list_sum (map (fun f => length (URLFinding.reasons f))
                                  (url_analysis r)))
                 (sum (map URLFinding.risk_score (url_analysis r)))).
  { apply scored_sum. eapply List.Forall_impl; [| exact Hu].
    intros f (loc & E). rewrite E.
    cbn [URLFinding.risk_score URLFinding.reasons].
    rewrite tally_length. apply scored_tally, url_entries_weighty. }
  assert (Sk : scored (length (KeywordResult.detected_keywords (keyword_analysis r)))
                 (KeywordResult.score (keyword_analysis r))).
  { rewrite Hk. cbn [KeywordResult.score KeywordResult.detected_keywords].
    rewrite tally_length. apply scored_tally, keyword_entries_weighty. }
  unfold evidence. cbv zeta.
  destruct (header_analysis r) as [h |] eqn:Eh.
  - apply scored_add; [apply scored_add; assumption |].
    destruct headers as [hs |]; [| discriminate].
    destruct (truthy hs); [| discriminate].
    apply (inj Some) in Hh. rewrite Hh.
    cbn [HeaderResult.score HeaderResult.reasons].
    rewrite tally_length. apply scored_tally, header_entries_weighty.
  - rewrite Nat.add_0_r. apply scored_add; assumption.
Qed.

Lemma classify_high o :
  leb f0_7 o = true -> fst (classify o) = "High".
Proof. intros H. unfold classify, geb. rewrite H. reflexivity. Qed.

Lemma classify_not_low o :
  leb f0_4 o = true ->
  fst (classify o) = "Medium" \/ fst (classify o) = "High".
Proof.
  intros H. unfold classify, geb. rewrite H.
  destruct (leb f0_7 o); auto.
Qed.

Lemma classify_zero : fst (classify (Int 0)) = "Low".
Proof. reflexivity. Qed.

(** X13: the score of a report is the int 0 exactly when the report
    lists no reason and no keyword at all, and the level is then Low;
    with any reason or keyword the score is positive. *)
Theorem X13_evidence_zero_or_positive text headers r :
  returns (analyze_message check text headers) r ->
  (evidence r = 0%nat <-> overall_risk_score r = Int 0) /\
  (evidence r = 0%nat -> risk_level r = "Low") /\
  (evidence r <> 0%nat -> ltb (Int 0) (overall_risk_score r) = true).
Proof.
  intros H. destruct (report_scored _ _ _ H) as [(R & C & Z & F) L].
  split; [split |]; [exact Z | | split].
  - intros E. destruct (evidence r) as [| n]; [reflexivity |].
    rewrite E in F. discriminate F. discriminate.
  - intros E. rewrite L, (Z E). reflexivity.
  - intros E. apply fired_positive, F, E.
Qed.

(** X14: a report that lists two reasons or keywords, in any of its
    three analyses, is rated Medium or High, and one that lists four is
    rated High: every weight is 0.2 at least, also after the rounding of
    the sums. *)
Theorem X14_evidence_count_level text headers r :
  returns (analyze_message check text headers) r ->
  ((2 <= evidence r)%nat ->
   risk_level r = "Medium" \/ risk_level r = "High") /\
  ((4 <= evidence r)%nat -> risk_level r = "High").
Proof.
  intros H. destruct (report_scored _ _ _ H) as [(R & C & Z & F) L].
  rewrite L. split; intros E.
  - apply classify_not_low.
    exact (reaches_weaken 2 _ _ E R C).
  - apply classify_high.
    exact (reaches_weaken 4 _ _ E R C).
Qed.

End Counting.

(** ** The parts and the whole *)

Section Lower.
Import Num.

Variable check : string -> option string.

Lemma leb_zero_regular x : regular x = true -> leb (Int 0) x = true.
Proof.
  intros R. destruct (regular_cases x R) as [-> | F]; [reflexivity |].
  destruct (fired_cases x F) as [-> | (f & -> & N)]; [reflexivity |].
  destruct (normal_inv f N) as (m & e & -> & _). reflexivity.
Qed.

Lemma ltb_leb_float c x : ltb (Float c) x = true -> leb (Float c) x = true.
Proof.
  rewrite ltb_float_l, leb_float_l. unfold SFltb, SFleb.
  destruct (SFcompare c (to_float x)) as [[] |]; congruence.
Qed.

(** The clamped value of a component is not above the clamped total
    when the total is not below the component. *)
Lemma min_le_min comp total :
  regular comp = true -> regular total = true ->
  (forall c, normal c = true ->
     leb (Float c) comp = true -> leb (Float c) total = true) ->
  leb (min comp f1_0) (min total f1_0) = true.
Proof.
  intros Rc Rt H.
  assert (One : leb f1_0 total = true -> leb f1_0 (min total f1_0) = true).
  { intros L. destruct (min_cases total) as [-> | [-> _]];
      [exact L | reflexivity]. }
  destruct (regular_cases comp Rc) as [-> | F].
  { change (min (Int 0) f1_0) with (Int 0). apply leb_zero_regular.
    destruct (min_cases total) as [-> | [-> _]]; [exact Rt | reflexivity]. }
  destruct (fired_cases comp F) as [-> | (fc & -> & N)].
  { change (min (Float (S754_infinity false)) f1_0) with f1_0.
    apply One, (H (decimal 10 10)); reflexivity. }
  destruct (ltb f1_0 (Float fc)) eqn:E.
  - replace (min (Float fc) f1_0) with f1_0 by (unfold min; rewrite E; reflexivity).
    apply One, (H (decimal 10 10) eq_refl), ltb_leb_float, E.
  - replace (min (Float fc) f1_0) with (Float fc)
      by (unfold min; rewrite E; reflexivity).
    assert (Lt : leb (Float fc) total = true).
    { apply H; [exact N |]. cbn [leb to_float]. apply SFleb_refl, N. }
    destruct (min_cases total) as [-> | [-> _]]; [exact Lt |].
    apply (not_ltb_leb (Float fc) (decimal 10 10));
      [apply regular_nonneg, F | discriminate | exact E].
Qed.


Lemma report_parts text headers r :
  returns (analyze_message check text headers) r ->
  Forall (fun f => scored (length (URLFinding.reasons f))
                     (URLFinding.risk_score f)) (url_analysis r) /\
  scored (length (KeywordResult.detected_keywords (keyword_analysis r)))
    (KeywordResult.score (keyword_analysis r)) /\
  (forall h, header_analysis r = Some h ->
     scored (length (HeaderResult.reasons h)) (HeaderResult.score h)).
Proof.
  intros H.
  destruct (report_ledger check _ _ _ H) as (total & Hu & Hk & Hh & _).
  split; [| split].
  - eapply List.Forall_impl; [| exact Hu].
    intros f (loc & E). rewrite E.
    cbn [URLFinding.risk_score URLFinding.reasons].
    rewrite tally_length. apply scored_tally, url_entries_weighty.
  - rewrite Hk. cbn [KeywordResult.score KeywordResult.detected_keywords].
    rewrite tally_length. apply scored_tally, keyword_entries_weighty.
  - intros h Eh. rewrite Eh in Hh.
    destruct headers as [hs |]; [| discriminate].
    destruct (truthy hs); [| discriminate].
    apply (inj Some) in Hh. rewrite Hh.
    cbn [HeaderResult.score HeaderResult.reasons].
    rewrite tally_length. apply scored_tally, header_entries_weighty.
Qed.

Lemma sum_lower {A : Type} (f : A -> num) l c :
  normal c = true -> Forall (fun a => regular (f a) = true) l ->
  Exists (fun a => leb (Float c) (f a) = true) l ->
  regular (sum (map f l)) = true /\ leb (Float c) (sum (map f l)) = true.
Proof.
  intros Nc R E. unfold sum. split.
  - apply fold_fired; [reflexivity | apply Forall_map; exact R].
  - apply fold_lower; [exact Nc | reflexivity | apply Forall_map; exact R |].
    right. apply List.Exists_exists in E. destruct E as (a & Ha & La).
    apply List.Exists_exists. exists (f a). split; [apply in_map; exact Ha | exact La].
Qed.

(** The total before clamping is not below a component. *)
Lemma total_lower text headers r :
  returns (analyze_message check text headers) r ->
  exists total,
    regular total = true /\
    overall_risk_score r = min total f1_0 /\
    risk_level r = fst (classify (min total f1_0)) /\
    forall c, normal c = true ->
      Exists (fun f => leb (Float c) (URLFinding.risk_score f) = true)
        (url_analysis r) \/
      leb (Float c) (KeywordResult.score (keyword_analysis r)) = true \/
      (exists h, header_analysis r = Some h /\
                 leb (Float c) (HeaderResult.score h) = true) ->
      leb (Float c) total = true.
Proof.
  intros H.
  destruct (report_ledger check _ _ _ H) as (total & _ & _ & _ & Ht & Ho & Hl).
  destruct (report_parts _ _ _ H) as (Pu & Pk & Ph).
  exists total. 
  assert (Ru : Forall (fun f => regular (URLFinding.risk_score f) = true)
                 (url_analysis r)).
  { eapply List.Forall_impl; [| exact Pu]. intros f Sf. apply Sf. }
  assert (Rs : regular (sum (map URLFinding.risk_score (url_analysis r))) = true).
  { apply fold_fired; [reflexivity | apply Forall_map; exact Ru]. }
  assert (Rk : regular (KeywordResult.score (keyword_analysis r)) = true)
    by apply Pk.
  assert (Rb : regular (add (sum (map URLFinding.risk_score (url_analysis r)))
                          (KeywordResult.score (keyword_analysis r))) = true)
    by (apply add_regular; assumption).
  assert (Base : forall c, normal c = true ->
            Exists (fun f => leb (Float c) (URLFinding.risk_score f) = true)
              (url_analysis r) \/
            leb (Float c) (KeywordResult.score (keyword_analysis r)) = true ->
            leb (Float c)
              (add (sum (map URLFinding.risk_score (url_analysis r)))
                 (KeywordResult.score (keyword_analysis r))) = true).
  { intros c Nc [E | L].
    - apply (add_lower _ _ c Rs Rk Nc). apply sum_lower; assumption.
    - apply (add_lower _ _ c Rk Rs Nc L). }
  cbv zeta in Ht.
  destruct (header_analysis r) as [h |] eqn:Eh.
  - pose proof (Ph h eq_refl) as (Rh & _).
    split; [rewrite Ht; apply add_regular; assumption |].
    split; [exact Ho |]. split; [exact Hl |].
    intros c Nc [E | [L | (h' & Eh' & L)]]; rewrite Ht.
    + apply (add_lower _ _ c Rb Rh Nc). apply Base; auto.
    + apply (add_lower _ _ c Rb Rh Nc). apply Base; auto.
    + apply (inj Some) in Eh'. subst h'.
      apply (add_lower _ _ c Rh Rb Nc L).
  - split; [rewrite Ht; exact Rb |].
    split; [exact Ho |]. split; [exact Hl |].
    intros c Nc [E | [L | (h' & Eh' & L)]]; rewrite Ht.
    + apply Base; auto.
    + apply Base; auto.
    + discriminate.
Qed.

Lemma min_lower c total :
  leb (Float c) f1_0 = true -> leb (Float c) total = true ->
  leb (Float c) (min total f1_0) = true.
Proof. intros L1 Lt. destruct (min_cases total) as [-> | [-> _]]; assumption. Qed.

(** A threshold that a component reaches is reached by the report. *)
Lemma overall_lower text headers r c :
  returns (analyze_message check text headers) r ->
  normal c = true -> leb (Float c) f1_0 = true ->
  Exists (fun f => leb (Float c) (URLFinding.risk_score f) = true)
    (url_analysis r) \/
  leb (Float c) (KeywordResult.score (keyword_analysis r)) = true \/
  (exists h, header_analysis r = Some h /\
             leb (Float c) (HeaderResult.score h) = true) ->
  leb (Float c) (overall_risk_score r) = true /\
  risk_level r = fst (classify (overall_risk_score r)).
Proof.
  intros H Nc L1 Hc.
  destruct (total_lower _ _ _ H) as (total & Rt & -> & -> & Ht).
  split; [| reflexivity]. apply min_lower; [exact L1 |]. apply Ht; assumption.
Qed.

(** X15: no part of the analysis is lost in the sum: the score of a
    report is not below the score of any finding, of the keyword analysis
    or of the header analysis, each clamped to 1.0. *)
Theorem X15_components_below_overall text headers r :
  returns (analyze_message check text headers) r ->
  (forall f, In f (url_analysis r) ->
     leb (min (URLFinding.risk_score f) f1_0) (overall_risk_score r) = true) /\
  leb (min (KeywordResult.score (keyword_analysis r)) f1_0)
    (overall_risk_score r) = true /\
  (forall h, header_analysis r = Some h ->
     leb (min (HeaderResult.score h) f1_0) (overall_risk_score r) = true).
Proof.
  intros H.
  destruct (total_lower _ _ _ H) as (total & Rt & -> & _ & Ht).
  destruct (report_parts _ _ _ H) as (Pu & Pk & Ph).
  split; [| split].
  - intros f Hf. apply min_le_min; [| exact Rt |].
    + exact (proj1 (proj1 (List.Forall_forall _ _) Pu f Hf)).
    + intros c Nc L. apply Ht; [exact Nc |]. left.
      apply List.Exists_exists. exists f. auto.
  - apply min_le_min; [apply Pk | exact Rt |].
    intros c Nc L. apply Ht; auto.
  - intros h Eh. apply min_le_min; [apply (Ph h Eh) | exact Rt |].
    intros c Nc L. apply Ht; [exact Nc |]. right. right. exists h. auto.
Qed.

End Lower.

(** ** Findings that decide the level *)

Section Triggers.
Import Num.

Variable check : string -> option string.

Lemma add_floor2 x y c c1 c2 :
  regular x = true -> regular y = true ->
  normal c = true -> normal c1 = true -> normal c2 = true ->
  leb (Float c1) x = true -> leb (Float c2) y = true ->
  scaled c <= scaled c1 + scaled c2 ->
  leb (Float c) (add x y) = true.
Proof.
  intros Rx Ry Nc N1 N2 L1 L2 S.
  assert (Inf : leb (Float c) (Float (S754_infinity false)) = true).
  { destruct (normal_inv c Nc) as (m & e & -> & _). reflexivity. }
  destruct (leb_float_scaled c1 x N1 Rx L1) as [-> | Sx].
  { apply (add_lower _ y); assumption. }
  destruct (leb_float_scaled c2 y N2 Ry L2) as [-> | Sy].
  { apply (add_lower _ x); assumption. }
  apply add_floor; try assumption. lia.
Qed.

Lemma weighty_regular es :
  Forall weighty es -> Forall (fun w => regular w = true) (map fst es).
Proof.
  intros H. apply Forall_map. eapply List.Forall_impl; [| exact H].
  intros e [F _]. apply fired_regular, F.
Qed.

(** A tally is not below the weight of one of its entries. *)
Lemma tally_lower es e c :
  Forall weighty es -> In e es -> normal c = true ->
  leb (Float c) (fst e) = true -> leb (Float c) (fst (tally es)) = true.
Proof.
  intros W Hin Nc L. unfold tally. cbn [fst].
  apply fold_lower; [exact Nc | reflexivity | apply weighty_regular, W |].
  right. apply List.Exists_exists. exists (fst e).
  split; [apply in_map; exact Hin | exact L].
Qed.

(** A tally is not below what its first two entries reach together. *)
Lemma tally_two e1 e2 rest c c1 c2 :
  Forall weighty (e1 :: e2 :: rest) ->
  normal c = true -> normal c1 = true -> normal c2 = true ->
  leb (Float c1) (fst e1) = true -> leb (Float c2) (fst e2) = true ->
  scaled c <= scaled c1 + scaled c2 ->
  leb (Float c) (fst (tally (e1 :: e2 :: rest))) = true.
Proof.
  intros W Nc N1 N2 L1 L2 S. unfold tally. cbn [fst map fold_left].
  pose proof (weighty_regular _ W) as R. cbn [map] in R.
  inversion R as [| ? ? R1 R']; subst. inversion R' as [| ? ? R2 R'']; subst.
  rewrite add_0_l by (apply regular_nonneg, R1).
  apply fold_lower; [exact Nc | apply add_regular; assumption | exact R'' |].
  left. apply (add_floor2 _ _ c c1 c2); assumption.
Qed.

Lemma init_weights_normal :
  Forall (fun item : string * num =>
            exists fw, snd item = Float fw /\ normal fw = true /\
                       leb (Float fw) f1_0 = true)
    (suspicious_keywords init).
Proof. repeat constructor; eexists; repeat split. Qed.

End Triggers.

Section TextLevels.
Import Num.

Variable check : string -> option string.

(** X16: every report of a text whose lower-cased form holds a keyword
    of the table lists that keyword, has a score that is not below its
    weight, and is rated High when the weight is 0.7 or more and Medium or
    High when it is 0.4 or more; a report is returned whenever the text
    holds no square bracket. *)
Theorem X16_keyword_forces_level text headers keyword weight :
  In (keyword, weight) (suspicious_keywords init) ->
  Str.contains (Str.lower text) keyword = true ->
  (forall r,
      returns (analyze_message check text headers) r ->
      In keyword (KeywordResult.detected_keywords (keyword_analysis r)) /\
      leb weight (overall_risk_score r) = true /\
      (leb f0_7 weight = true -> risk_level r = "High") /\
      (leb f0_4 weight = true ->
       risk_level r = "Medium" \/ risk_level r = "High")) /\
  (Str.forallb no_bracket text = true ->
   exists r, returns (analyze_message check text headers) r).
Proof.
  intros Hin Hc.
  split; [| intros Hnb; apply (analyze_message_total check text headers Hnb)].
  intros r H.
  destruct (report_ledger check _ _ _ H) as (_ & _ & Hk & _).
  set (es := keyword_entries (suspicious_keywords init) (Str.lower text)) in *.
  assert (He : In (weight, keyword) es).
  { unfold es, keyword_entries. apply in_map_iff. exists (keyword, weight).
    split; [reflexivity |]. apply filter_In. auto. }
  pose proof (keyword_entries_weighty (Str.lower text)) as W. fold es in W.
  destruct (proj1 (List.Forall_forall _ _) init_weights_normal _ Hin)
    as (fw & Ew & Nw & L1). cbn [snd] in Ew. subst weight.
  assert (Reach : forall c, normal c = true -> leb (Float c) f1_0 = true ->
            leb (Float c) (Float fw) = true ->
            leb (Float c) (overall_risk_score r) = true /\
            risk_level r = fst (classify (overall_risk_score r))).
  { intros c Nc Lc L. apply (overall_lower check text headers); try assumption.
    right. left. rewrite Hk. cbn [KeywordResult.score].
    apply (tally_lower es (Float fw, keyword)); assumption. }
  split; [| split; [| split]].
  - rewrite Hk. cbn [KeywordResult.detected_keywords]. unfold tally. cbn [snd].
    apply in_map_iff. exists (Float fw, keyword). auto.
  - apply (Reach fw Nw L1). cbn [leb to_float]. apply SFleb_refl, Nw.
  - intros L. destruct (Reach (decimal 7 10) eq_refl eq_refl L) as [L' ->].
    apply classify_high, L'.
  - intros L. destruct (Reach (decimal 4 10) eq_refl eq_refl L) as [L' ->].
    apply classify_not_low, L'.
Qed.

Lemma tld_label_first tlds url loc tld :
  In ("Suspicious TLD: " +:+ tld) (map snd (url_entries tlds url loc)) ->
  exists label rest, url_entries tlds url loc = (f0_4, label) :: rest.
Proof.
  unfold url_entries.
  destruct (List.filter _ tlds) as [| hit hits]; cbn [map app].
  - intros Hin.
    destruct (Re.is_match _ _ _), (2 <? Str.count loc ".")%nat,
      (Str.contains url "%"); cbn in Hin;
      repeat (destruct Hin as [Hin | Hin]; [discriminate Hin |]);
      destruct Hin.
  - intros _. eauto.
Qed.

Lemma ip_label tlds url loc :
  In "IP address used instead of domain name"
    (map snd (url_entries tlds url loc)) ->
  Re.is_match false Patterns.ip_pattern loc = true.
Proof.
  unfold url_entries. rewrite !map_app, map_map. cbn [snd].
  intros Hin. apply in_app_or in Hin. destruct Hin as [Hin | Hin].
  { apply in_map_iff in Hin. destruct Hin as (tld & E & _). discriminate E. }
  destruct (Re.is_match _ _ _); [reflexivity |].
  destruct (2 <? Str.count loc ".")%nat, (Str.contains url "%"); cbn in Hin;
    repeat (destruct Hin as [Hin | Hin]; [discriminate Hin |]);
    destruct Hin.
Qed.

Lemma url_entries_03 tlds url loc :
  Forall (fun e : entry => leb f0_3 (fst e) = true) (url_entries tlds url loc).
Proof.
  unfold url_entries. repeat apply Forall_app_2.
  - apply Forall_map, List.Forall_forall. intros tld _. reflexivity.
  - destruct (Re.is_match _ _ _); repeat constructor.
  - destruct (2 <? _)%nat; repeat constructor.
  - destruct (Str.contains _ _); repeat constructor.
Qed.

(** X17: a report with a finding that has the IP-address reason is
    rated High; one with a finding that has a suspicious-TLD reason is
    rated Medium or High, and High when the finding has a second
    reason. *)
Theorem X17_url_reason_forces_level text headers r finding :
  returns (analyze_message check text headers) r ->
  In finding (url_analysis r) ->
  (In "IP address used instead of domain name" (URLFinding.reasons finding) ->
   risk_level r = "High") /\
  (forall tld,
      In ("Suspicious TLD: " +:+ tld) (URLFinding.reasons finding) ->
      (risk_level r = "Medium" \/ risk_level r = "High") /\
      ((2 <= length (URLFinding.reasons finding))%nat ->
       risk_level r = "High")).
Proof.
  intros H Hf.
  destruct (report_ledger check _ _ _ H) as (_ & Hu & _).
  destruct (proj1 (List.Forall_forall _ _) Hu _ Hf) as (loc & E).
  set (es := url_entries (suspicious_tlds init) (URLFinding.url finding) loc) in *.
  pose proof (url_entries_weighty (suspicious_tlds init)
                (URLFinding.url finding) loc) as W. fold es in W.
  assert (Reach : forall c, normal c = true -> leb (Float c) f1_0 = true ->
            leb (Float c) (URLFinding.risk_score finding) = true ->
            leb (Float c) (overall_risk_score r) = true /\
            risk_level r = fst (classify (overall_risk_score r))).
  { intros c Nc Lc L. apply (overall_lower check text headers); try assumption.
    left. apply List.Exists_exists. exists finding. auto. }
  assert (Er : URLFinding.reasons finding = map snd es) by (rewrite E; reflexivity).
  assert (Es : URLFinding.risk_score finding = fst (tally es))
    by (rewrite E; reflexivity).
  split.
  - intros Hin. rewrite Er in Hin. apply ip_label in Hin.
    assert (L : leb f0_7 (URLFinding.risk_score finding) = true).
    { rewrite E. unfold es. rewrite <- url_finding_tally.
      rewrite (url_finding_ip _ _ Hin).
      destruct (Str.contains _ "%"); reflexivity. }
    destruct (Reach (decimal 7 10) eq_refl eq_refl L) as [L' ->].
    apply classify_high, L'.
  - intros tld Hin. rewrite Er in Hin.
    destruct (tld_label_first _ _ _ _ Hin) as (label & rest & Ees).
    fold es in Ees. split.
    + assert (L : leb f0_4 (URLFinding.risk_score finding) = true).
      { rewrite Es. apply (tally_lower es (f0_4, label)); try assumption;
          try reflexivity. rewrite Ees. left. reflexivity. }
      destruct (Reach (decimal 4 10) eq_refl eq_refl L) as [L' ->].
      apply classify_not_low, L'.
    + intros Hlen. rewrite Er, length_map, Ees in Hlen.
      destruct rest as [| e2 rest]; [cbn in Hlen; lia |].
      assert (L : leb f0_7 (URLFinding.risk_score finding) = true).
      { rewrite Es, Ees. rewrite Ees in W.
        apply (tally_two _ _ _ (decimal 7 10) (decimal 4 10) (decimal 3 10));
          try assumption; try reflexivity.
        - pose proof (url_entries_03 (suspicious_tlds init)
                        (URLFinding.url finding) loc) as H3.
          fold es in H3. rewrite Ees in H3.
          inversion H3 as [| ? ? _ H3']; subst.
          inversion H3' as [| ? ? L3 _]; subst. exact L3.
        - apply Z.leb_le. vm_compute. reflexivity. }
      destruct (Reach (decimal 7 10) eq_refl eq_refl L) as [L' ->].
      apply classify_high, L'.
Qed.

End TextLevels.

Section HeaderLevels.
Import Num.

Variable check : string -> option string.

Lemma lookup_truthy (h : gmap string string) k v :
  h !! k = Some v -> truthy h = true.
Proof.
  intros E. apply truthy_spec. intros ->. rewrite lookup_empty in E.
  discriminate.
Qed.

(** X18: every report of a message whose [from] and [reply-to] headers
    have different domain segments is rated Medium or High, and High when
    the sender also matches a pattern of the table; every report of a
    message with a non-empty header mapping that lacks two of the three
    authenticity headers is rated Medium or High; a report is returned
    whenever the text holds no square bracket. *)
Theorem X18_header_findings_force_level text (h : gmap string string) :
  (forall r,
      returns (analyze_message check text (Some h)) r ->
      (forall sender reply,
          h !! "from" = Some sender -> h !! "reply-to" = Some reply ->
          domain_of sender <> domain_of reply ->
          (risk_level r = "Medium" \/ risk_level r = "High") /\
          (Exists (fun p => Re.search true p sender = true)
             (suspicious_sender_patterns init) ->
           risk_level r = "High")) /\
      (h <> ∅ ->
       (2 <= length (List.filter (fun name => bool_decide (h !! name = None))
                       important_headers))%nat ->
       risk_level r = "Medium" \/ risk_level r = "High")) /\
  (Str.forallb no_bracket text = true ->
   exists r, returns (analyze_message check text (Some h)) r).
Proof.
  split; [| intros Hnb; apply (analyze_message_total check text (Some h) Hnb)].
  intros r H.
  destruct (report_ledger check _ _ _ H) as (_ & _ & _ & Hh & _).
  set (es := header_entries init h) in *.
  pose proof (header_entries_weighty init h) as W. fold es in W.
  assert (Reach : forall c, truthy h = true ->
            normal c = true -> leb (Float c) f1_0 = true ->
            leb (Float c) (fst (tally es)) = true ->
            leb (Float c) (overall_risk_score r) = true /\
            risk_level r = fst (classify (overall_risk_score r))).
  { intros c T Nc Lc L. rewrite T in Hh.
    apply (overall_lower check text (Some h)); try assumption.
    right. right. eexists. split; [exact Hh | exact L]. }
  split.
  - intros sender reply Ef Er Hd.
    pose proof (lookup_truthy _ _ _ Ef) as T.
    assert (Ees : exists rest,
               es = (f0_4, "Reply-To domain mismatch")
                    :: map (fun p => (f0_3, "Suspicious sender pattern: "
                                             +:+ Re.source p))
                         (List.filter (fun p => Re.search true p sender)
                            (suspicious_sender_patterns init))
                    ++ rest).
    { unfold es, header_entries. rewrite Ef, Er.
      apply String.eqb_neq in Hd. rewrite Hd. cbn [negb app]. eauto. }
    destruct Ees as (rest & Ees). split.
    + assert (L : leb f0_4 (fst (tally es)) = true).
      { apply (tally_lower es (f0_4, "Reply-To domain mismatch"));
          try assumption; try reflexivity. rewrite Ees. left. reflexivity. }
      destruct (Reach (decimal 4 10) T eq_refl eq_refl L) as [L' ->].
      apply classify_not_low, L'.
    + intros Hp. apply List.Exists_exists in Hp. destruct Hp as (p & Hp & Hs).
      assert (Hhit : In p (List.filter (fun p => Re.search true p sender)
                             (suspicious_sender_patterns init)))
        by (apply filter_In; auto).
      destruct (List.filter _ (suspicious_sender_patterns init))
        as [| hit hits]; [destruct Hhit |].
      cbn [map app] in Ees.
      assert (L : leb f0_7 (fst (tally es)) = true).
      { rewrite Ees. rewrite Ees in W.
        apply (tally_two _ _ _ (decimal 7 10) (decimal 4 10) (decimal 3 10));
          try assumption; try reflexivity.
        apply Z.leb_le. vm_compute. reflexivity. }
      destruct (Reach (decimal 7 10) T eq_refl eq_refl L) as [L' ->].
      apply classify_high, L'.
  - intros Hne Hlen. apply truthy_spec in Hne.
    destruct (report_scored check _ _ _ H) as [(R & C & _) ->].
    apply classify_not_low.
    apply (reaches_weaken 2 (evidence r)); [| exact R | exact C].
    unfold evidence. rewrite Hh, Hne. cbn [HeaderResult.reasons].
    rewrite tally_length. fold es.
    assert (length (List.filter (fun name => bool_decide (h !! name = None))
                      important_headers) <= length es)%nat; [| lia].
    unfold es, header_entries. rewrite !length_app, length_map. lia.
Qed.

End HeaderLevels.

(** ** The keys that the header analyzer reads *)

Section Frame.

Variable check : string -> option string.

Lemma analyze_headers_entries h self :
  analyze_headers h self = (self, inr (tally (header_entries self h))).
Proof. rewrite analyze_headers_run, headers_tally. reflexivity. Qed.

(** X10: [analyze_headers] reads five keys only, [from], [reply-to]
    (when [from] is present) and the presence of [received],
    [authentication-results] and [dkim-signature]: two mappings that agree
    on them get the same result, also through [analyze_message] when
    neither is empty.  Other keys, [From] with a capital for instance, are
    ignored. *)
Theorem X10_headers_read_five_keys (h1 h2 : gmap string string) :
  h1 !! "from" = h2 !! "from" ->
  (h1 !! "from" <> None -> h1 !! "reply-to" = h2 !! "reply-to") ->
  (forall name, In name important_headers ->
     (h1 !! name = None <-> h2 !! name = None)) ->
  (forall self, analyze_headers h1 self = analyze_headers h2 self) /\
  (h1 <> ∅ -> h2 <> ∅ ->
   forall text self,
     analyze_message check text (Some h1) self
     = analyze_message check text (Some h2) self).
Proof.
  intros Hf Hr Hm.
  assert (E : forall self, header_entries self h1 = header_entries self h2).
  { intros self. unfold header_entries. rewrite <- Hf.
    f_equal; [| f_equal].
    - destruct (h1 !! "from") as [sender |] eqn:Ef.
      + rewrite <- Hr by discriminate. reflexivity.
      + reflexivity.
    - f_equal. apply filter_ext_in. intros name Hin.
      apply bool_decide_ext, Hm, Hin. }
  split.
  - intros self. rewrite !analyze_headers_entries, E. reflexivity.
  - intros N1 N2 text self. rewrite !analyze_message_run.
    unfold header_part. apply truthy_spec in N1, N2. rewrite N1, N2.
    rewrite !headers_tally, E. reflexivity.
Qed.

End Frame.

(** ** Exceptions and findings *)

Section Exceptions.

Variable check : string -> option string.

Lemma collect_raises {A B : Type} (f : A -> exn + B) xs e :
  collect f xs = inl e <->
  exists pre x post,
    xs = pre ++ x :: post /\
    Forall (fun u => exists b, f u = inr b) pre /\ f x = inl e.
Proof.
  induction xs as [| x xs IH]; cbn [collect].
  - split; [discriminate |]. intros (pre & y & post & E & _).
    destruct pre; discriminate E.
  - split.
    + destruct (f x) as [e' | b] eqn:Ex.
      * intros H. apply (inj inl) in H. subst e'.
        exists [], x, xs. repeat split; [constructor | exact Ex].
      * destruct (collect f xs) as [e' | bs]; [| discriminate].
        intros H. apply (inj inl) in H. subst e'.
        destruct (proj1 IH eq_refl) as (pre & y & post & E & Hpre & Hy).
        exists (x :: pre), y, post. rewrite E.
        repeat split; [constructor; eauto | exact Hy].
    + intros (pre & y & post & E & Hpre & Hy).
      destruct pre as [| p pre]; cbn [app] in E; inversion E; subst.
      * rewrite Hy. reflexivity.
      * inversion Hpre as [| ? ? (b & Hb) Hpre']; subst. rewrite Hb.
        assert (G : collect f (pre ++ y :: post) = inl e)
          by (apply IH; eauto 6).
        rewrite G. reflexivity.
Qed.

Lemma collect_Forall2 {A B : Type} (f : A -> exn + B) xs : forall ys,
  collect f xs = inr ys <-> Forall2 (fun x y => f x = inr y) xs ys.
Proof.
  induction xs as [| x xs IH]; intros ys; cbn [collect].
  - split.
    + intros H. apply (inj inr) in H. subst. constructor.
    + intros H. inversion H. reflexivity.
  - destruct (f x) as [e | b] eqn:Ex.
    + split; [discriminate |]. intros H. inversion H; subst. congruence.
    + destruct (collect f xs) as [e | bs] eqn:Ec.
      * split; [discriminate |]. intros H. inversion H as [| ? y ? ys' Hy Hys]; subst.
        apply IH in Hys. discriminate.
      * split.
        -- intros H. apply (inj inr) in H. subst.
           constructor; [exact Ex | apply IH; reflexivity].
        -- intros H. inversion H as [| ? y ? ys' Hy Hys]; subst.
           apply IH in Hys. congruence.
Qed.

Lemma url_outcome_raises self url e :
  url_outcome check self url = inl e <-> Url.netloc check url = inl e.
Proof.
  unfold url_outcome. destruct (Url.netloc check url); split; congruence.
Qed.

Lemma url_outcome_returns self url f :
  url_outcome check self url = inr f <->
  exists loc, Url.netloc check url = inr loc /\
              f = url_finding (suspicious_tlds self) url loc.
Proof.
  unfold url_outcome. destruct (Url.netloc check url) as [e | loc]; split.
  - discriminate.
  - intros (loc & E & _). discriminate.
  - intros H. apply (inj inr) in H. eauto.
  - intros (loc' & E & ->). congruence.
Qed.

Lemma netloc_raises url e :
  Url.netloc check url = inl e -> exists msg, e = ValueError msg.
Proof.
  unfold Url.netloc. destruct (Str.startswith _ "//"); [| discriminate].
  destruct (_ || _).
  - intros H. apply (inj inl) in H. eauto.
  - destruct (_ && _); [| discriminate].
    destruct (check _); [| discriminate].
    intros H. apply (inj inl) in H. eauto.
Qed.

(** X1: [analyze_message] raises exactly the exceptions that
    [analyze_urls] raises on the same text, and returns exactly when it
    returns; [analyze_keywords] and [analyze_headers] return on every
    input, so that neither the keywords nor the headers can make the
    analysis fail. *)
Theorem X1_exceptions_come_from_urls text headers :
  (forall e, raises (analyze_message check text headers) e <->
             raises (analyze_urls check text) e) /\
  ((exists r, returns (analyze_message check text headers) r) <->
   (exists findings, returns (analyze_urls check text) findings)) /\
  (exists result, returns (analyze_keywords text) result) /\
  (forall h, exists result, returns (analyze_headers h) result).
Proof.
  unfold raises, returns, outcome.
  rewrite analyze_message_run, analyze_urls_run, analyze_keywords_run.
  cbn [snd].
  destruct (collect _ _) as [e | findings].
  - split; [| split; [| split]].
    + intros e'. split; intros H; apply (inj inl) in H; congruence.
    + split; intros (x & H); discriminate H.
    + eauto.
    + intros h. rewrite analyze_headers_run. cbn [snd]. eauto.
  - split; [| split; [| split]].
    + intros e. split; discriminate.
    + split; eauto.
    + eauto.
    + intros h. rewrite analyze_headers_run. cbn [snd]. eauto.
Qed.

(** X2: [analyze_urls] raises an exception exactly when, among the
    extracted urls in order, one fails to parse after urls that all
    parse, and the exception is the one of that url; it is always a
    [ValueError]. *)
Theorem X2_first_unparsable_url_raises text e :
  (raises (analyze_urls check text) e <->
   exists before url after,
     Re.findall false Patterns.url_pattern text = before ++ url :: after /\
     Forall (fun u => exists loc, Url.netloc check u = inr loc) before /\
     Url.netloc check url = inl e) /\
  (raises (analyze_urls check text) e -> exists msg, e = ValueError msg).
Proof.
  unfold raises, outcome. rewrite analyze_urls_run. cbn [snd].
  rewrite collect_raises.
  assert (G : (exists pre x post,
                Re.findall false Patterns.url_pattern text = pre ++ x :: post /\
                Forall (fun u => exists b, url_outcome check init u = inr b) pre /\
                url_outcome check init x = inl e) <->
              exists before url after,
                Re.findall false Patterns.url_pattern text = before ++ url :: after /\
                Forall (fun u => exists loc, Url.netloc check u = inr loc) before /\
                Url.netloc check url = inl e).
  { split; intros (pre & x & post & E & Hpre & Hx); exists pre, x, post;
      (split; [exact E |]); split.
    - eapply List.Forall_impl; [| exact Hpre]. intros u (b & Hb).
      apply url_outcome_returns in Hb. destruct Hb as (loc & Hl & _). eauto.
    - apply url_outcome_raises in Hx. exact Hx.
    - eapply List.Forall_impl; [| exact Hpre]. intros u (loc & Hl).
      eexists. apply url_outcome_returns. eauto.
    - apply url_outcome_raises. exact Hx. }
  split; [exact G |].
  intros H. apply G in H. destruct H as (_ & url & _ & _ & _ & Hx).
  exact (netloc_raises _ _ Hx).
Qed.

(** X3: [analyze_urls] returns a list of findings exactly when that list
    pairs with the extracted urls one for one and in order, each url
    parsing and its finding holding the url itself, the sum of the weights
    of the rules that apply, added in rule order to the int 0, and their
    reasons in the same order. *)
Theorem X3_findings_follow_urls text findings :
  returns (analyze_urls check text) findings <->
  Forall2
    (fun url finding =>
       exists loc,
         Url.netloc check url = inr loc /\
         finding
         = URLFinding.Build url
             (fst (tally (url_entries (suspicious_tlds init) url loc)))
             (snd (tally (url_entries (suspicious_tlds init) url loc))))
    (Re.findall false Patterns.url_pattern text) findings.
Proof.
  unfold returns, outcome. rewrite analyze_urls_run. cbn [snd].
  rewrite collect_Forall2.
  split; intros HF; (eapply Forall2_impl; [exact HF |]); intros url f.
  - intros H. apply url_outcome_returns in H. destruct H as (loc & Hl & ->).
    exists loc. split; [exact Hl | apply url_finding_tally].
  - intros (loc & Hl & ->). apply url_outcome_returns.
    exists loc. split; [exact Hl |]. symmetry. apply url_finding_tally.
Qed.

End Exceptions.

(** ** Letter case and longer texts *)

Section Case.

Lemma lower_app a b : Str.lower (a +:+ b) = Str.lower a +:+ Str.lower b.
Proof.
  induction a as [| c a IH]; [reflexivity |].
  change (String c a +:+ b) with (String c (a +:+ b)).
  cbn [Str.lower]. rewrite IH. reflexivity.
Qed.

Lemma lower_split s : forall a' b',
  Str.lower s = a' +:+ b' ->
  exists a b, s = a +:+ b /\ Str.lower a = a' /\ Str.lower b = b'.
Proof.
  induction s as [| c s IH]; intros a' b' H.
  - destruct a' as [| x a']; [| discriminate H].
    exists EmptyString, EmptyString. repeat split. cbn in H. exact H.
  - destruct a' as [| x a'].
    + exists EmptyString, (String c s). repeat split. exact H.
    + change (String x a' +:+ b') with (String x (a' +:+ b')) in H.
      cbn [Str.lower] in H. injection H as Hc Hs.
      destruct (IH _ _ Hs) as (a & b & -> & Ha & Hb).
      exists (String c a), b. repeat split; [| exact Hb].
      cbn [Str.lower]. rewrite Hc, Ha. reflexivity.
Qed.

Lemma lower_char_idem c : Str.lower_char (Str.lower_char c) = Str.lower_char c.
Proof. destruct c as [[] [] [] [] [] [] [] []]; reflexivity. Qed.

Lemma lower_idem s : Str.lower (Str.lower s) = Str.lower s.
Proof.
  induction s as [| c s IH]; [reflexivity |].
  cbn [Str.lower]. rewrite lower_char_idem, IH. reflexivity.
Qed.

Lemma lower_ascii_lower_char c :
  Str.lower_char (ascii_lower_char c) = Str.lower_char c.
Proof. destruct c as [[] [] [] [] [] [] [] []]; reflexivity. Qed.

Lemma lower_ascii_lower s : Str.lower (ascii_lower s) = Str.lower s.
Proof.
  induction s as [| c s IH]; [reflexivity |].
  cbn [ascii_lower Str.lower]. rewrite lower_ascii_lower_char, IH. reflexivity.
Qed.

(** Strings that differ in the case of ASCII letters only have the same
    lower-case form. *)
Lemma ascii_lower_same s t :
  ascii_lower s = ascii_lower t -> Str.lower s = Str.lower t.
Proof.
  intros H. rewrite <- (lower_ascii_lower s), <- (lower_ascii_lower t), H.
  reflexivity.
Qed.

Lemma analyze_keywords_returns text score keywords :
  returns (analyze_keywords text) (score, keywords) <->
  (score, keywords)
  = tally (keyword_entries (suspicious_keywords init) (Str.lower text)).
Proof.
  unfold returns, outcome. rewrite analyze_keywords_run, keywords_tally.
  cbn [snd]. split; [intros H; apply (inj inr) in H; auto | congruence].
Qed.

(** X8: [analyze_keywords] ignores letter case: a keyword is detected
    exactly when it is in the table and some piece of the text lower-cases
    to it, and two texts with the same lower-case form, the text and its
    lower-case form for instance, get the same score and keywords. *)
Theorem X8_keyword_detection_ignores_case text score keywords :
  returns (analyze_keywords text) (score, keywords) ->
  (forall keyword,
      In keyword keywords <->
      In keyword (map fst (suspicious_keywords init)) /\
      exists a w b, text = a +:+ w +:+ b /\ Str.lower w = keyword) /\
  (forall text',
      Str.lower text' = Str.lower text ->
      returns (analyze_keywords text') (score, keywords)) /\
  returns (analyze_keywords (Str.lower text)) (score, keywords).
Proof.
  intros H. split; [| split].
  - apply analyze_keywords_returns in H.
    apply (f_equal snd) in H. cbn [snd] in H. subst keywords.
    intros keyword. unfold tally. cbn [snd]. unfold keyword_entries. rewrite map_map. cbn [snd].
    rewrite in_map_iff. split.
    + intros ([kw w] & <- & Hin). apply filter_In in Hin.
      destruct Hin as [Hin Hc]. cbn [fst] in *. split.
      * apply in_map_iff. exists (kw, w). auto.
      * apply contains_spec in Hc. destruct Hc as (a' & b' & Hc).
        destruct (lower_split _ _ _ Hc) as (a & rest & -> & Ha & Hrest).
        destruct (lower_split _ _ _ Hrest) as (w' & b & -> & Hw & Hb).
        eauto.
    + intros [Hin (a & w & b & -> & Hw)].
      apply in_map_iff in Hin. destruct Hin as ([kw wt] & <- & Hin).
      exists (kw, wt). split; [reflexivity |]. apply filter_In.
      split; [exact Hin |]. cbn [fst] in *. apply contains_spec.
      rewrite !lower_app, Hw. eauto.
  - intros text' E. apply analyze_keywords_returns.
    rewrite E. apply analyze_keywords_returns, H.
  - apply analyze_keywords_returns. rewrite lower_idem.
    apply analyze_keywords_returns, H.
Qed.

Lemma filter_sublist_impl {A : Type} (p q : A -> bool) l :
  (forall x, p x = true -> q x = true) ->
  sublist (List.filter p l) (List.filter q l).
Proof.
  intros Hpq. induction l as [| x l IH]; cbn [List.filter]; [constructor |].
  destruct (p x) eqn:Ep.
  - rewrite (Hpq _ Ep). constructor. exact IH.
  - destruct (q x); [constructor |]; exact IH.
Qed.

Lemma sublist_map {A B : Type} (f : A -> B) (l1 l2 : list A) :
  sublist l1 l2 -> sublist (map f l1) (map f l2).
Proof. induction 1; cbn [map]; constructor; assumption. Qed.

(** X9: text added before and after a message removes no detected
    keyword: the keywords of the message are detected in the longer text,
    in the same order. *)
Theorem X9_keyword_detection_grows before text after s1 k1 s2 k2 :
  returns (analyze_keywords text) (s1, k1) ->
  returns (analyze_keywords (before +:+ text +:+ after)) (s2, k2) ->
  sublist k1 k2 /\ (length k1 <= length k2)%nat /\
  (forall keyword, In keyword k1 -> In keyword k2).
Proof.
  intros H1 H2. apply analyze_keywords_returns in H1, H2.
  apply (f_equal snd) in H1, H2. cbn [snd] in H1, H2. subst k1 k2.
  assert (S : sublist
                (snd (tally (keyword_entries (suspicious_keywords init)
                               (Str.lower text))))
                (snd (tally (keyword_entries (suspicious_keywords init)
                               (Str.lower (before +:+ text +:+ after)))))).
  { unfold tally, keyword_entries. cbn [snd]. rewrite !map_map.
    apply sublist_map, filter_sublist_impl.
    intros item Hc. apply contains_spec in Hc. destruct Hc as (a & b & Hc).
    apply contains_spec. rewrite !lower_app, Hc.
    exists (Str.lower before +:+ a), (b +:+ Str.lower after).
    rewrite !append_assoc. reflexivity. }
  split; [exact S |]. split; [apply sublist_length, S |].
  intros keyword Hin. apply list_elem_of_In. apply list_elem_of_In in Hin.
  exact (elem_of_sublist _ _ _ Hin S).
Qed.

End Case.

(** ** The urls that the pattern extracts *)

Section Extraction.

Lemma url_pattern_body :
  Re.body Patterns.url_pattern
  = Re.Cat (Re.lit "http")
      (Re.Cat (Re.opt (Re.Set_ [("s", "s")]%char))
         (Re.Cat (Re.lit "://") (Re.plus url_class))).
Proof. reflexivity. Qed.

Lemma chr_member a c : Re.member false [(a, a)] c = Ascii.eqb a c.
Proof.
  unfold Re.member, Re.in_set, Str.between, Str.code. cbn [existsb fst snd].
  rewrite orb_false_r.
  destruct (Ascii.eqb a c) eqn:E.
  - apply Ascii.eqb_eq in E. subst. rewrite N.leb_refl. reflexivity.
  - apply andb_false_iff.
    destruct (N.leb_spec (N_of_ascii a) (N_of_ascii c)) as [H1 | H1];
      [| auto].
    destruct (N.leb_spec (N_of_ascii c) (N_of_ascii a)) as [H2 | H2];
      [| auto].
    assert (N_of_ascii a = N_of_ascii c) by lia.
    apply (f_equal ascii_of_N) in H. rewrite !ascii_N_embedding in H.
    subst. rewrite Ascii.eqb_refl in E. discriminate.
Qed.

Lemma bt_chr a s k :
  Re.bt false (Re.chr a) s k
  = match s with
    | String c s' => if Ascii.eqb a c then k s' else None
    | EmptyString => None
    end.
Proof. destruct s as [| c s']; cbn [Re.bt Re.chr]; [| rewrite chr_member]; reflexivity. Qed.

Lemma bt_lit p : p <> EmptyString -> forall s k,
  Re.bt false (Re.lit p) s k
  = if Str.startswith s p then k (Str.drop (String.length p) s) else None.
Proof.
  induction p as [| a p IH]; [contradiction |]. intros _ s k.
  destruct p as [| b p].
  - cbn [Re.lit]. rewrite bt_chr. destruct s as [| c s']; [reflexivity |].
    cbn [Str.startswith String.length Str.drop]. rewrite andb_true_r.
    reflexivity.
  - change (Re.lit (String a (String b p)))
      with (Re.Cat (Re.chr a) (Re.lit (String b p))).
    cbn [Re.bt]. rewrite bt_chr. destruct s as [| c s']; [reflexivity |].
    cbn [Str.startswith]. change (String.length (String a (String b p)))
      with (S (String.length (String b p))). cbn [Str.drop].
    destruct (Ascii.eqb a c); [| reflexivity].
    cbn [andb]. apply IH. discriminate.
Qed.


Lemma url_char_sets c :
  url_char c
  = Re.member false [("a", "z"); ("A", "Z")]%char c
    || Re.member false [("0", "9")]%char c
    || Re.member false [("$", "_"); ("@", "@"); (".", "."); ("&", "&");
                        ("+", "+")]%char c
    || Re.member false [("!", "!"); ("*", "*"); ("\", "\"); ("(", "(");
                        ("\", "\"); (")", ")"); (",", ",")]%char c.
Proof.
  unfold url_char, Re.member, Re.in_set, url_chars. cbn [existsb].
  rewrite !orb_false_r, !orb_assoc. reflexivity.
Qed.

Lemma percent_url_char : url_char "%" = true.
Proof. reflexivity. Qed.

(** One character of the class, inside a repetition that cannot fail
    later. *)
Lemma class_accepts c s k x :
  url_char c = true -> k s = Some x ->
  Re.bt false url_class (String c s) k = Some x.
Proof.
  intros Hc Hk. rewrite url_char_sets in Hc. unfold url_class.
  cbn [Re.bt]. rewrite Hk.
  repeat match goal with
         | |- context [if ?b then _ else _] => destruct b eqn:?
         end; try reflexivity.
  discriminate Hc.
Qed.

Lemma class_rejects c s k :
  url_char c = false -> Re.bt false url_class (String c s) k = None.
Proof.
  intros Hc. pose proof Hc as Hc'. rewrite url_char_sets in Hc.
  apply orb_false_iff in Hc as [Hc H4]. apply orb_false_iff in Hc as [Hc H3].
  apply orb_false_iff in Hc as [H1 H2].
  unfold url_class. cbn [Re.bt]. rewrite H1, H2, H3, H4.
  change (Patterns.cat [Re.chr "%"; Patterns.hex; Patterns.hex])
    with (Re.Cat (Re.chr "%") (Re.Cat Patterns.hex Patterns.hex)).
  cbn [Re.bt]. rewrite bt_chr.
  destruct (Ascii.eqb "%" c) eqn:E; [| reflexivity].
  apply Ascii.eqb_eq in E. subst c. discriminate Hc'.
Qed.

Lemma class_empty k : Re.bt false url_class EmptyString k = None.
Proof. reflexivity. Qed.

Lemma drop_while_length p s :
  (String.length (drop_while p s) <= String.length s)%nat.
Proof.
  induction s as [| c s IH]; cbn [drop_while]; [lia |].
  destruct (p c); cbn [String.length] in *; lia.
Qed.

(** The greedy repetition of the class takes the longest run. *)
Lemma star_class n : forall s,
  (String.length s <= n)%nat ->
  Re.star_loop (Re.bt false url_class) Some n s
  = Some (drop_while url_char s).
Proof.
  induction n as [| n IH]; intros s Hn.
  - destruct s; [reflexivity | cbn in Hn; lia].
  - cbn [Re.star_loop]. destruct s as [| c s]; [reflexivity |].
    cbn [drop_while]. destruct (url_char c) eqn:Hc.
    + rewrite (class_accepts c s _ (drop_while url_char s) Hc); [reflexivity |].
      cbn [String.length]. rewrite (proj2 (Nat.ltb_lt _ _)) by lia.
      apply IH. cbn [String.length] in Hn. lia.
    + rewrite class_rejects by exact Hc. reflexivity.
Qed.

Lemma plus_class s :
  Re.bt false (Re.plus url_class) s Some
  = match s with
    | String c rest =>
        if url_char c then Some (drop_while url_char rest) else None
    | EmptyString => None
    end.
Proof.
  unfold Re.plus. cbn [Re.bt]. destruct s as [| c rest]; [reflexivity |].
  destruct (url_char c) eqn:Hc.
  - apply class_accepts; [exact Hc |]. apply star_class. lia.
  - apply class_rejects, Hc.
Qed.


(** The URL pattern matches at the start of [s] exactly as [url_at]
    says. *)
Lemma match_rest_url s :
  Re.match_rest false Patterns.url_pattern s = url_at s.
Proof.
  unfold Re.match_rest. rewrite url_pattern_body. cbn [Re.bt Re.opt].
  rewrite bt_lit by discriminate. unfold url_at.
  destruct (Str.startswith s "http") eqn:E4.
  - apply startswith_spec in E4. destruct E4 as (s1 & ->).
    change (Str.drop (String.length "http") ("http" +:+ s1)) with s1.
    change (Str.startswith ("http" +:+ s1) "https://")
      with (Str.startswith s1 "s://").
    change (Str.startswith ("http" +:+ s1) "http://")
      with (Str.startswith s1 "://").
    change (Str.drop 8 ("http" +:+ s1)) with (Str.drop 4 s1).
    change (Str.drop 7 ("http" +:+ s1)) with (Str.drop 3 s1).
    rewrite !bt_lit by discriminate.
    change (String.length "://") with 3%nat.
    rewrite plus_class.
    destruct s1 as [| c s2]; [reflexivity |].
    rewrite chr_member.
    change (Str.startswith (String c s2) "s://")
      with (Ascii.eqb "s" c && Str.startswith s2 "://").
    change (Str.drop 4 (String c s2)) with (Str.drop 3 s2).
    destruct (Ascii.eqb "s" c) eqn:Es; cbn [andb].
    + apply Ascii.eqb_eq in Es. subst c.
      change (Str.startswith (String "s" s2) "://") with false.
      rewrite bt_lit by discriminate.
      change (String.length "://") with 3%nat.
      destruct (Str.startswith s2 "://"); [| reflexivity].
      rewrite plus_class.
      destruct (Str.drop 3 s2) as [| c r]; [reflexivity |].
      destruct (url_char c); reflexivity.
    + destruct (Str.startswith (String c s2) "://"); [| reflexivity].
      destruct (Str.drop 3 (String c s2)) as [| c' r]; reflexivity.
  - assert (E8 : Str.startswith s "https://" = false).
    { destruct (Str.startswith s "https://") eqn:E; [| reflexivity].
      apply startswith_spec in E. destruct E as (b & ->).
      discriminate E4. }
    assert (E7 : Str.startswith s "http://" = false).
    { destruct (Str.startswith s "http://") eqn:E; [| reflexivity].
      apply startswith_spec in E. destruct E as (b & ->).
      discriminate E4. }
    rewrite E8, E7. reflexivity.
Qed.


Lemma drop_while_spec p s :
  exists run,
    s = run +:+ drop_while p s /\ Str.forallb p run = true /\
    match drop_while p s with
    | String c _ => p c = false
    | EmptyString => True
    end.
Proof.
  induction s as [| c s (run & E & Hrun & Hrest)].
  - exists EmptyString. repeat split.
  - cbn [drop_while]. destruct (p c) eqn:Hc.
    + exists (String c run). split; [| split; [| exact Hrest]].
      * change (String c run +:+ drop_while p s)
          with (String c (run +:+ drop_while p s)).
        rewrite <- E. reflexivity.
      * cbn [Str.forallb]. rewrite Hc, Hrun. reflexivity.
    + exists EmptyString. repeat split. exact Hc.
Qed.

Lemma url_at_shape s rest :
  url_at s = Some rest ->
  exists scheme tail,
    (scheme = "http://" \/ scheme = "https://") /\
    s = (scheme +:+ tail) +:+ rest /\
    tail <> EmptyString /\ Str.forallb url_char tail = true /\
    match rest with
    | String c _ => url_char c = false
    | EmptyString => True
    end.
Proof.
  unfold url_at. intros H.
  assert (G : forall scheme body,
            s = scheme +:+ body ->
            match body with
            | String c r => if url_char c then Some (drop_while url_char r) else None
            | EmptyString => None
            end = Some rest ->
            exists tail,
              s = (scheme +:+ tail) +:+ rest /\
              tail <> EmptyString /\ Str.forallb url_char tail = true /\
              match rest with
              | String c _ => url_char c = false
              | EmptyString => True
              end).
  { intros scheme body -> Hb. destruct body as [| c r]; [discriminate |].
    destruct (url_char c) eqn:Hc; [| discriminate].
    apply (inj Some) in Hb. subst rest.
    destruct (drop_while_spec url_char r) as (run & E & Hrun & Hrest).
    exists (String c run). split; [| split; [discriminate | split]].
    - rewrite append_assoc.
      change (String c run +:+ drop_while url_char r)
        with (String c (run +:+ drop_while url_char r)).
      rewrite <- E. reflexivity.
    - cbn [Str.forallb]. rewrite Hc, Hrun. reflexivity.
    - exact Hrest. }
  destruct (Str.startswith s "https://") eqn:E8.
  - apply startswith_spec in E8. destruct E8 as (b & E).
    assert (D : Str.drop 8 s = b) by (rewrite E; reflexivity).
    rewrite D in H. destruct (G _ _ E H) as (tail & G').
    exists "https://", tail. auto.
  - destruct (Str.startswith s "http://") eqn:E7; [| discriminate].
    apply startswith_spec in E7. destruct E7 as (b & E).
    assert (D : Str.drop 7 s = b) by (rewrite E; reflexivity).
    rewrite D in H. destruct (G _ _ E H) as (tail & G').
    exists "http://", tail. auto.
Qed.

Lemma length_append (a b : string) :
  String.length (a +:+ b) = (String.length a + String.length b)%nat.
Proof.
  induction a as [| c a IH]; [reflexivity |].
  change (String c a +:+ b) with (String c (a +:+ b)).
  cbn [String.length]. rewrite IH. reflexivity.
Qed.

Lemma take_append (a b : string) :
  Str.take (String.length (a +:+ b) - String.length b) (a +:+ b) = a.
Proof.
  rewrite length_append.
  replace (String.length a + String.length b - String.length b)%nat
    with (String.length a) by lia.
  induction a as [| c a IH].
  - destruct b; reflexivity.
  - change (String c a +:+ b) with (String c (a +:+ b)).
    cbn [String.length Str.take]. rewrite IH. reflexivity.
Qed.

(** Every url that [findall] extracts with the URL pattern is a match of
    [url_at] somewhere in the subject. *)
Lemma findall_from_url s : forall skip url,
  In url (Re.findall_from false Patterns.url_pattern skip s) ->
  exists before scheme tail after,
    s = before +:+ url +:+ after /\ url = scheme +:+ tail /\
    (scheme = "http://" \/ scheme = "https://") /\
    tail <> EmptyString /\ Str.forallb url_char tail = true /\
    match after with
    | String c _ => url_char c = false
    | EmptyString => True
    end.
Proof.
  assert (Shift : forall c s' url,
            (exists before scheme tail after,
                s' = before +:+ url +:+ after /\ url = scheme +:+ tail /\
                (scheme = "http://" \/ scheme = "https://") /\
                tail <> EmptyString /\ Str.forallb url_char tail = true /\
                match after with
                | String c _ => url_char c = false
                | EmptyString => True
                end) ->
            exists before scheme tail after,
              String c s' = before +:+ url +:+ after /\ url = scheme +:+ tail /\
              (scheme = "http://" \/ scheme = "https://") /\
              tail <> EmptyString /\ Str.forallb url_char tail = true /\
              match after with
              | String c _ => url_char c = false
              | EmptyString => True
              end).
  { intros c s' url (before & scheme & tail & after & -> & H).
    exists (String c before), scheme, tail, after. split; [reflexivity | exact H]. }
  induction s as [| c s IH]; intros skip url.
  - destruct skip; cbn [Re.findall_from]; [| intros []].
    rewrite match_rest_url. intros [].
  - destruct skip as [| n]; cbn [Re.findall_from].
    + rewrite match_rest_url.
      destruct (url_at (String c s)) as [rest |] eqn:E.
      * intros [<- | Hin]; [| apply Shift, (IH _ _ Hin)].
        destruct (url_at_shape _ _ E) as (scheme & tail & Hs & Es & Ht & Hf & Hr).
        rewrite Es, take_append.
        exists EmptyString, scheme, tail, rest. auto 7.
      * intros Hin. apply Shift, (IH _ _ Hin).
    + intros Hin. apply Shift, (IH _ _ Hin).
Qed.

Lemma findall_finds before m :
  url_at m <> None ->
  Re.findall false Patterns.url_pattern (before +:+ m) <> [].
Proof.
  intros Hm. unfold Re.findall. induction before as [| c before IH].
  - change (EmptyString +:+ m) with m.
    destruct m as [| c m]; cbn [Re.findall_from]; rewrite match_rest_url;
      destruct (url_at _); try discriminate; contradiction.
  - change (String c before +:+ m) with (String c (before +:+ m)).
    cbn [Re.findall_from]. destruct (Re.match_rest _ _ _); [discriminate |].
    exact IH.
Qed.

(** X4: every url that the pattern of [analyze_urls] extracts is a piece
    of the text made of [http://] or [https://] and at least one character
    of the pattern's classes, it holds only such characters, and the
    character that follows it in the text, if any, is not one of them; and
    a text in which [http://] or [https://] is followed by such a character
    yields at least one url. *)
Theorem X4_extracted_urls_shape text :
  (forall url,
      In url (Re.findall false Patterns.url_pattern text) ->
      exists before scheme tail after,
        text = before +:+ url +:+ after /\ url = scheme +:+ tail /\
        (scheme = "http://" \/ scheme = "https://") /\
        tail <> EmptyString /\ Str.forallb url_char tail = true /\
        match after with
        | String c _ => url_char c = false
        | EmptyString => True
        end) /\
  (forall before c after,
      url_char c = true ->
      (text = before +:+ "http://" +:+ String c after \/
       text = before +:+ "https://" +:+ String c after) ->
      Re.findall false Patterns.url_pattern text <> []).
Proof.
  split.
  - intros url. apply findall_from_url.
  - intros before c after Hc [-> | ->]; apply findall_finds;
      unfold url_at;
      [change (Str.startswith ("http://" +:+ String c after) "https://") with false;
       change (Str.startswith ("http://" +:+ String c after) "http://") with true;
       change (Str.drop 7 ("http://" +:+ String c after)) with (String c after)
      |change (Str.startswith ("https://" +:+ String c after) "https://") with true;
       change (Str.drop 8 ("https://" +:+ String c after)) with (String c after)];
      cbn iota; rewrite Hc; discriminate.
Qed.

End Extraction.

(** ** Suffixes of the network location *)

Section Suffixes.

Variable check : string -> option string.

(** Two suffixes of one string: one is a suffix of the other. *)
Lemma suffixes_comparable s : forall a b,
  Str.endswith s a = true -> Str.endswith s b = true ->
  Str.endswith a b = true \/ Str.endswith b a = true.
Proof.
  induction s as [| c s IH]; intros a b; cbn [Str.endswith].
  - rewrite !orb_false_r, !String.eqb_eq. intros <- <-. left. reflexivity.
  - rewrite !orb_true_iff, !String.eqb_eq.
    intros [<- | Ha] [<- | Hb].
    + left. cbn [Str.endswith]. rewrite String.eqb_refl. reflexivity.
    + left. cbn [Str.endswith]. rewrite Hb. apply orb_true_r.
    + right. cbn [Str.endswith]. rewrite Ha. apply orb_true_r.
    + apply IH; assumption.
Qed.

Lemma init_tlds_suffix_free a b :
  In a (suspicious_tlds init) -> In b (suspicious_tlds init) ->
  Str.endswith a b = true -> a = b.
Proof.
  assert (T : forallb (fun a =>
                forallb (fun b => negb (Str.endswith a b) || String.eqb a b)
                  (suspicious_tlds init)) (suspicious_tlds init) = true)
    by (vm_compute; reflexivity).
  intros Ha Hb E.
  pose proof (proj1 (List.forallb_forall _ _) T a Ha) as Ta. cbn beta in Ta.
  pose proof (proj1 (List.forallb_forall _ _) Ta b Hb) as Tb. cbn beta in Tb.
  rewrite E in Tb. apply String.eqb_eq. exact Tb.
Qed.

Lemma init_tlds_distinct : NoDup (suspicious_tlds init).
Proof. apply (bool_decide_unpack _). vm_compute. reflexivity. Qed.

(** A domain ends with at most one suffix of the table. *)
Lemma one_tld domain :
  (length (List.filter (fun tld => Str.endswith domain tld)
             (suspicious_tlds init)) <= 1)%nat.
Proof.
  pose proof (List.NoDup_filter (fun tld => Str.endswith domain tld)
                (proj1 (NoDup_ListNoDup _) init_tlds_distinct)) as N.
  assert (M : forall x,
            In x (List.filter (fun tld => Str.endswith domain tld)
                    (suspicious_tlds init)) ->
            In x (suspicious_tlds init) /\ Str.endswith domain x = true)
    by (intros x; apply filter_In).
  destruct (List.filter _ (suspicious_tlds init)) as [| a [| b rest]];
    cbn [length]; try lia.
  exfalso.
  destruct (M a (or_introl eq_refl)) as [Ia Ea].
  destruct (M b (or_intror (or_introl eq_refl))) as [Ib Eb].
  assert (E : a = b).
  { destruct (suffixes_comparable _ _ _ Ea Eb) as [H | H].
    - apply init_tlds_suffix_free; assumption.
    - symmetry. apply init_tlds_suffix_free; assumption. }
  subst b. inversion N as [| ? ? Hn _]; subst. apply Hn. left. reflexivity.
Qed.

(** X7: a finding of [analyze_urls] has at most three reasons, no
    network location ending with two suffixes of the table, and its score
    is one of eight values: 0, or one of seven sums of 0.3, 0.4 and 0.5;
    it is 1.1 at most. *)
Theorem X7_finding_score_range text findings finding :
  returns (analyze_urls check text) findings ->
  In finding findings ->
  (length (URLFinding.reasons finding) <= 3)%nat /\
  In (URLFinding.risk_score finding)
    [Num.Int 0;
     Num.add (Num.Int 0) Num.f0_3;
     Num.add (Num.add (Num.Int 0) Num.f0_3) Num.f0_3;
     Num.add (Num.Int 0) Num.f0_4;
     Num.add (Num.add (Num.Int 0) Num.f0_4) Num.f0_3;
     Num.add (Num.add (Num.add (Num.Int 0) Num.f0_4) Num.f0_3) Num.f0_3;
     Num.add (Num.add (Num.Int 0) Num.f0_5) Num.f0_3;
     Num.add (Num.add (Num.add (Num.Int 0) Num.f0_5) Num.f0_3) Num.f0_3] /\
  Num.leb (URLFinding.risk_score finding) (Num.Float (Num.decimal 11 10))
  = true.
Proof.
  intros H Hin.
  destruct (analyze_urls_finding check _ _ _ H Hin) as (url & loc & _ & _ & ->).
  assert (G : (length (URLFinding.reasons
                         (url_finding (suspicious_tlds init) url loc)) <= 3)%nat /\
              In (URLFinding.risk_score
                    (url_finding (suspicious_tlds init) url loc))
                [Num.Int 0;
                 Num.add (Num.Int 0) Num.f0_3;
                 Num.add (Num.add (Num.Int 0) Num.f0_3) Num.f0_3;
                 Num.add (Num.Int 0) Num.f0_4;
                 Num.add (Num.add (Num.Int 0) Num.f0_4) Num.f0_3;
                 Num.add (Num.add (Num.add (Num.Int 0) Num.f0_4) Num.f0_3)
                   Num.f0_3;
                 Num.add (Num.add (Num.Int 0) Num.f0_5) Num.f0_3;
                 Num.add (Num.add (Num.add (Num.Int 0) Num.f0_5) Num.f0_3)
                   Num.f0_3]).
  { destruct (Re.is_match false Patterns.ip_pattern loc) eqn:Eip.
    - rewrite (url_finding_ip _ _ Eip).
      destruct (Str.contains url "%");
        cbn [URLFinding.reasons URLFinding.risk_score length]; split;
        try lia; cbn [In]; auto 10.
    - rewrite url_finding_rules. cbv zeta. rewrite Eip.
      cbn [URLFinding.reasons URLFinding.risk_score].
      pose proof (one_tld (Str.lower loc)) as One.
      destruct (List.filter _ (suspicious_tlds init)) as [| t [| t' rest]];
        [| | cbn [length] in One; lia];
        destruct (2 <? Str.count loc ".")%nat, (Str.contains url "%");
        cbn [map app fold_left length]; split; try lia; cbn [In]; auto 10. }
  destruct G as [G1 G2]. split; [exact G1 |]. split; [exact G2 |].
  cbn [In] in G2.
  repeat (destruct G2 as [<- | G2]; [vm_compute; reflexivity |]).
  destruct G2.
Qed.

Lemma lower_letter c :
  Str.between 97 122 (Str.lower_char c) = true -> Url.is_ascii_alpha c = true.
Proof. destruct c as [[] [] [] [] [] [] [] []]; vm_compute; congruence. Qed.

Lemma nonletter_end_no_suffix s suf c :
  last_char s = Some c -> Url.is_ascii_alpha c = false ->
  ends_with_letter suf = true ->
  Str.endswith (Str.lower s) suf = false.
Proof.
  intros Hs Hc Hsuf. destruct (Str.endswith (Str.lower s) suf) eqn:E;
    [| reflexivity].
  assert (Hne : suf <> EmptyString) by (intros ->; discriminate Hsuf).
  apply (endswith_last _ _ Hne) in E. rewrite last_char_lower, Hs in E.
  unfold ends_with_letter in Hsuf. rewrite <- E in Hsuf. cbn in Hsuf.
  apply lower_letter in Hsuf. congruence.
Qed.

Lemma filter_none {A : Type} (f : A -> bool) l :
  (forall x, In x l -> f x = false) -> List.filter f l = [].
Proof.
  induction l as [| x l IH]; intros H; cbn [List.filter]; [reflexivity |].
  rewrite (H x (or_introl eq_refl)). apply IH. intros y Hy. apply H.
  right. exact Hy.
Qed.

(** X6: a finding of [analyze_urls] whose network location ends with a
    character that is not an ASCII letter, such as the digit of a port
    number, has no suspicious-TLD reason: the suffix is looked for at the
    end of the whole network location. *)
Theorem X6_non_letter_end_hides_tld text findings finding loc c :
  returns (analyze_urls check text) findings ->
  In finding findings ->
  Url.netloc check (URLFinding.url finding) = inr loc ->
  last_char loc = Some c -> Url.is_ascii_alpha c = false ->
  forall tld, ~ In ("Suspicious TLD: " +:+ tld) (URLFinding.reasons finding).
Proof.
  intros H Hin Hloc Hlast Hc tld Hr.
  destruct (analyze_urls_finding check _ _ _ H Hin) as (url & loc' & _ & Hl & ->).
  rewrite url_finding_url in Hloc. rewrite Hl in Hloc.
  apply (inj inr) in Hloc. subst loc'.
  rewrite url_finding_tally in Hr. cbn [URLFinding.reasons] in Hr.
  unfold tally in Hr. cbn [snd] in Hr.
  destruct (tld_label_first _ _ _ _ Hr) as (label & rest & E).
  unfold url_entries in E.
  assert (N : List.filter (fun tld => Str.endswith (Str.lower loc) tld)
                (suspicious_tlds init) = []).
  { apply filter_none. intros t Ht.
    apply (nonletter_end_no_suffix _ _ c); try assumption.
    exact (proj1 (List.Forall_forall _ _) init_tlds_end_with_letter t Ht). }
  rewrite N in E. cbn [map app] in E.
  destruct (Re.is_match _ _ _), (2 <? Str.count loc ".")%nat,
    (Str.contains url "%"); discriminate E.
Qed.

End Suffixes.

(** ** The sign of a score *)

Section Sign.
Import Num.

Variable check : string -> option string.

Lemma tally_dichotomy es c :
  Forall weighty es -> normal c = true ->
  Forall (fun e : entry => leb (Float c) (fst e) = true) es ->
  (snd (tally es) = [] /\ fst (tally es) = Int 0) \/
  (snd (tally es) <> [] /\ ltb (Int 0) (fst (tally es)) = true /\
   leb (Float c) (fst (tally es)) = true).
Proof.
  intros W Nc L. destruct es as [| e es]; [left; split; reflexivity |].
  right. split; [discriminate |]. split.
  - apply fired_positive. apply (tally_sign _ (weighty_fired _ W)). discriminate.
  - apply (tally_lower _ e); try assumption; [left; reflexivity |].
    inversion L; assumption.
Qed.

Lemma keyword_entries_02 lowered :
  Forall (fun e : entry => leb f0_2 (fst e) = true)
    (keyword_entries (suspicious_keywords init) lowered).
Proof.
  eapply List.Forall_impl; [| apply keyword_entries_weighty].
  intros e [_ L]. exact L.
Qed.

Lemma header_entries_02 self h :
  Forall (fun e : entry => leb f0_2 (fst e) = true) (header_entries self h).
Proof.
  eapply List.Forall_impl; [| apply header_entries_weighty].
  intros e [_ L]. exact L.
Qed.

(** X11: the score of each analyzer is the int 0 exactly when it reports
    nothing: a finding without reasons, no detected keyword, no header
    reason.  Otherwise it is positive, 0.3 at least for a finding and 0.2
    at least for the keywords and for the headers. *)
Theorem X11_analyzer_scores_sign :
  (forall text findings finding,
      returns (analyze_urls check text) findings -> In finding findings ->
      (URLFinding.reasons finding = [] /\
       URLFinding.risk_score finding = Int 0) \/
      (URLFinding.reasons finding <> [] /\
       ltb (Int 0) (URLFinding.risk_score finding) = true /\
       leb f0_3 (URLFinding.risk_score finding) = true)) /\
  (forall text score keywords,
      returns (analyze_keywords text) (score, keywords) ->
      (keywords = [] /\ score = Int 0) \/
      (keywords <> [] /\ ltb (Int 0) score = true /\ leb f0_2 score = true)) /\
  (forall headers score reasons,
      returns (analyze_headers headers) (score, reasons) ->
      (reasons = [] /\ score = Int 0) \/
      (reasons <> [] /\ ltb (Int 0) score = true /\ leb f0_2 score = true)).
Proof.
  split; [| split].
  - intros text findings finding H Hin.
    destruct (analyze_urls_finding check _ _ _ H Hin) as (url & loc & _ & _ & ->).
    rewrite url_finding_tally. cbn [URLFinding.reasons URLFinding.risk_score].
    apply (tally_dichotomy _ (decimal 3 10));
      [apply url_entries_weighty | reflexivity | apply url_entries_03].
  - intros text score keywords H. apply analyze_keywords_returns in H.
    pose proof (f_equal fst H) as Hs. pose proof (f_equal snd H) as Hk.
    cbn [fst snd] in Hs, Hk. subst score keywords.
    apply (tally_dichotomy _ (decimal 2 10));
      [apply keyword_entries_weighty | reflexivity | apply keyword_entries_02].
  - intros headers score reasons H. unfold returns, outcome in H.
    rewrite analyze_headers_entries in H. cbn [snd] in H.
    apply (inj inr) in H.
    pose proof (f_equal fst H) as Hs. pose proof (f_equal snd H) as Hk.
    cbn [fst snd] in Hs, Hk. subst score reasons.
    apply (tally_dichotomy _ (decimal 2 10));
      [apply header_entries_weighty | reflexivity | apply header_entries_02].
Qed.

(** X12: a report of [analyze_message] holds the results of the three
    analyzers on the same input: the findings of [analyze_urls], the score
    and keywords of [analyze_keywords], the score and reasons of
    [analyze_headers] when a mapping is given and is not empty, and no
    header analysis otherwise; it has exactly one recommendation. *)
Theorem X12_report_holds_analyzer_results text headers r :
  returns (analyze_message check text headers) r ->
  returns (analyze_urls check text) (url_analysis r) /\
  returns (analyze_keywords text)
    (KeywordResult.score (keyword_analysis r),
     KeywordResult.detected_keywords (keyword_analysis r)) /\
  match header_analysis r with
  | Some result =>
      exists h,
        headers = Some h /\ h <> ∅ /\
        returns (analyze_headers h)
          (HeaderResult.score result, HeaderResult.reasons result)
  | None => headers = None \/ headers = Some ∅
  end /\
  length (recommendations r) = 1%nat.
Proof.
  intros H.
  destruct (analyze_message_report check _ _ _ H)
    as (urls & kw & total & Hu & Hk & _ & _ & _ & _ & ->).
  cbn [url_analysis keyword_analysis header_analysis recommendations
       KeywordResult.score KeywordResult.detected_keywords].
  split; [exact Hu |]. split; [rewrite <- surjective_pairing; exact Hk |].
  split; [| reflexivity].
  unfold header_part. destruct headers as [h |]; [| left; reflexivity].
  destruct (truthy h) eqn:T.
  - exists h. split; [reflexivity |]. split; [apply truthy_spec, T |].
    cbn [HeaderResult.score HeaderResult.reasons].
    unfold returns, outcome. rewrite analyze_headers_run. cbn [snd].
    rewrite <- surjective_pairing. reflexivity.
  - right. f_equal. destruct (decide (h = ∅)) as [E | N]; [exact E |].
    apply truthy_spec in N. congruence.
Qed.

End Sign.

(** ** A link with a suspicious suffix *)

Section Links.

Variable check : string -> option string.

Lemma drop_while_run p run after :
  Str.forallb p run = true ->
  match after with String c _ => p c = false | EmptyString => True end ->
  drop_while p (run +:+ after) = after.
Proof.
  intros Hrun Hafter. induction run as [| c run IH].
  - change (EmptyString +:+ after) with after.
    destruct after as [| c after]; [reflexivity |].
    cbn [drop_while]. rewrite Hafter. reflexivity.
  - change (String c run +:+ after) with (String c (run +:+ after)).
    cbn [Str.forallb] in Hrun. apply andb_true_iff in Hrun as [Hc Hrun].
    cbn [drop_while]. rewrite Hc. apply IH, Hrun.
Qed.

Lemma url_at_match scheme body after :
  scheme = "http://" \/ scheme = "https://" ->
  body <> EmptyString -> Str.forallb url_char body = true ->
  starts_outside_url after ->
  url_at (scheme +:+ body +:+ after) = Some after.
Proof.
  intros Hs Hne Hb Ha. destruct body as [| c body]; [contradiction |].
  cbn [Str.forallb] in Hb. apply andb_true_iff in Hb as [Hc Hb].
  unfold url_at.
  destruct Hs as [-> | ->].
  - change (Str.startswith ("http://" +:+ String c body +:+ after) "https://")
      with false.
    change (Str.startswith ("http://" +:+ String c body +:+ after) "http://")
      with true.
    change (Str.drop 7 ("http://" +:+ String c body +:+ after))
      with (String c (body +:+ after)).
    cbn iota. rewrite Hc. f_equal. apply drop_while_run; assumption.
  - change (Str.startswith ("https://" +:+ String c body +:+ after) "https://")
      with true.
    change (Str.drop 8 ("https://" +:+ String c body +:+ after))
      with (String c (body +:+ after)).
    cbn iota. rewrite Hc. f_equal. apply drop_while_run; assumption.
Qed.

Lemma prefix_before_outside x : forall rest front z m,
  x +:+ rest = (front +:+ String z EmptyString) +:+ m ->
  Str.forallb url_char x = true -> url_char z = false ->
  (String.length x <= String.length front)%nat.
Proof.
  induction x as [| c x IH]; intros rest front z m E Hx Hz;
    [cbn; lia |].
  cbn [Str.forallb] in Hx. apply andb_true_iff in Hx as [Hc Hx].
  change (String c x +:+ rest) with (String c (x +:+ rest)) in E.
  destruct front as [| d front].
  - change ((EmptyString +:+ String z EmptyString) +:+ m) with (String z m) in E.
    injection E as -> _. congruence.
  - change ((String d front +:+ String z EmptyString) +:+ m)
      with (String d ((front +:+ String z EmptyString) +:+ m)) in E.
    injection E as _ E. cbn [String.length].
    specialize (IH _ _ _ _ E Hx Hz). lia.
Qed.

Lemma scheme_url_chars scheme :
  scheme = "http://" \/ scheme = "https://" ->
  Str.forallb url_char scheme = true.
Proof. intros [-> | ->]; reflexivity. Qed.

Lemma ends_outside_tail c s :
  ends_outside_url (String c s) -> ends_outside_url s.
Proof.
  intros [E | (front & z & E & Hz)]; [discriminate |].
  destruct front as [| d front].
  - change (EmptyString +:+ String z EmptyString) with (String z EmptyString) in E.
    injection E as _ ->. left. reflexivity.
  - change (String d front +:+ String z EmptyString)
      with (String d (front +:+ String z EmptyString)) in E.
    injection E as _ ->. right. eauto.
Qed.

(** A url that follows a text ending outside of urls is extracted. *)
Lemma findall_reaches url after :
  url_at (url +:+ after) = Some after ->
  forall before skip,
    ends_outside_url before -> (skip <= String.length before)%nat ->
    In url (Re.findall_from false Patterns.url_pattern skip
              (before +:+ url +:+ after)).
Proof.
  intros Hm. induction before as [| c before IH]; intros skip Hb Hskip.
  - change (EmptyString +:+ url +:+ after) with (url +:+ after).
    cbn [String.length] in Hskip.
    assert (skip = 0%nat) by lia. subst skip.
    pose proof (take_append url after) as T.
    destruct (url +:+ after) as [| c s] eqn:E; [discriminate Hm |].
    cbn [Re.findall_from]. rewrite match_rest_url, Hm.
    left. exact T.
  - change (String c before +:+ url +:+ after)
      with (String c (before +:+ url +:+ after)).
    pose proof (ends_outside_tail _ _ Hb) as Hb'.
    cbn [String.length] in Hskip.
    destruct skip as [| n]; cbn [Re.findall_from].
    + rewrite match_rest_url.
      destruct (url_at (String c (before +:+ url +:+ after))) as [rest |] eqn:E.
      * right. apply IH; [exact Hb' |].
        destruct (url_at_shape _ _ E) as (scheme & tail & Hs & Es & _ & Ht & _).
        destruct Hb as [Hb | (front & z & Hb & Hz)]; [discriminate |].
        assert (L : (String.length (scheme +:+ tail) <= String.length front)%nat).
        { apply (prefix_before_outside _ rest front z (url +:+ after)).
          - rewrite <- Es, <- Hb. reflexivity.
          - rewrite forallb_app, (scheme_url_chars _ Hs), Ht. reflexivity.
          - exact Hz. }
        rewrite Es at 1. rewrite length_append.
        assert (String.length (String c before) = S (String.length front)).
        { rewrite Hb, length_append. cbn [String.length]. lia. }
        cbn [String.length] in H. lia.
      * apply IH; [exact Hb' | lia].
    + apply IH; [exact Hb' | lia].
Qed.


Lemma take_until_run p run rest :
  Str.forallb (fun c => negb (p c)) run = true ->
  match rest with String c _ => p c = true | EmptyString => True end ->
  Str.take_until p (run +:+ rest) = run.
Proof.
  intros Hrun Hrest. induction run as [| c run IH].
  - change (EmptyString +:+ rest) with rest.
    destruct rest as [| c rest]; [reflexivity |].
    cbn [Str.take_until]. rewrite Hrest. reflexivity.
  - change (String c run +:+ rest) with (String c (run +:+ rest)).
    cbn [Str.forallb] in Hrun. apply andb_true_iff in Hrun as [Hc Hrun].
    apply negb_true_iff in Hc.
    cbn [Str.take_until]. rewrite Hc, (IH Hrun). reflexivity.
Qed.

Lemma host_char_parts c :
  host_char c = true ->
  url_char c = true /\ negb (Url.delimiter c) = true /\ no_bracket c = true.
Proof.
  unfold host_char. rewrite !andb_true_iff. tauto.
Qed.

(** The network location of a link: the host, up to the path. *)
Lemma netloc_link scheme loc path :
  scheme = "http://" \/ scheme = "https://" ->
  Str.forallb host_char loc = true ->
  match path with String c _ => c = "/"%char | EmptyString => True end ->
  Url.netloc check (scheme +:+ loc +:+ path) = inr loc.
Proof.
  intros Hs Hloc Hpath. unfold Url.netloc.
  assert (E : Url.strip_scheme (scheme +:+ loc +:+ path)
              = "//" +:+ loc +:+ path)
    by (destruct Hs as [-> | ->]; reflexivity).
  rewrite E.
  change (Str.startswith ("//" +:+ loc +:+ path) "//") with true.
  change (Str.drop 2 ("//" +:+ loc +:+ path)) with (loc +:+ path).
  cbn iota. cbv zeta.
  rewrite take_until_run.
  - destruct (no_bracket_contains loc) as [-> ->]; [| reflexivity].
    eapply forallb_impl; [| exact Hloc]. intros c Hc.
    apply host_char_parts, Hc.
  - eapply forallb_impl; [| exact Hloc]. intros c Hc.
    apply host_char_parts, Hc.
  - destruct path as [| c path]; [exact I | subst c; reflexivity].
Qed.

Lemma endswith_append a t : Str.endswith (a +:+ t) t = true.
Proof.
  induction a as [| c a IH].
  - change (EmptyString +:+ t) with t.
    destruct t; cbn [Str.endswith]; rewrite String.eqb_refl; reflexivity.
  - change (String c a +:+ t) with (String c (a +:+ t)).
    cbn [Str.endswith]. rewrite IH. apply orb_true_r.
Qed.

Lemma tld_char_host c :
  Ascii.eqb (Str.lower_char c) "." || Str.between 97 122 (Str.lower_char c)
  = true ->
  host_char c = true.
Proof. destruct c as [[] [] [] [] [] [] [] []]; vm_compute; congruence. Qed.

Lemma written_host_chars written :
  Str.forallb (fun c => Ascii.eqb c "." || Str.between 97 122 c)
    (Str.lower written) = true ->
  Str.forallb host_char written = true.
Proof.
  induction written as [| c w IH]; [reflexivity |].
  cbn [Str.lower Str.forallb]. rewrite !andb_true_iff.
  intros [Hc Hw]. split; [apply tld_char_host, Hc | apply IH, Hw].
Qed.

Lemma init_tlds_chars :
  Forall (fun tld =>
            tld <> EmptyString /\
            Str.forallb (fun c => Ascii.eqb c "." || Str.between 97 122 c) tld
            = true)
    (suspicious_tlds init).
Proof. repeat constructor; discriminate. Qed.

Lemma init_tlds_lower :
  Forall (fun tld => Str.lower tld = tld) (suspicious_tlds init).
Proof. repeat constructor. Qed.

(** X5: in a text without square brackets, a link whose host ends with a
    suffix of the table, written with ASCII letters of either case,
    standing after a piece of text that ends outside of urls and before
    one that starts outside of them, with or without a path, is reported
    by [analyze_message] with the reason of that suffix, and the message
    is rated Medium or High. *)
Theorem X5_suspicious_tld_link_is_flagged
    before scheme host written tld path after headers :
  let url := scheme +:+ (host +:+ written) +:+ path in
  let text := before +:+ url +:+ after in
  scheme = "http://" \/ scheme = "https://" ->
  In tld (suspicious_tlds init) -> ascii_lower written = tld ->
  Str.forallb host_char host = true ->
  path = EmptyString \/
  (exists rest, path = String "/" rest /\ Str.forallb url_char rest = true) ->
  ends_outside_url before -> starts_outside_url after ->
  Str.forallb no_bracket text = true ->
  exists r finding,
    returns (analyze_message check text headers) r /\
    In finding (url_analysis r) /\
    URLFinding.url finding = url /\
    In ("Suspicious TLD: " +:+ tld) (URLFinding.reasons finding) /\
    (risk_level r = "Medium" \/ risk_level r = "High").
Proof.
  intros url text Hs Htld Ha Hhost Hpath Hbefore Hafter Hnb.
  assert (Hw : Str.lower written = tld).
  { rewrite <- (lower_ascii_lower written), Ha.
    exact (proj1 (List.Forall_forall _ _) init_tlds_lower tld Htld). }
  destruct (proj1 (List.Forall_forall _ _) init_tlds_chars tld Htld)
    as [Tne Tchars].
  assert (Wh : Str.forallb host_char written = true)
    by (apply written_host_chars; rewrite Hw; exact Tchars).
  assert (Wne : written <> EmptyString)
    by (intros ->; apply Tne; symmetry; exact Hw).
  assert (Hloc : Str.forallb host_char (host +:+ written) = true)
    by (rewrite forallb_app, Hhost, Wh; reflexivity).
  assert (Hp : Str.forallb url_char path = true /\
               match path with
               | String c _ => c = "/"%char
               | EmptyString => True
               end).
  { destruct Hpath as [-> | (rest & -> & Hr)]; [split; [reflexivity | exact I] |].
    split; [| reflexivity]. cbn [Str.forallb]. rewrite Hr. reflexivity. }
  destruct Hp as [Hp1 Hp2].
  assert (Hbody : Str.forallb url_char ((host +:+ written) +:+ path) = true).
  { rewrite forallb_app, Hp1, andb_true_r.
    eapply forallb_impl; [| exact Hloc]. intros c Hc.
    apply host_char_parts, Hc. }
  assert (Bne : (host +:+ written) +:+ path <> EmptyString).
  { destruct host; [| discriminate].
    destruct written; [contradiction | discriminate]. }
  assert (Hat : url_at (url +:+ after) = Some after).
  { unfold url. rewrite append_assoc, append_assoc.
    rewrite <- (append_assoc (host +:+ written) path after).
    apply url_at_match; assumption. }
  assert (Hin : In url (Re.findall false Patterns.url_pattern text)).
  { apply (findall_reaches url after Hat before 0); [exact Hbefore | lia]. }
  destruct (analyze_message_total check text headers Hnb) as [_ [r Hr]].
  destruct (analyze_message_report check _ _ _ Hr)
    as (urls & kw & total & Hu & _ & _ & _ & _ & _ & Er).
  assert (Eu : url_analysis r = urls) by (rewrite Er; reflexivity).
  unfold returns, outcome in Hu. rewrite analyze_urls_run in Hu. cbn [snd] in Hu.
  destruct (collect_finds _ _ _ _ Hu Hin) as (finding & Hf & Ef).
  apply url_outcome_returns in Ef. destruct Ef as (loc & Hl & Ef).
  unfold url in Hl. rewrite (netloc_link _ _ _ Hs Hloc Hp2) in Hl.
  apply (inj inr) in Hl. subst loc.
  set (es := url_entries (suspicious_tlds init) url (host +:+ written)) in *.
  assert (He : In (Num.f0_4, "Suspicious TLD: " +:+ tld) es).
  { unfold es, url_entries. apply in_or_app. left.
    apply in_map_iff. exists tld. split; [reflexivity |].
    apply filter_In. split; [exact Htld |].
    rewrite lower_app, Hw. apply endswith_append. }
  rewrite url_finding_tally in Ef. fold es in Ef.
  exists r, finding. split; [exact Hr |]. rewrite Eu.
  split; [exact Hf |]. split; [rewrite Ef; reflexivity |]. split.
  - rewrite Ef. cbn [URLFinding.reasons]. unfold tally. cbn [snd].
    apply in_map_iff. exists (Num.f0_4, "Suspicious TLD: " +:+ tld). auto.
  - destruct (overall_lower check text headers r (Num.decimal 4 10) Hr
                eq_refl eq_refl) as [L ->].
    + left. rewrite Eu. apply List.Exists_exists. exists finding.
      split; [exact Hf |]. rewrite Ef. cbn [URLFinding.risk_score].
      apply (tally_lower es (Num.f0_4, "Suspicious TLD: " +:+ tld));
        [apply url_entries_weighty | exact He | reflexivity | reflexivity].
    + apply classify_not_low, L.
Qed.

End Links.

(** ** Headers only add *)

Section HeadersRaise.
Import Num.

Variable check : string -> option string.

Lemma classify_level o :
  (fst (classify o) = "High" <-> leb f0_7 o = true) /\
  (fst (classify o) = "Medium" ->
   leb f0_4 o = true).
Proof.
  unfold classify, geb.
  destruct (leb f0_7 o), (leb f0_4 o); cbn [fst]; repeat split;
    try reflexivity; try discriminate; auto.
Qed.

Lemma min_upper c total :
  normal c = true -> leb (Float c) f1_0 = true -> regular total = true ->
  leb (Float c) (min total f1_0) = true -> leb (Float c) total = true.
Proof.
  intros Nc L1 Rt H. destruct (min_cases total) as [E | [E L]];
    rewrite E in H; [exact H |].
  apply (leb_weaken c (decimal 10 10)); try assumption; try reflexivity.
  - apply leb_scaled; [exact Nc | reflexivity | exact L1].
  - apply ltb_leb_float, L.
Qed.

(** X19: giving headers never lowers the risk: the report of a message
    with a header mapping has the same findings and keywords as the report
    without, a score that is not below, and a level that is not below. *)
Theorem X19_headers_never_lower_the_risk text h r0 r1 :
  returns (analyze_message check text None) r0 ->
  returns (analyze_message check text (Some h)) r1 ->
  url_analysis r1 = url_analysis r0 /\
  keyword_analysis r1 = keyword_analysis r0 /\
  leb (overall_risk_score r0) (overall_risk_score r1) = true /\
  (risk_level r0 = "High" -> risk_level r1 = "High") /\
  (risk_level r0 = "Medium" ->
   risk_level r1 = "Medium" \/ risk_level r1 = "High").
Proof.
  intros H0 H1.
  destruct (report_ledger check _ _ _ H0) as (t0 & _ & Hk0 & Hh0 & Ht0 & Ho0 & Hl0).
  destruct (report_ledger check _ _ _ H1) as (t1 & _ & Hk1 & _ & Ht1 & Ho1 & Hl1).
  destruct (report_parts check _ _ _ H1) as (Pu & Pk & Ph).
  assert (Eu : url_analysis r1 = url_analysis r0).
  { destruct (analyze_message_report check _ _ _ H0)
      as (u0 & k0 & tt0 & Hu0 & _ & _ & _ & _ & _ & E0).
    destruct (analyze_message_report check _ _ _ H1)
      as (u1 & k1 & tt1 & Hu1 & _ & _ & _ & _ & _ & E1).
    rewrite E0, E1. cbn [url_analysis].
    unfold returns in Hu0, Hu1. congruence. }
  assert (Ek : keyword_analysis r1 = keyword_analysis r0) by congruence.
  rewrite Hh0 in Ht0. cbv zeta in Ht0, Ht1. rewrite Eu, Ek in Ht1.
  assert (Rb : regular t0 = true).
  { rewrite Ht0, <- Eu, <- Ek. apply add_regular; [| apply Pk].
    apply fold_fired; [reflexivity |]. apply Forall_map.
    eapply List.Forall_impl; [| exact Pu]. intros f Sf. apply Sf. }
  assert (Up : forall c, normal c = true ->
            leb (Float c) t0 = true -> leb (Float c) t1 = true).
  { intros c Nc L. rewrite Ht1, <- Ht0.
    destruct (header_analysis r1) as [hr |] eqn:Eh; [| exact L].
    apply (add_lower t0 _ c); try assumption. apply (Ph hr eq_refl). }
  assert (Rt : regular t1 = true).
  { rewrite Ht1, <- Ht0.
    destruct (header_analysis r1) as [hr |] eqn:Eh; [| exact Rb].
    apply add_regular; [exact Rb | apply (Ph hr eq_refl)]. }
  split; [exact Eu |]. split; [exact Ek |].
  rewrite Ho0, Ho1, Hl0, Hl1. split; [| split].
  - apply min_le_min; assumption.
  - intros L. apply classify_level in L. apply classify_high.
    apply min_lower; [reflexivity |]. apply Up; [reflexivity |].
    apply min_upper; try assumption; reflexivity.
  - intros L. apply classify_level in L. apply classify_not_low.
    apply min_lower; [reflexivity |]. apply Up; [reflexivity |].
    apply min_upper; try assumption; reflexivity.
Qed.

End HeadersRaise.

(** ** The letter case of the sender *)

Section SenderCase.

Lemma member_lower cs c :
  Re.member true cs (Str.lower_char c) = Re.member true cs c.
Proof. unfold Re.member. rewrite lower_char_idem. reflexivity. Qed.

Lemma length_lower s : String.length (Str.lower s) = String.length s.
Proof. induction s as [| c s IH]; cbn [Str.lower String.length]; congruence. Qed.

Lemma newline_lower c :
  Ascii.eqb (Str.lower_char c) (ascii_of_N 10) = Ascii.eqb c (ascii_of_N 10).
Proof. destruct c as [[] [] [] [] [] [] [] []]; reflexivity. Qed.

Lemma at_eol_lower s : Re.at_eol (Str.lower s) = Re.at_eol s.
Proof.
  unfold Re.at_eol, Re.newline. destruct s as [| c [| d s]]; [reflexivity | |].
  - cbn [Str.lower String.eqb]. rewrite newline_lower. reflexivity.
  - cbn [Str.lower String.eqb].
    destruct (Ascii.eqb (Str.lower_char c) _), (Ascii.eqb c _); reflexivity.
Qed.

Lemma found_or {A : Type} (x y : option A) :
  found match x with Some v => Some v | None => y end = found x || found y.
Proof. destruct x; reflexivity. Qed.

Lemma star_loop_lower a :
  (forall s k k',
      (forall t, found (k t) = found (k' (Str.lower t))) ->
      found (Re.bt true a s k) = found (Re.bt true a (Str.lower s) k')) ->
  forall n s k k',
    (forall t, found (k t) = found (k' (Str.lower t))) ->
    found (Re.star_loop (Re.bt true a) k n s)
    = found (Re.star_loop (Re.bt true a) k' n (Str.lower s)).
Proof.
  intros Ha. induction n as [| n IH]; intros s k k' Hk; cbn [Re.star_loop].
  - apply Hk.
  - rewrite !found_or. f_equal; [| apply Hk].
    apply Ha. intros t. rewrite !length_lower.
    destruct (String.length t <? String.length s)%nat; [| reflexivity].
    apply IH, Hk.
Qed.

(** Under [re.I] a pattern matches a subject exactly when it matches its
    lower-case form. *)
Lemma bt_lower r : forall s k k',
  (forall t, found (k t) = found (k' (Str.lower t))) ->
  found (Re.bt true r s k) = found (Re.bt true r (Str.lower s) k').
Proof.
  induction r as [| cs | a IHa b IHb | a IHa b IHb | a IHa |];
    intros s k k' Hk; cbn [Re.bt].
  - apply Hk.
  - destruct s as [| c s]; [reflexivity |]. cbn [Str.lower].
    rewrite member_lower. destruct (Re.member true cs c); [apply Hk | reflexivity].
  - apply IHa. intros t. apply IHb, Hk.
  - rewrite !found_or. f_equal; [apply IHa | apply IHb]; exact Hk.
  - rewrite length_lower. apply star_loop_lower; assumption.
  - rewrite at_eol_lower. destruct (Re.at_eol s); [apply Hk | reflexivity].
Qed.

Lemma is_match_lower p s :
  Re.is_match true p (Str.lower s) = Re.is_match true p s.
Proof.
  unfold Re.is_match, Re.match_rest.
  change (found (Re.bt true (Re.body p) (Str.lower s) Some)
          = found (Re.bt true (Re.body p) s Some)).
  symmetry. apply bt_lower. reflexivity.
Qed.

Lemma search_lower p s :
  Re.search true p (Str.lower s) = Re.search true p s.
Proof.
  unfold Re.search. destruct (Re.anchored p); [apply is_match_lower |].
  induction s as [| c s IH]; cbn [Str.lower Re.search_from].
  - reflexivity.
  - change (String (Str.lower_char c) (Str.lower s))
      with (Str.lower (String c s)).
    rewrite is_match_lower, IH. reflexivity.
Qed.

(** X20: without a [reply-to] header, [analyze_headers] ignores the case
    of the ASCII letters of the sender: two mappings that differ only in
    the [from] value get the same score and reasons when the two values
    differ in the case of ASCII letters only, the patterns being searched
    with [re.I]. *)
Theorem X20_sender_letter_case_ignored (h : gmap string string) s1 s2 self :
  h !! "reply-to" = None ->
  ascii_lower s1 = ascii_lower s2 ->
  analyze_headers (<["from" := s1]> h) self
  = analyze_headers (<["from" := s2]> h) self.
Proof.
  intros Hr Ha. pose proof (ascii_lower_same _ _ Ha) as Hl.
  rewrite !analyze_headers_entries.
  do 2 f_equal. unfold header_entries.
  rewrite !lookup_insert_eq, !lookup_insert_ne, Hr by discriminate.
  assert (E1 : List.filter (fun p => Re.search true p s1)
                 (suspicious_sender_patterns self)
               = List.filter (fun p => Re.search true p s2)
                   (suspicious_sender_patterns self)).
  { apply filter_ext. intros p.
    rewrite <- (search_lower p s1), <- (search_lower p s2), Hl. reflexivity. }
  assert (E2 : List.filter
                 (fun name => bool_decide (<["from" := s1]> h !! name = None))
                 important_headers
               = List.filter
                   (fun name => bool_decide (<["from" := s2]> h !! name = None))
                   important_headers).
  { apply filter_ext_in. intros name Hin.
    rewrite !lookup_insert_ne; [reflexivity | |];
      destruct Hin as [<- | [<- | [<- | []]]]; discriminate. }
  rewrite E1, E2. reflexivity.
Qed.

End SenderCase.

(** ** Two keywords together *)

Section Pairs.
Import Num.

Variable check : string -> option string.

(** A sum is not below what two of its terms reach together. *)
Lemma fold_pair l1 x l2 y l3 c c1 c2 acc :
  normal c = true -> normal c1 = true -> normal c2 = true ->
  regular acc = true ->
  Forall (fun w => regular w = true) (l1 ++ x :: l2 ++ y :: l3) ->
  leb (Float c1) x = true -> leb (Float c2) y = true ->
  scaled c <= scaled c1 + scaled c2 ->
  leb (Float c) (fold_left add (l1 ++ x :: l2 ++ y :: l3) acc) = true.
Proof.
  intros Nc N1 N2 Ra Hws Lx Ly S.
  apply Forall_app in Hws. destruct Hws as [R1 Hws].
  inversion Hws as [| ? ? Rx Hws']; subst.
  apply Forall_app in Hws'. destruct Hws' as [R2 Hws''].
  inversion Hws'' as [| ? ? Ry R3]; subst.
  rewrite fold_left_app. cbn [fold_left]. rewrite fold_left_app. cbn [fold_left].
  destruct (fold_fired l1 acc Ra R1) as [Ra1 _].
  set (a1 := fold_left add l1 acc) in *.
  destruct (add_regular a1 x Ra1 Rx) as [Rax _].
  assert (L1 : leb (Float c1) (add a1 x) = true)
    by (apply (add_lower x a1); assumption).
  destruct (fold_fired l2 _ Rax R2) as [Ra2 _].
  assert (L2 : leb (Float c1) (fold_left add l2 (add a1 x)) = true)
    by (apply fold_lower; auto).
  set (a2 := fold_left add l2 (add a1 x)) in *.
  apply fold_lower; [exact Nc | apply add_regular; assumption | exact R3 |].
  left. apply (add_floor2 _ _ c c1 c2); assumption.
Qed.

Lemma in_pair {A : Type} (a b : A) l :
  In a l -> In b l -> a <> b ->
  exists l1 l2 l3,
    l = l1 ++ a :: l2 ++ b :: l3 \/ l = l1 ++ b :: l2 ++ a :: l3.
Proof.
  intros Ha Hb Hab. destruct (in_split _ _ Ha) as (p & q & ->).
  apply in_app_or in Hb. destruct Hb as [Hb | [Hb | Hb]].
  - destruct (in_split _ _ Hb) as (p1 & p2 & ->).
    exists p1, p2, q. right. rewrite <- app_assoc. reflexivity.
  - contradiction.
  - destruct (in_split _ _ Hb) as (q1 & q2 & ->).
    exists p, q1, q2. left. reflexivity.
Qed.

(** A tally is not below what two of its entries reach together. *)
Lemma tally_pair es e1 e2 c c1 c2 :
  Forall weighty es -> In e1 es -> In e2 es -> e1 <> e2 ->
  normal c = true -> normal c1 = true -> normal c2 = true ->
  leb (Float c1) (fst e1) = true -> leb (Float c2) (fst e2) = true ->
  scaled c <= scaled c1 + scaled c2 ->
  leb (Float c) (fst (tally es)) = true.
Proof.
  intros W H1 H2 Hne Nc N1 N2 L1 L2 S.
  pose proof (weighty_regular _ W) as R.
  unfold tally. cbn [fst].
  destruct (in_pair e1 e2 es H1 H2 Hne) as (p & q & s & [E | E]);
    rewrite E in R |- *; rewrite !map_app in R |- *; cbn [map] in R |- *;
    rewrite !map_app in R |- *; cbn [map] in R |- *.
  - apply (fold_pair _ _ _ _ _ c c1 c2); auto.
  - apply (fold_pair _ _ _ _ _ c c2 c1); auto. lia.
Qed.

Lemma init_weights_02 :
  Forall (fun item : string * num => leb f0_2 (snd item) = true)
    (suspicious_keywords init).
Proof. repeat constructor. Qed.

(** X21: every report of a text whose lower-cased form holds two
    different keywords of the table lists both, overlapping ones such as
    [urgent] inside [urgent payment] included, and is rated High when one
    of them weighs 0.5 or more, or one 0.4 or more and the other 0.3 or
    more; a report is returned whenever the text holds no square
    bracket. *)
Theorem X21_two_keywords_force_high text headers k1 w1 k2 w2 :
  In (k1, w1) (suspicious_keywords init) ->
  In (k2, w2) (suspicious_keywords init) ->
  k1 <> k2 ->
  Str.contains (Str.lower text) k1 = true ->
  Str.contains (Str.lower text) k2 = true ->
  leb f0_5 w1 = true \/ (leb f0_4 w1 = true /\ leb f0_3 w2 = true) ->
  (forall r,
      returns (analyze_message check text headers) r ->
      In k1 (KeywordResult.detected_keywords (keyword_analysis r)) /\
      In k2 (KeywordResult.detected_keywords (keyword_analysis r)) /\
      risk_level r = "High") /\
  (Str.forallb no_bracket text = true ->
   exists r, returns (analyze_message check text headers) r).
Proof.
  intros Hin1 Hin2 Hne Hc1 Hc2 Hw.
  split; [| intros Hnb; apply (analyze_message_total check text headers Hnb)].
  intros r H.
  destruct (report_ledger check _ _ _ H) as (_ & _ & Hk & _).
  set (es := keyword_entries (suspicious_keywords init) (Str.lower text)) in *.
  assert (He : forall k w, In (k, w) (suspicious_keywords init) ->
             Str.contains (Str.lower text) k = true -> In (w, k) es).
  { intros k w Hin Hc. unfold es, keyword_entries. apply in_map_iff.
    exists (k, w). split; [reflexivity |]. apply filter_In. auto. }
  pose proof (He _ _ Hin1 Hc1) as He1. pose proof (He _ _ Hin2 Hc2) as He2.
  pose proof (keyword_entries_weighty (Str.lower text)) as W. fold es in W.
  assert (Hd : forall k w, In (w, k) es ->
             In k (KeywordResult.detected_keywords (keyword_analysis r))).
  { intros k w Hin. rewrite Hk. cbn [KeywordResult.detected_keywords].
    unfold tally. cbn [snd]. apply in_map_iff. exists (w, k). auto. }
  split; [eapply Hd; eassumption |]. split; [eapply Hd; eassumption |].
  assert (L : leb f0_7 (KeywordResult.score (keyword_analysis r)) = true).
  { rewrite Hk. cbn [KeywordResult.score].
    assert (Hne' : (w1, k1) <> (w2, k2)) by congruence.
    destruct Hw as [L1 | [L1 L2]].
    - pose proof (proj1 (List.Forall_forall _ _) init_weights_02 _ Hin2) as L2.
      cbn [snd] in L2.
      apply (tally_pair es (w1, k1) (w2, k2) (decimal 7 10) (decimal 5 10)
               (decimal 2 10)); try assumption; try reflexivity.
      apply Z.leb_le. vm_compute. reflexivity.
    - apply (tally_pair es (w1, k1) (w2, k2) (decimal 7 10) (decimal 4 10)
               (decimal 3 10)); try assumption; try reflexivity.
      apply Z.leb_le. vm_compute. reflexivity. }
  destruct (overall_lower check text headers r (decimal 7 10) H eq_refl eq_refl)
    as [L' ->]; [right; left; exact L |].
  apply classify_high, L'.
Qed.

End Pairs.

(** ** Concrete runs *)

(** The report of the example of [main]: five keywords, one link on a
    suspicious TLD, a reply-to mismatch, one sender pattern and the three
    authenticity headers missing; the raw total is far above 1.0. *)
Example main_report :
  returns (analyze_message accept_all test_message (Some test_headers))
    {| overall_risk_score := Num.f1_0;
       risk_level := "High";
       url_analysis :=
         [URLFinding.Build "http://fiverr-secure-payments.tk/verify"
            (Num.add (Num.Int 0) Num.f0_4) ["Suspicious TLD: .tk"]];
       keyword_analysis :=
         KeywordResult.Build
           (Num.sum [Num.f0_3; Num.f0_4; Num.f0_7; Num.f0_5; Num.f0_5])
           ["urgent"; "verify your account"; "direct payment"; "whatsapp";
            "fiverr support team"];
       header_analysis :=
         Some (HeaderResult.Build
                 (Num.sum [Num.f0_4; Num.f0_3; Num.f0_2; Num.f0_2; Num.f0_2])
                 ["Reply-To domain mismatch";
                  "Suspicious sender pattern: support[._-]?team[._-]?\d*@";
                  "Missing important header: received";
                  "Missing important header: authentication-results";
                  "Missing important header: dkim-signature"]);
       recommendations := ["Block this message immediately"] |}.
Proof. vm_compute. reflexivity. Qed.

(** The same link twice gives two findings, and a text without links
    gives none. *)
Example duplicates_kept :
  returns (analyze_urls accept_all "http://a.tk http://a.tk")
    [URLFinding.Build "http://a.tk" (Num.add (Num.Int 0) Num.f0_4)
       ["Suspicious TLD: .tk"];
     URLFinding.Build "http://a.tk" (Num.add (Num.Int 0) Num.f0_4)
       ["Suspicious TLD: .tk"]].
Proof. vm_compute. reflexivity. Qed.

Example no_urls : returns (analyze_urls accept_all "no links here") [].
Proof. vm_compute. reflexivity. Qed.

(** Sender patterns match whatever the case, and keywords too. *)
Example sender_any_case :
  map Re.source
    (List.filter (fun p => Re.search true p "FIVERR_Support99@x.com")
       (suspicious_sender_patterns init))
  = ["support[_-]?\d+"; "fiverr[._-]?support\d*@"].
Proof. vm_compute. reflexivity. Qed.

Example keyword_any_case :
  returns (analyze_keywords "URGENT") (Num.add (Num.Int 0) Num.f0_3, ["urgent"]) /\
  returns (analyze_keywords "urgent") (Num.add (Num.Int 0) Num.f0_3, ["urgent"]).
Proof. split; vm_compute; reflexivity. Qed.

(** C1 at a message with one suspicious link and two keywords. *)
Lemma C1_witness :
  exists r,
    returns (analyze_message accept_all
               "Click here to verify your account: http://pay.tk/login" None) r /\
    aggregate_formula header_score accept_all
      "Click here to verify your account: http://pay.tk/login" None r.
Proof.
  eexists. split; [vm_compute; reflexivity |].
  apply (proj1 (C1_aggregate_score accept_all)). vm_compute. reflexivity.
Defined.

(** C1 as stated fails for the empty header mapping: the report of the
    empty message with the headers [{}] has score 0, whereas the score of
    [analyze_headers] on [{}] is 0.2 + 0.2 + 0.2. *)
Lemma C1_counterexample :
  exists r,
    returns (analyze_message accept_all "" (Some ∅)) r /\
    ~ aggregate_formula stated_header_score accept_all "" (Some ∅) r.
Proof.
  eexists. split; [vm_compute; reflexivity |].
  intros (ks & kws & hs & _ & Hk & (reasons & Hh) & Ho).
  unfold returns, outcome in Hk, Hh.
  vm_compute in Hk. apply (inj inr) in Hk.
  vm_compute in Hh. apply (inj inr) in Hh.
  injection Hk as <- <-. injection Hh as <- <-.
  vm_compute in Ho. discriminate Ho.
Qed.

(** C2 at a message whose raw total exceeds 1.0. *)
Lemma C2_witness :
  exists r,
    returns (analyze_message accept_all
               "urgent payment by bitcoin payment at http://1.2.3.4/%41"
               (Some {["from" := "12345@x.tk"]})) r /\
    Num.leb (Num.Float (S754_zero false)) (overall_risk_score r) = true /\
    Num.leb (overall_risk_score r) Num.f1_0 = true.
Proof.
  eexists. split; [vm_compute; reflexivity |].
  apply (proj1 (C2_score_within_bounds accept_all)
           "urgent payment by bitcoin payment at http://1.2.3.4/%41"
           (Some {["from" := "12345@x.tk"]})).
  vm_compute. reflexivity.
Defined.

(** C3 at a message whose score is exactly 0.7. *)
Lemma C3_witness :
  exists r,
    returns (analyze_message accept_all "paypal only" None) r /\
    Num.eqb (overall_risk_score r) Num.f0_7 = true /\
    risk_level r = "High".
Proof.
  eexists. split; [vm_compute; reflexivity |].
  split; [vm_compute; reflexivity |].
  refine (proj1 (proj2 (proj2 (proj2
            (C3_classification accept_all "paypal only" None _ _)))) _);
    vm_compute; reflexivity.
Defined.

(** C3 at a message whose score is exactly 0.4. *)
Lemma C3_medium_at_0_4 :
  exists r,
    returns (analyze_message accept_all "account suspended" None) r /\
    Num.eqb (overall_risk_score r) Num.f0_4 = true /\
    risk_level r = "Medium".
Proof.
  eexists. split; [vm_compute; reflexivity |].
  split; vm_compute; reflexivity.
Qed.

(** C4 as stated fails at the value ["alice"]: it has no [@], yet its
    segment is ["alice"], not the empty string.  With [from] = ["alice"]
    and [reply-to] = ["bob"] the segments the claim describes are equal,
    and the analyzer reports a mismatch and adds 0.4. *)
Lemma C4_counterexample :
  Str.contains "alice" "@" = false /\
  Str.last_item (Str.split "alice" "@") <> inr (stated_domain_of "alice") /\
  stated_domain_of "alice" = stated_domain_of "bob" /\
  returns
    (analyze_headers
       (<["from" := "alice"]> (<["reply-to" := "bob"]>
          (<["received" := "r"]> (<["authentication-results" := "a"]>
             {["dkim-signature" := "d"]})))))
    (Num.add (Num.Int 0) Num.f0_4, ["Reply-To domain mismatch"]).
Proof.
  split; [reflexivity |]. split; [vm_compute; discriminate |].
  split; vm_compute; reflexivity.
Qed.

(** C4 at the value ["alice"]. *)
Lemma C4_witness :
  Str.contains "alice" "@" = false /\
  Str.last_item (Str.split "alice" "@") = inr "alice".
Proof.
  split; [reflexivity |].
  apply (proj1 C4_domain_segment "alice"). reflexivity.
Defined.

(** C7 as stated fails at the empty mapping: only the three missing-header
    penalties apply, and the score is 0.2 + 0.2 + 0.2, the float
    0.6000000000000001, which is not equal to 0.6. *)
Lemma C7_counterexample :
  exists score reasons,
    returns (analyze_headers ∅) (score, reasons) /\
    score = Num.Float (S754_finite false 5404319552844596 (-53)) /\
    Num.f0_6 = Num.Float (S754_finite false 5404319552844595 (-53)) /\
    Num.eqb score Num.f0_6 = false.
Proof.
  eexists. eexists. split; [vm_compute; reflexivity |].
  repeat split; vm_compute; reflexivity.
Qed.

(** C7 at a spoofed sender whose three authenticity headers are absent. *)
Lemma C7_witness :
  exists reasons,
    returns
      (analyze_headers
         (<["from" := "fiverr-support@x.tk"]> {["reply-to" := "ops@y.com"]}))
      (Num.add (Num.add (Num.add
         (Num.add (Num.add (Num.Int 0) Num.f0_4) Num.f0_3)
         Num.f0_2) Num.f0_2) Num.f0_2,
       reasons).
Proof.
  pose proof (proj2 (C7_header_checks
    (<["from" := "fiverr-support@x.tk"]> {["reply-to" := "ops@y.com"]})))
    as H.
  cbv zeta in H. destruct H as [reasons H]; [vm_compute; reflexivity |].
  exists reasons. vm_compute in H |- *. exact H.
Defined.

(** C10 at a link to a private address. *)
Lemma C10_witness :
  exists finding,
    returns (analyze_urls accept_all "visit http://192.168.0.1/login")
      [finding] /\
    URLFinding.url finding = "http://192.168.0.1/login" /\
    In "Multiple subdomains detected" (URLFinding.reasons finding) /\
    Num.geb (URLFinding.risk_score finding) Num.f0_8 = true.
Proof.
  eexists. split; [vm_compute; reflexivity |].
  split; [reflexivity |].
  match goal with
  | |- In _ (URLFinding.reasons ?f) /\ _ =>
      destruct (C10_ip_literal_has_three_dots accept_all
                  "visit http://192.168.0.1/login" "http://192.168.0.1/login"
                  "192.168.0.1") as (_ & _ & _ & H);
        [left; reflexivity | vm_compute; reflexivity | |
         destruct (H [f]) as (_ & Hall);
           [vm_compute; reflexivity |
            destruct (Hall f) as (_ & H2 & H3 & _);
              [left; reflexivity | reflexivity |
               split; [exact H2 | exact H3]]]]
  end.
  exists "192", "168", "0", "1".
  repeat split; try discriminate; reflexivity.
Defined.

(** C9 at the message ["account suspended"], whose report is computed. *)
Lemma C9_witness :
  header_analysis
    {| overall_risk_score := Num.f0_4;
       risk_level := "Medium";
       url_analysis := [];
       keyword_analysis := KeywordResult.Build Num.f0_4 ["account suspended"];
       header_analysis := None;
       recommendations :=
         ["Review message carefully before taking any action"] |}
  = None.
Proof.
  apply (proj1 (proj2 (C9_empty_headers_as_none accept_all))
           "account suspended").
  vm_compute. reflexivity.
Defined.

(** *** Runs of the further properties *)

Lemma X5_witness :
  exists r finding,
    returns (analyze_message accept_all "see http://evil.TK/x now" None) r /\
    In finding (url_analysis r) /\
    URLFinding.url finding = "http://evil.TK/x" /\
    In "Suspicious TLD: .tk" (URLFinding.reasons finding) /\
    (risk_level r = "Medium" \/ risk_level r = "High").
Proof.
  apply (X5_suspicious_tld_link_is_flagged accept_all
           "see " "http://" "evil" ".TK" ".tk" "/x" " now" None).
  - left. reflexivity.
  - left. reflexivity.
  - reflexivity.
  - reflexivity.
  - right. exists "x". split; reflexivity.
  - right. exists "see", " "%char. split; reflexivity.
  - reflexivity.
  - reflexivity.
Defined.

Lemma X6_witness :
  exists finding,
    returns (analyze_urls accept_all "http://evil.tk:8080/login") [finding] /\
    Url.netloc accept_all (URLFinding.url finding) = inr "evil.tk:8080" /\
    ~ In "Suspicious TLD: .tk" (URLFinding.reasons finding).
Proof.
  eexists. split; [vm_compute; reflexivity |]. split; [vm_compute; reflexivity |].
  match goal with
  | |- ~ In _ (URLFinding.reasons ?f) =>
      apply (X6_non_letter_end_hides_tld accept_all "http://evil.tk:8080/login"
               [f] f "evil.tk:8080" "0")
  end;
    [vm_compute; reflexivity | left; reflexivity | vm_compute; reflexivity
    | reflexivity | reflexivity].
Defined.

Lemma X7_witness :
  exists finding,
    returns (analyze_urls accept_all "http://a.b.c.tk/%7e") [finding] /\
    (length (URLFinding.reasons finding) <= 3)%nat /\
    Num.leb (URLFinding.risk_score finding) (Num.Float (Num.decimal 11 10))
    = true.
Proof.
  eexists. split; [vm_compute; reflexivity |].
  match goal with
  | |- (length (URLFinding.reasons ?f) <= 3)%nat /\ _ =>
      pose proof (X7_finding_score_range accept_all "http://a.b.c.tk/%7e" [f] f)
        as H
  end.
  destruct H as (H1 & _ & H3);
    [vm_compute; reflexivity | left; reflexivity |].
  split; [exact H1 | exact H3].
Defined.

Lemma X8_witness :
  exists score keywords,
    returns (analyze_keywords "Pay by WESTERN Union") (score, keywords) /\
    returns (analyze_keywords "pay by western union") (score, keywords) /\
    In "western union" keywords.
Proof.
  eexists. eexists. split; [vm_compute; reflexivity |].
  match goal with
  | |- returns _ (?s, ?k) /\ _ =>
      pose proof (X8_keyword_detection_ignores_case "Pay by WESTERN Union" s k)
        as H
  end.
  destruct H as (H1 & _ & H3); [vm_compute; reflexivity |].
  split; [exact H3 |]. apply H1. split.
  - vm_compute. auto 20.
  - exists "Pay by ", "WESTERN Union", "". split; reflexivity.
Defined.

Lemma X9_witness :
  exists s1 k1 s2 k2,
    returns (analyze_keywords "click here") (s1, k1) /\
    returns (analyze_keywords ("urgent: " +:+ "click here" +:+ " (limited time)"))
      (s2, k2) /\
    sublist k1 k2 /\ (length k1 <= length k2)%nat.
Proof.
  exists (Num.add (Num.Int 0) Num.f0_2), ["click here"],
    (Num.add (Num.add (Num.add (Num.Int 0) Num.f0_3) Num.f0_2) Num.f0_2),
    ["urgent"; "click here"; "limited time"].
  split; [vm_compute; reflexivity |].
  split; [vm_compute; reflexivity |].
  destruct (X9_keyword_detection_grows "urgent: " "click here" " (limited time)"
              (Num.add (Num.Int 0) Num.f0_2) ["click here"]
              (Num.add (Num.add (Num.add (Num.Int 0) Num.f0_3) Num.f0_2) Num.f0_2)
              ["urgent"; "click here"; "limited time"])
    as (H1 & H2 & _); [vm_compute; reflexivity .. |].
  split; [exact H1 | exact H2].
Defined.

Lemma X10_witness :
  analyze_headers
    (<["From" := "x@y"]> (<["subject" := "hi"]> {["from" := "a@b.c"]})) init
  = analyze_headers {["from" := "a@b.c"]} init.
Proof.
  apply (X10_headers_read_five_keys accept_all
           (<["From" := "x@y"]> (<["subject" := "hi"]> {["from" := "a@b.c"]}))
           {["from" := "a@b.c"]}).
  - reflexivity.
  - intros _. reflexivity.
  - intros name [<- | [<- | [<- | []]]]; split; intros _; reflexivity.
Defined.

Lemma X12_witness :
  exists r,
    returns (analyze_message accept_all "click here"
               (Some {["from" := "a@b.c"]})) r /\
    returns (analyze_urls accept_all "click here") (url_analysis r) /\
    length (recommendations r) = 1%nat.
Proof.
  eexists. split; [vm_compute; reflexivity |].
  match goal with
  | |- returns _ (url_analysis ?r) /\ _ =>
      destruct (X12_report_holds_analyzer_results accept_all "click here"
                  (Some {["from" := "a@b.c"]}) r) as (H1 & _ & _ & H4)
  end; [vm_compute; reflexivity |].
  split; [exact H1 | exact H4].
Defined.

Lemma X13_witness :
  exists r,
    returns (analyze_message accept_all "see http://example.com/ for details"
               None) r /\
    evidence r = 0%nat /\ overall_risk_score r = Num.Int 0 /\
    risk_level r = "Low".
Proof.
  eexists. split; [vm_compute; reflexivity |].
  match goal with
  | |- evidence ?r = _ /\ _ =>
      destruct (X13_evidence_zero_or_positive accept_all
                  "see http://example.com/ for details" None r)
        as (H1 & H2 & _)
  end; [vm_compute; reflexivity |].
  assert (E : evidence
                {| overall_risk_score := Num.Int 0;
                   risk_level := "Low";
                   url_analysis :=
                     [URLFinding.Build "http://example.com/" (Num.Int 0) []];
                   keyword_analysis := KeywordResult.Build (Num.Int 0) [];
                   header_analysis := None;
                   recommendations :=
                     ["Message appears to be legitimate but always exercise caution"] |}
                = 0%nat) by reflexivity.
  split; [exact E |]. split; [apply H1, E | apply H2, E].
Defined.

Lemma X14_witness :
  exists r,
    returns (analyze_message accept_all "Click here, limited time!" None) r /\
    (2 <= evidence r)%nat /\
    (risk_level r = "Medium" \/ risk_level r = "High").
Proof.
  eexists. split; [vm_compute; reflexivity |].
  match goal with
  | |- (2 <= evidence ?r)%nat /\ _ =>
      destruct (X14_evidence_count_level accept_all
                  "Click here, limited time!" None r) as (H1 & _)
  end; [vm_compute; reflexivity |].
  assert (E : (2 <= 2)%nat) by lia.
  split; [exact E | apply H1; exact E].
Defined.

Lemma X15_witness :
  exists r,
    returns (analyze_message accept_all
               "bitcoin payment via http://1.2.3.4/%41" None) r /\
    Num.leb
      (Num.min (KeywordResult.score (keyword_analysis r)) Num.f1_0)
      (overall_risk_score r) = true.
Proof.
  eexists. split; [vm_compute; reflexivity |].
  match goal with
  | |- Num.leb _ (overall_risk_score ?r) = true =>
      destruct (X15_components_below_overall accept_all
                  "bitcoin payment via http://1.2.3.4/%41" None r)
        as (_ & H2 & _)
  end; [vm_compute; reflexivity |].
  exact H2.
Defined.

Lemma X16_witness :
  exists r,
    returns (analyze_message accept_all "Please use PayPal only." None) r /\
    In "paypal only" (KeywordResult.detected_keywords (keyword_analysis r)) /\
    risk_level r = "High".
Proof.
  destruct (X16_keyword_forces_level accept_all "Please use PayPal only." None
              "paypal only" Num.f0_7) as (Hall & Hex);
    [vm_compute; auto 20 | vm_compute; reflexivity |].
  destruct Hex as [r Hr]; [vm_compute; reflexivity |].
  destruct (Hall r Hr) as (H1 & _ & H3 & _).
  exists r. split; [exact Hr |].
  split; [exact H1 | apply H3; vm_compute; reflexivity].
Defined.

Lemma X17_witness :
  exists r finding,
    returns (analyze_message accept_all "open http://10.0.0.1/" None) r /\
    In finding (url_analysis r) /\
    In "IP address used instead of domain name" (URLFinding.reasons finding) /\
    risk_level r = "High".
Proof.
  eexists. eexists. split; [vm_compute; reflexivity |].
  split; [left; reflexivity |].
  match goal with
  | |- In _ (URLFinding.reasons ?f) /\ risk_level ?r = _ =>
      destruct (X17_url_reason_forces_level accept_all "open http://10.0.0.1/" None
                  r f) as (H1 & _)
  end; [vm_compute; reflexivity | left; reflexivity |].
  assert (E : In "IP address used instead of domain name"
                ["IP address used instead of domain name";
                 "Multiple subdomains detected"]) by (left; reflexivity).
  split; [exact E | apply H1; exact E].
Defined.

Lemma X18_witness :
  exists r,
    returns (analyze_message accept_all "hello"
               (Some (<["from" := "billing@shop.example"]>
                        {["reply-to" := "billing@evil.example"]}))) r /\
    (risk_level r = "Medium" \/ risk_level r = "High").
Proof.
  destruct (X18_header_findings_force_level accept_all "hello"
              (<["from" := "billing@shop.example"]>
                 {["reply-to" := "billing@evil.example"]})) as (Hall & Hex).
  destruct Hex as [r Hr]; [vm_compute; reflexivity |].
  destruct (Hall r Hr) as (H1 & _).
  exists r. split; [exact Hr |].
  apply (H1 "billing@shop.example" "billing@evil.example");
    [reflexivity | reflexivity | vm_compute; discriminate].
Defined.

Lemma X19_witness :
  exists r0 r1,
    returns (analyze_message accept_all "account suspended" None) r0 /\
    returns (analyze_message accept_all "account suspended"
               (Some {["subject" := "notice"]})) r1 /\
    risk_level r0 = "Medium" /\
    (risk_level r1 = "Medium" \/ risk_level r1 = "High").
Proof.
  eexists. eexists. split; [vm_compute; reflexivity |].
  split; [vm_compute; reflexivity |].
  match goal with
  | |- risk_level ?r0 = _ /\ (risk_level ?r1 = _ \/ _) =>
      destruct (X19_headers_never_lower_the_risk accept_all "account suspended"
                  {["subject" := "notice"]} r0 r1) as (_ & _ & _ & _ & H5)
  end; [vm_compute; reflexivity | vm_compute; reflexivity |].
  split; [reflexivity | apply H5; reflexivity].
Defined.

Lemma X20_witness :
  analyze_headers
    (<["from" := "Security-Alert@Fiverr.com"]> {["received" := "mx"]}) init
  = analyze_headers
      (<["from" := "security-alert@fiverr.COM"]> {["received" := "mx"]}) init.
Proof.
  apply (X20_sender_letter_case_ignored {["received" := "mx"]}
           "Security-Alert@Fiverr.com" "security-alert@fiverr.COM" init).
  - reflexivity.
  - reflexivity.
Defined.

Lemma X21_witness :
  exists r,
    returns (analyze_message accept_all "URGENT PAYMENT needed" None) r /\
    In "urgent payment" (KeywordResult.detected_keywords (keyword_analysis r)) /\
    In "urgent" (KeywordResult.detected_keywords (keyword_analysis r)) /\
    risk_level r = "High".
Proof.
  destruct (X21_two_keywords_force_high accept_all "URGENT PAYMENT needed" None
              "urgent payment" Num.f0_6 "urgent" Num.f0_3) as (Hall & Hex).
  - vm_compute. repeat (try (left; reflexivity); right).
  - vm_compute. repeat (try (left; reflexivity); right).
  - discriminate.
  - vm_compute; reflexivity.
  - vm_compute; reflexivity.
  - left. vm_compute; reflexivity.
  - destruct Hex as [r Hr]; [vm_compute; reflexivity |].
    exists r. split; [exact Hr | exact (Hall r Hr)].
Defined.
